(** * ImguUnit: the request-processing controller of the rkisp1 camera HAL

    A shallow embedding of [ImguUnit.cpp] (stream classification, stream to
    node mapping, worker-chain construction, the message-driven control loop,
    the completion reordering of [startProcessing] and flush handling),
    followed by the properties of the controller that the specification
    states.

    Conventions of the embedding:
    - the object's members are the fields of the record [ImguUnit]; a member
      function is a function from the state to a status and a new state;
    - every call that leaves the controller (Workers, Poller, Link
      Configurator, listeners, the request's [setError]) appends an [Event]
      to the [trace] field, in program order; what such a call returns is
      read from an environment [Env] that sees the whole trace so far;
    - a dereference the C++ leaves undefined (a null [mCurPipeConfig], the
      front of an empty vector) makes the function return [None];
    - [int] and [unsigned int] values are [Z]; conversions and wrap-around
      are written with [u32]; [float] is IEEE binary32 from [SpecFloat]. *)

From Stdlib Require Import ZArith List Bool Lia Sorted.
From Stdlib Require Import Floats.SpecFloat.
From stdpp Require Import base option list strings gmap sorting.

Local Open Scope Z_scope.

(* ================================================================== *)
(** ** Status codes and machine integers *)
(* ================================================================== *)

Definition status_t := Z.

(** Values of Android's [utils/Errors.h]. *)
Definition OK : status_t := 0.
Definition NO_ERROR : status_t := 0.
Definition UNKNOWN_ERROR : status_t := -2147483648.
Definition BAD_VALUE : status_t := -22.
Definition EAGAIN : Z := 11.

(** [status |= x] on [status_t]. *)
Definition status_or (a b : status_t) : status_t := Z.lor a b.

(** Conversion to [unsigned int] / [uint32_t]. *)
Definition u32 (z : Z) : Z := z mod 2 ^ 32.

(* ================================================================== *)
(** ** IEEE binary32, the [float] of the stream-ratio computation *)
(* ================================================================== *)

Module F32.
Definition prec : Z := 24.
Definition emax : Z := 128.

(** [(float) n] for an integer [n], rounded to nearest even. *)
Definition of_Z (n : Z) : spec_float := binary_normalize prec emax n 0 false.
Definition div : spec_float -> spec_float -> spec_float := SFdiv prec emax.
Definition sub : spec_float -> spec_float -> spec_float := SFsub prec emax.
Definition fabs : spec_float -> spec_float := SFabs.
Definition leb : spec_float -> spec_float -> bool := SFleb.
Definition ltb : spec_float -> spec_float -> bool := SFltb.

(** The literal [0.000001f]: bit pattern 0x358637BD. *)
Definition micro : spec_float := S754_finite false 8796093 (-43).
End F32.

(* ================================================================== *)
(** ** Streams, nodes, requests, workers *)
(* ================================================================== *)

(** [camera3_stream_t], seen through a [camera3_stream_t*]: [stream_addr]
    is the pointer value, the key of [mStreamListenerMapping]. *)
Record camera3_stream_t := {
  stream_addr : N;
  stream_type : Z;
  width : Z;
  height : Z;
  format : Z
}.

Definition CAMERA3_STREAM_OUTPUT : Z := 0.
Definition CAMERA3_STREAM_INPUT : Z := 1.
Definition CAMERA3_STREAM_BIDIRECTIONAL : Z := 2.

Definition HAL_PIXEL_FORMAT_BLOB : Z := 33.
Definition HAL_PIXEL_FORMAT_IMPLEMENTATION_DEFINED : Z := 34.
Definition HAL_PIXEL_FORMAT_YCbCr_420_888 : Z := 35.

(** The node tags [mapStreamWithDeviceNode] and [createProcessingTasks]
    name; every other enumerator is an [IMGU_NODE_OTHER]. *)
Inductive NodeTypes :=
| IMGU_NODE_VIDEO
| IMGU_NODE_VF_PREVIEW
| IMGU_NODE_PV_PREVIEW
| IMGU_NODE_STILL
| IMGU_NODE_RAW
| IMGU_NODE_OTHER (tag : positive).

#[global] Instance NodeTypes_eq_dec : EqDecision NodeTypes.
Proof. solve_decision. Defined.

Definition NodeTypes_encode (n : NodeTypes) : positive :=
  match n with
  | IMGU_NODE_VIDEO => 1
  | IMGU_NODE_VF_PREVIEW => 2
  | IMGU_NODE_PV_PREVIEW => 3
  | IMGU_NODE_STILL => 4
  | IMGU_NODE_RAW => 5
  | IMGU_NODE_OTHER t => 5 + t
  end%positive.

Definition NodeTypes_decode (p : positive) : NodeTypes :=
  match p with
  | 1 => IMGU_NODE_VIDEO
  | 2 => IMGU_NODE_VF_PREVIEW
  | 3 => IMGU_NODE_PV_PREVIEW
  | 4 => IMGU_NODE_STILL
  | 5 => IMGU_NODE_RAW
  | _ => IMGU_NODE_OTHER (p - 5)
  end%positive.

#[global] Instance NodeTypes_countable : Countable NodeTypes.
Proof.
  refine (inj_countable' NodeTypes_encode NodeTypes_decode _).
  intros [| | | | |t]; try reflexivity.
  unfold NodeTypes_encode, NodeTypes_decode.
  replace (5 + t - 5)%positive with t by lia.
  destruct (5 + t)%positive as [[[|q|]|[|q|]|]|[[|q|]|[|q|]|]|] eqn:E;
    try reflexivity; lia.
Defined.

(** A [V4L2VideoNode] object, by its identity; a [std::shared_ptr] to one
    is an [option V4L2VideoNode]. *)
Definition V4L2VideoNode := N.

(** [Camera3Request], seen through a [Camera3Request*].  [setError] is an
    event of the trace. *)
Record Camera3Request := {
  getId : Z;
  getInputBuffers : list N;
  getOutputBuffers : list N
}.

(** The two [IDeviceWorker] classes the controller constructs, with their
    constructor arguments. *)
Inductive Worker :=
| OutputFrameWorker (node : V4L2VideoNode) (cameraId : Z)
    (stream : option camera3_stream_t) (nodeName : NodeTypes) (pipelineDepth : Z)
| InputFrameWorker (cameraId : Z) (inStream : camera3_stream_t)
    (outStreams : list camera3_stream_t) (pipelineDepth : Z).

(** Modelled from the spec: [FrameWorker::getNode] is declared outside this
    file.  An Output-Worker returns the node it was constructed on; the
    Input-Worker "has no node to poll". *)
Definition getNode (w : Worker) : option V4L2VideoNode :=
  match w with
  | OutputFrameWorker n _ _ _ _ => Some n
  | InputFrameWorker _ _ _ _ => None
  end.

Definition ICaptureEventListener := N.
Definition ITaskEventListener := N.
Definition IErrorCallback := N.

Inductive MediaType := CIO2 | IMGU_COMMON | IMGU_STILL | IMGU_VIDEO.

(* ================================================================== *)
(** ** Calls that leave the controller *)
(* ================================================================== *)

Inductive Event :=
| EvSetPipeType
| EvMediaCtlConfigure (t : MediaType)
| EvMediaCtlConfigurePipe (t : MediaType)
| EvWorkerConfigure (w : Worker)
| EvAddListener (w : Worker) (stream : N)
| EvWorkerAttachListener (w : Worker) (l : ICaptureEventListener)
| EvCleanListeners (t : ITaskEventListener)
| EvPollerInit (nodes : list (option V4L2VideoNode))
| EvPollRequest (reqId : Z) (timeout : Z) (nodes : list (option V4L2VideoNode))
| EvPollerFlush (clearPending : bool)
| EvSettings (t : ITaskEventListener) (reqId : Z)
| EvStartWorker (w : Worker)
| EvStopWorker (w : Worker)
| EvPrepareRun (w : Worker) (r : Camera3Request)
| EvAsyncPollDone (w : Worker) (r : Camera3Request) (polled : bool)
| EvRun (w : Worker)
| EvPostRun (w : Worker)
| EvDeviceError (w : Worker)
| EvErrCbDeviceError (cb : IErrorCallback)
| EvSetError (r : Camera3Request)
| EvNotifyCaptureEvent (l : ICaptureEventListener) (reqId : Z).

(** What the collaborators answer.  Every answer may depend on all the calls
    made so far. *)
Record Env := {
  status_of : list Event -> Event -> status_t;
  needPolling : list Event -> Worker -> bool;
  getBaseGraphConfig : list Event -> bool;
  getMediaCtlConfig : list Event -> MediaType -> bool;
  getConfiguredNodesPerName : list Event -> list (NodeTypes * V4L2VideoNode);
  pipelineMaxDepth : option Z
}.

(* ================================================================== *)
(** ** Messages of the control loop *)
(* ================================================================== *)

Inductive DeviceMessageId :=
| MESSAGE_ID_EXIT
| MESSAGE_COMPLETE_REQ
| MESSAGE_ID_POLL
| MESSAGE_ID_POLL_META
| MESSAGE_ID_FLUSH
| MESSAGE_ID_MAX.

#[global] Instance DeviceMessageId_eq_dec : EqDecision DeviceMessageId.
Proof. solve_decision. Defined.

Inductive PollEventMessageId :=
| POLL_EVENT_ID_EVENT
| POLL_EVENT_ID_ERROR
| POLL_EVENT_ID_UNKNOWN (n : Z).

(** [activeDevices] is a heap array or [nullptr]. *)
Record MessagePollEvent := {
  pollMsgId : PollEventMessageId;
  requestId : Z;
  numDevices : Z;
  polledDevices : Z;
  activeDevices : option (list V4L2VideoNode)
}.

Record DeviceMessage := {
  msg_id : DeviceMessageId;
  pMsg_reqId : Z;
  cbMetadataMsg_updateMeta : bool;
  cbMetadataMsg_request : option Camera3Request;
  pollEvent : MessagePollEvent
}.

(** Modelled from the spec: the default constructors of the message types
    are declared in [ImguUnit.h]; a fresh poll event has no active-device
    array and no polled device. *)
Definition MessagePollEvent_default : MessagePollEvent :=
  {| pollMsgId := POLL_EVENT_ID_ERROR; requestId := -1; numDevices := 0;
     polledDevices := 0; activeDevices := None |}.

Definition DeviceMessage_default : DeviceMessage :=
  {| msg_id := MESSAGE_ID_MAX; pMsg_reqId := 0;
     cbMetadataMsg_updateMeta := false; cbMetadataMsg_request := None;
     pollEvent := MessagePollEvent_default |}.

(** The Poller's notification: the three device vectors are pointers. *)
Record PollEventMessageData := {
  pm_activeDevices : option (list V4L2VideoNode);
  pm_inactiveDevices : option (list V4L2VideoNode);
  pm_polledDevices : option (list V4L2VideoNode);
  pm_reqId : Z
}.

Record PollEventMessage := {
  pm_id : PollEventMessageId;
  pm_data : PollEventMessageData
}.

(* ================================================================== *)
(** ** The controller's state *)
(* ================================================================== *)

Record PipeConfiguration := {
  deviceWorkers : list Worker;
  pollableWorkers : list Worker;
  nodes : list (option V4L2VideoNode)
}.

Definition PipeConfiguration_empty : PipeConfiguration :=
  {| deviceWorkers := []; pollableWorkers := []; nodes := [] |}.

Inductive PipeConfigIndex := PIPE_VIDEO_INDEX | PIPE_STILL_INDEX.

#[global] Instance PipeConfigIndex_eq_dec : EqDecision PipeConfigIndex.
Proof. solve_decision. Defined.

(** The indices below [PIPE_NUM], in the order [clearWorkers] visits them. *)
Definition PIPE_INDICES : list PipeConfigIndex := [PIPE_VIDEO_INDEX; PIPE_STILL_INDEX].

Record StreamConfig := {
  blobStreams : list camera3_stream_t;
  rawStreams : list camera3_stream_t;
  yuvStreams : list camera3_stream_t;
  inputStream : option camera3_stream_t
}.

Inductive ImguState := IMGU_IDLE | IMGU_RUNNING.

Record ImguUnit := {
  mState : ImguState;
  mCameraId : Z;
  mThreadRunning : bool;
  mMessageQueue : list DeviceMessage;
  mPipeConfigs_video : PipeConfiguration;
  mPipeConfigs_still : PipeConfiguration;
  mCurPipeConfig : option PipeConfigIndex;
  mActiveStreams : StreamConfig;
  mStreamNodeMapping : gmap NodeTypes (option camera3_stream_t);
  mStreamListenerMapping : gmap N NodeTypes;
  mConfiguredNodesPerName : list (NodeTypes * V4L2VideoNode);
  mListenerDeviceWorkers : list Worker;
  mListeners : list ICaptureEventListener;
  mListeningTasks : list (option ITaskEventListener);
  mMessagesPending : list DeviceMessage;
  mMessagesUnderwork : list DeviceMessage;
  mDelayProcessRequest : list Z;
  mRequestToWorkMap : gmap Z (list Worker);
  mFlushing : bool;
  mFirstRequest : bool;
  mNeedRestartPoll : bool;
  mErrCb : option IErrorCallback;
  mTakingPicture : bool;
  trace : list Event
}.

(** Assignments to one member. *)

Definition set_mThreadRunning (v : bool) (s : ImguUnit) : ImguUnit :=
  {| mState := mState s; mCameraId := mCameraId s; mThreadRunning := v;
     mMessageQueue := mMessageQueue s;
     mPipeConfigs_video := mPipeConfigs_video s;
     mPipeConfigs_still := mPipeConfigs_still s;
     mCurPipeConfig := mCurPipeConfig s; mActiveStreams := mActiveStreams s;
     mStreamNodeMapping := mStreamNodeMapping s;
     mStreamListenerMapping := mStreamListenerMapping s;
     mConfiguredNodesPerName := mConfiguredNodesPerName s;
     mListenerDeviceWorkers := mListenerDeviceWorkers s;
     mListeners := mListeners s; mListeningTasks := mListeningTasks s;
     mMessagesPending := mMessagesPending s;
     mMessagesUnderwork := mMessagesUnderwork s;
     mDelayProcessRequest := mDelayProcessRequest s;
     mRequestToWorkMap := mRequestToWorkMap s; mFlushing := mFlushing s;
     mFirstRequest := mFirstRequest s;
     mNeedRestartPoll := mNeedRestartPoll s; mErrCb := mErrCb s;
     mTakingPicture := mTakingPicture s; trace := trace s |}.

Definition set_mMessageQueue (v : list DeviceMessage) (s : ImguUnit) : ImguUnit :=
  {| mState := mState s; mCameraId := mCameraId s;
     mThreadRunning := mThreadRunning s; mMessageQueue := v;
     mPipeConfigs_video := mPipeConfigs_video s;
     mPipeConfigs_still := mPipeConfigs_still s;
     mCurPipeConfig := mCurPipeConfig s; mActiveStreams := mActiveStreams s;
     mStreamNodeMapping := mStreamNodeMapping s;
     mStreamListenerMapping := mStreamListenerMapping s;
     mConfiguredNodesPerName := mConfiguredNodesPerName s;
     mListenerDeviceWorkers := mListenerDeviceWorkers s;
     mListeners := mListeners s; mListeningTasks := mListeningTasks s;
     mMessagesPending := mMessagesPending s;
     mMessagesUnderwork := mMessagesUnderwork s;
     mDelayProcessRequest := mDelayProcessRequest s;
     mRequestToWorkMap := mRequestToWorkMap s; mFlushing := mFlushing s;
     mFirstRequest := mFirstRequest s;
     mNeedRestartPoll := mNeedRestartPoll s; mErrCb := mErrCb s;
     mTakingPicture := mTakingPicture s; trace := trace s |}.

Definition set_mPipeConfigs_video (v : PipeConfiguration) (s : ImguUnit) : ImguUnit :=
  {| mState := mState s; mCameraId := mCameraId s;
     mThreadRunning := mThreadRunning s; mMessageQueue := mMessageQueue s;
     mPipeConfigs_video := v; mPipeConfigs_still := mPipeConfigs_still s;
     mCurPipeConfig := mCurPipeConfig s; mActiveStreams := mActiveStreams s;
     mStreamNodeMapping := mStreamNodeMapping s;
     mStreamListenerMapping := mStreamListenerMapping s;
     mConfiguredNodesPerName := mConfiguredNodesPerName s;
     mListenerDeviceWorkers := mListenerDeviceWorkers s;
     mListeners := mListeners s; mListeningTasks := mListeningTasks s;
     mMessagesPending := mMessagesPending s;
     mMessagesUnderwork := mMessagesUnderwork s;
     mDelayProcessRequest := mDelayProcessRequest s;
     mRequestToWorkMap := mRequestToWorkMap s; mFlushing := mFlushing s;
     mFirstRequest := mFirstRequest s;
     mNeedRestartPoll := mNeedRestartPoll s; mErrCb := mErrCb s;
     mTakingPicture := mTakingPicture s; trace := trace s |}.

Definition set_mPipeConfigs_still (v : PipeConfiguration) (s : ImguUnit) : ImguUnit :=
  {| mState := mState s; mCameraId := mCameraId s;
     mThreadRunning := mThreadRunning s; mMessageQueue := mMessageQueue s;
     mPipeConfigs_video := mPipeConfigs_video s; mPipeConfigs_still := v;
     mCurPipeConfig := mCurPipeConfig s; mActiveStreams := mActiveStreams s;
     mStreamNodeMapping := mStreamNodeMapping s;
     mStreamListenerMapping := mStreamListenerMapping s;
     mConfiguredNodesPerName := mConfiguredNodesPerName s;
     mListenerDeviceWorkers := mListenerDeviceWorkers s;
     mListeners := mListeners s; mListeningTasks := mListeningTasks s;
     mMessagesPending := mMessagesPending s;
     mMessagesUnderwork := mMessagesUnderwork s;
     mDelayProcessRequest := mDelayProcessRequest s;
     mRequestToWorkMap := mRequestToWorkMap s; mFlushing := mFlushing s;
     mFirstRequest := mFirstRequest s;
     mNeedRestartPoll := mNeedRestartPoll s; mErrCb := mErrCb s;
     mTakingPicture := mTakingPicture s; trace := trace s |}.

Definition set_mCurPipeConfig (v : option PipeConfigIndex) (s : ImguUnit) : ImguUnit :=
  {| mState := mState s; mCameraId := mCameraId s;
     mThreadRunning := mThreadRunning s; mMessageQueue := mMessageQueue s;
     mPipeConfigs_video := mPipeConfigs_video s;
     mPipeConfigs_still := mPipeConfigs_still s; mCurPipeConfig := v;
     mActiveStreams := mActiveStreams s;
     mStreamNodeMapping := mStreamNodeMapping s;
     mStreamListenerMapping := mStreamListenerMapping s;
     mConfiguredNodesPerName := mConfiguredNodesPerName s;
     mListenerDeviceWorkers := mListenerDeviceWorkers s;
     mListeners := mListeners s; mListeningTasks := mListeningTasks s;
     mMessagesPending := mMessagesPending s;
     mMessagesUnderwork := mMessagesUnderwork s;
     mDelayProcessRequest := mDelayProcessRequest s;
     mRequestToWorkMap := mRequestToWorkMap s; mFlushing := mFlushing s;
     mFirstRequest := mFirstRequest s;
     mNeedRestartPoll := mNeedRestartPoll s; mErrCb := mErrCb s;
     mTakingPicture := mTakingPicture s; trace := trace s |}.

Definition set_mActiveStreams (v : StreamConfig) (s : ImguUnit) : ImguUnit :=
  {| mState := mState s; mCameraId := mCameraId s;
     mThreadRunning := mThreadRunning s; mMessageQueue := mMessageQueue s;
     mPipeConfigs_video := mPipeConfigs_video s;
     mPipeConfigs_still := mPipeConfigs_still s;
     mCurPipeConfig := mCurPipeConfig s; mActiveStreams := v;
     mStreamNodeMapping := mStreamNodeMapping s;
     mStreamListenerMapping := mStreamListenerMapping s;
     mConfiguredNodesPerName := mConfiguredNodesPerName s;
     mListenerDeviceWorkers := mListenerDeviceWorkers s;
     mListeners := mListeners s; mListeningTasks := mListeningTasks s;
     mMessagesPending := mMessagesPending s;
     mMessagesUnderwork := mMessagesUnderwork s;
     mDelayProcessRequest := mDelayProcessRequest s;
     mRequestToWorkMap := mRequestToWorkMap s; mFlushing := mFlushing s;
     mFirstRequest := mFirstRequest s;
     mNeedRestartPoll := mNeedRestartPoll s; mErrCb := mErrCb s;
     mTakingPicture := mTakingPicture s; trace := trace s |}.

Definition set_mStreamNodeMapping (v : gmap NodeTypes (option camera3_stream_t)) (s : ImguUnit) : ImguUnit :=
  {| mState := mState s; mCameraId := mCameraId s;
     mThreadRunning := mThreadRunning s; mMessageQueue := mMessageQueue s;
     mPipeConfigs_video := mPipeConfigs_video s;
     mPipeConfigs_still := mPipeConfigs_still s;
     mCurPipeConfig := mCurPipeConfig s; mActiveStreams := mActiveStreams s;
     mStreamNodeMapping := v;
     mStreamListenerMapping := mStreamListenerMapping s;
     mConfiguredNodesPerName := mConfiguredNodesPerName s;
     mListenerDeviceWorkers := mListenerDeviceWorkers s;
     mListeners := mListeners s; mListeningTasks := mListeningTasks s;
     mMessagesPending := mMessagesPending s;
     mMessagesUnderwork := mMessagesUnderwork s;
     mDelayProcessRequest := mDelayProcessRequest s;
     mRequestToWorkMap := mRequestToWorkMap s; mFlushing := mFlushing s;
     mFirstRequest := mFirstRequest s;
     mNeedRestartPoll := mNeedRestartPoll s; mErrCb := mErrCb s;
     mTakingPicture := mTakingPicture s; trace := trace s |}.

Definition set_mStreamListenerMapping (v : gmap N NodeTypes) (s : ImguUnit) : ImguUnit :=
  {| mState := mState s; mCameraId := mCameraId s;
     mThreadRunning := mThreadRunning s; mMessageQueue := mMessageQueue s;
     mPipeConfigs_video := mPipeConfigs_video s;
     mPipeConfigs_still := mPipeConfigs_still s;
     mCurPipeConfig := mCurPipeConfig s; mActiveStreams := mActiveStreams s;
     mStreamNodeMapping := mStreamNodeMapping s; mStreamListenerMapping := v;
     mConfiguredNodesPerName := mConfiguredNodesPerName s;
     mListenerDeviceWorkers := mListenerDeviceWorkers s;
     mListeners := mListeners s; mListeningTasks := mListeningTasks s;
     mMessagesPending := mMessagesPending s;
     mMessagesUnderwork := mMessagesUnderwork s;
     mDelayProcessRequest := mDelayProcessRequest s;
     mRequestToWorkMap := mRequestToWorkMap s; mFlushing := mFlushing s;
     mFirstRequest := mFirstRequest s;
     mNeedRestartPoll := mNeedRestartPoll s; mErrCb := mErrCb s;
     mTakingPicture := mTakingPicture s; trace := trace s |}.

Definition set_mConfiguredNodesPerName (v : list (NodeTypes * V4L2VideoNode)) (s : ImguUnit) : ImguUnit :=
  {| mState := mState s; mCameraId := mCameraId s;
     mThreadRunning := mThreadRunning s; mMessageQueue := mMessageQueue s;
     mPipeConfigs_video := mPipeConfigs_video s;
     mPipeConfigs_still := mPipeConfigs_still s;
     mCurPipeConfig := mCurPipeConfig s; mActiveStreams := mActiveStreams s;
     mStreamNodeMapping := mStreamNodeMapping s;
     mStreamListenerMapping := mStreamListenerMapping s;
     mConfiguredNodesPerName := v;
     mListenerDeviceWorkers := mListenerDeviceWorkers s;
     mListeners := mListeners s; mListeningTasks := mListeningTasks s;
     mMessagesPending := mMessagesPending s;
     mMessagesUnderwork := mMessagesUnderwork s;
     mDelayProcessRequest := mDelayProcessRequest s;
     mRequestToWorkMap := mRequestToWorkMap s; mFlushing := mFlushing s;
     mFirstRequest := mFirstRequest s;
     mNeedRestartPoll := mNeedRestartPoll s; mErrCb := mErrCb s;
     mTakingPicture := mTakingPicture s; trace := trace s |}.

Definition set_mListenerDeviceWorkers (v : list Worker) (s : ImguUnit) : ImguUnit :=
  {| mState := mState s; mCameraId := mCameraId s;
     mThreadRunning := mThreadRunning s; mMessageQueue := mMessageQueue s;
     mPipeConfigs_video := mPipeConfigs_video s;
     mPipeConfigs_still := mPipeConfigs_still s;
     mCurPipeConfig := mCurPipeConfig s; mActiveStreams := mActiveStreams s;
     mStreamNodeMapping := mStreamNodeMapping s;
     mStreamListenerMapping := mStreamListenerMapping s;
     mConfiguredNodesPerName := mConfiguredNodesPerName s;
     mListenerDeviceWorkers := v; mListeners := mListeners s;
     mListeningTasks := mListeningTasks s;
     mMessagesPending := mMessagesPending s;
     mMessagesUnderwork := mMessagesUnderwork s;
     mDelayProcessRequest := mDelayProcessRequest s;
     mRequestToWorkMap := mRequestToWorkMap s; mFlushing := mFlushing s;
     mFirstRequest := mFirstRequest s;
     mNeedRestartPoll := mNeedRestartPoll s; mErrCb := mErrCb s;
     mTakingPicture := mTakingPicture s; trace := trace s |}.

Definition set_mListeners (v : list ICaptureEventListener) (s : ImguUnit) : ImguUnit :=
  {| mState := mState s; mCameraId := mCameraId s;
     mThreadRunning := mThreadRunning s; mMessageQueue := mMessageQueue s;
     mPipeConfigs_video := mPipeConfigs_video s;
     mPipeConfigs_still := mPipeConfigs_still s;
     mCurPipeConfig := mCurPipeConfig s; mActiveStreams := mActiveStreams s;
     mStreamNodeMapping := mStreamNodeMapping s;
     mStreamListenerMapping := mStreamListenerMapping s;
     mConfiguredNodesPerName := mConfiguredNodesPerName s;
     mListenerDeviceWorkers := mListenerDeviceWorkers s; mListeners := v;
     mListeningTasks := mListeningTasks s;
     mMessagesPending := mMessagesPending s;
     mMessagesUnderwork := mMessagesUnderwork s;
     mDelayProcessRequest := mDelayProcessRequest s;
     mRequestToWorkMap := mRequestToWorkMap s; mFlushing := mFlushing s;
     mFirstRequest := mFirstRequest s;
     mNeedRestartPoll := mNeedRestartPoll s; mErrCb := mErrCb s;
     mTakingPicture := mTakingPicture s; trace := trace s |}.

Definition set_mListeningTasks (v : list (option ITaskEventListener)) (s : ImguUnit) : ImguUnit :=
  {| mState := mState s; mCameraId := mCameraId s;
     mThreadRunning := mThreadRunning s; mMessageQueue := mMessageQueue s;
     mPipeConfigs_video := mPipeConfigs_video s;
     mPipeConfigs_still := mPipeConfigs_still s;
     mCurPipeConfig := mCurPipeConfig s; mActiveStreams := mActiveStreams s;
     mStreamNodeMapping := mStreamNodeMapping s;
     mStreamListenerMapping := mStreamListenerMapping s;
     mConfiguredNodesPerName := mConfiguredNodesPerName s;
     mListenerDeviceWorkers := mListenerDeviceWorkers s;
     mListeners := mListeners s; mListeningTasks := v;
     mMessagesPending := mMessagesPending s;
     mMessagesUnderwork := mMessagesUnderwork s;
     mDelayProcessRequest := mDelayProcessRequest s;
     mRequestToWorkMap := mRequestToWorkMap s; mFlushing := mFlushing s;
     mFirstRequest := mFirstRequest s;
     mNeedRestartPoll := mNeedRestartPoll s; mErrCb := mErrCb s;
     mTakingPicture := mTakingPicture s; trace := trace s |}.

Definition set_mMessagesPending (v : list DeviceMessage) (s : ImguUnit) : ImguUnit :=
  {| mState := mState s; mCameraId := mCameraId s;
     mThreadRunning := mThreadRunning s; mMessageQueue := mMessageQueue s;
     mPipeConfigs_video := mPipeConfigs_video s;
     mPipeConfigs_still := mPipeConfigs_still s;
     mCurPipeConfig := mCurPipeConfig s; mActiveStreams := mActiveStreams s;
     mStreamNodeMapping := mStreamNodeMapping s;
     mStreamListenerMapping := mStreamListenerMapping s;
     mConfiguredNodesPerName := mConfiguredNodesPerName s;
     mListenerDeviceWorkers := mListenerDeviceWorkers s;
     mListeners := mListeners s; mListeningTasks := mListeningTasks s;
     mMessagesPending := v; mMessagesUnderwork := mMessagesUnderwork s;
     mDelayProcessRequest := mDelayProcessRequest s;
     mRequestToWorkMap := mRequestToWorkMap s; mFlushing := mFlushing s;
     mFirstRequest := mFirstRequest s;
     mNeedRestartPoll := mNeedRestartPoll s; mErrCb := mErrCb s;
     mTakingPicture := mTakingPicture s; trace := trace s |}.

Definition set_mMessagesUnderwork (v : list DeviceMessage) (s : ImguUnit) : ImguUnit :=
  {| mState := mState s; mCameraId := mCameraId s;
     mThreadRunning := mThreadRunning s; mMessageQueue := mMessageQueue s;
     mPipeConfigs_video := mPipeConfigs_video s;
     mPipeConfigs_still := mPipeConfigs_still s;
     mCurPipeConfig := mCurPipeConfig s; mActiveStreams := mActiveStreams s;
     mStreamNodeMapping := mStreamNodeMapping s;
     mStreamListenerMapping := mStreamListenerMapping s;
     mConfiguredNodesPerName := mConfiguredNodesPerName s;
     mListenerDeviceWorkers := mListenerDeviceWorkers s;
     mListeners := mListeners s; mListeningTasks := mListeningTasks s;
     mMessagesPending := mMessagesPending s; mMessagesUnderwork := v;
     mDelayProcessRequest := mDelayProcessRequest s;
     mRequestToWorkMap := mRequestToWorkMap s; mFlushing := mFlushing s;
     mFirstRequest := mFirstRequest s;
     mNeedRestartPoll := mNeedRestartPoll s; mErrCb := mErrCb s;
     mTakingPicture := mTakingPicture s; trace := trace s |}.

Definition set_mDelayProcessRequest (v : list Z) (s : ImguUnit) : ImguUnit :=
  {| mState := mState s; mCameraId := mCameraId s;
     mThreadRunning := mThreadRunning s; mMessageQueue := mMessageQueue s;
     mPipeConfigs_video := mPipeConfigs_video s;
     mPipeConfigs_still := mPipeConfigs_still s;
     mCurPipeConfig := mCurPipeConfig s; mActiveStreams := mActiveStreams s;
     mStreamNodeMapping := mStreamNodeMapping s;
     mStreamListenerMapping := mStreamListenerMapping s;
     mConfiguredNodesPerName := mConfiguredNodesPerName s;
     mListenerDeviceWorkers := mListenerDeviceWorkers s;
     mListeners := mListeners s; mListeningTasks := mListeningTasks s;
     mMessagesPending := mMessagesPending s;
     mMessagesUnderwork := mMessagesUnderwork s; mDelayProcessRequest := v;
     mRequestToWorkMap := mRequestToWorkMap s; mFlushing := mFlushing s;
     mFirstRequest := mFirstRequest s;
     mNeedRestartPoll := mNeedRestartPoll s; mErrCb := mErrCb s;
     mTakingPicture := mTakingPicture s; trace := trace s |}.

Definition set_mRequestToWorkMap (v : gmap Z (list Worker)) (s : ImguUnit) : ImguUnit :=
  {| mState := mState s; mCameraId := mCameraId s;
     mThreadRunning := mThreadRunning s; mMessageQueue := mMessageQueue s;
     mPipeConfigs_video := mPipeConfigs_video s;
     mPipeConfigs_still := mPipeConfigs_still s;
     mCurPipeConfig := mCurPipeConfig s; mActiveStreams := mActiveStreams s;
     mStreamNodeMapping := mStreamNodeMapping s;
     mStreamListenerMapping := mStreamListenerMapping s;
     mConfiguredNodesPerName := mConfiguredNodesPerName s;
     mListenerDeviceWorkers := mListenerDeviceWorkers s;
     mListeners := mListeners s; mListeningTasks := mListeningTasks s;
     mMessagesPending := mMessagesPending s;
     mMessagesUnderwork := mMessagesUnderwork s;
     mDelayProcessRequest := mDelayProcessRequest s; mRequestToWorkMap := v;
     mFlushing := mFlushing s; mFirstRequest := mFirstRequest s;
     mNeedRestartPoll := mNeedRestartPoll s; mErrCb := mErrCb s;
     mTakingPicture := mTakingPicture s; trace := trace s |}.

Definition set_mFlushing (v : bool) (s : ImguUnit) : ImguUnit :=
  {| mState := mState s; mCameraId := mCameraId s;
     mThreadRunning := mThreadRunning s; mMessageQueue := mMessageQueue s;
     mPipeConfigs_video := mPipeConfigs_video s;
     mPipeConfigs_still := mPipeConfigs_still s;
     mCurPipeConfig := mCurPipeConfig s; mActiveStreams := mActiveStreams s;
     mStreamNodeMapping := mStreamNodeMapping s;
     mStreamListenerMapping := mStreamListenerMapping s;
     mConfiguredNodesPerName := mConfiguredNodesPerName s;
     mListenerDeviceWorkers := mListenerDeviceWorkers s;
     mListeners := mListeners s; mListeningTasks := mListeningTasks s;
     mMessagesPending := mMessagesPending s;
     mMessagesUnderwork := mMessagesUnderwork s;
     mDelayProcessRequest := mDelayProcessRequest s;
     mRequestToWorkMap := mRequestToWorkMap s; mFlushing := v;
     mFirstRequest := mFirstRequest s;
     mNeedRestartPoll := mNeedRestartPoll s; mErrCb := mErrCb s;
     mTakingPicture := mTakingPicture s; trace := trace s |}.

Definition set_mFirstRequest (v : bool) (s : ImguUnit) : ImguUnit :=
  {| mState := mState s; mCameraId := mCameraId s;
     mThreadRunning := mThreadRunning s; mMessageQueue := mMessageQueue s;
     mPipeConfigs_video := mPipeConfigs_video s;
     mPipeConfigs_still := mPipeConfigs_still s;
     mCurPipeConfig := mCurPipeConfig s; mActiveStreams := mActiveStreams s;
     mStreamNodeMapping := mStreamNodeMapping s;
     mStreamListenerMapping := mStreamListenerMapping s;
     mConfiguredNodesPerName := mConfiguredNodesPerName s;
     mListenerDeviceWorkers := mListenerDeviceWorkers s;
     mListeners := mListeners s; mListeningTasks := mListeningTasks s;
     mMessagesPending := mMessagesPending s;
     mMessagesUnderwork := mMessagesUnderwork s;
     mDelayProcessRequest := mDelayProcessRequest s;
     mRequestToWorkMap := mRequestToWorkMap s; mFlushing := mFlushing s;
     mFirstRequest := v; mNeedRestartPoll := mNeedRestartPoll s;
     mErrCb := mErrCb s; mTakingPicture := mTakingPicture s;
     trace := trace s |}.

Definition set_mNeedRestartPoll (v : bool) (s : ImguUnit) : ImguUnit :=
  {| mState := mState s; mCameraId := mCameraId s;
     mThreadRunning := mThreadRunning s; mMessageQueue := mMessageQueue s;
     mPipeConfigs_video := mPipeConfigs_video s;
     mPipeConfigs_still := mPipeConfigs_still s;
     mCurPipeConfig := mCurPipeConfig s; mActiveStreams := mActiveStreams s;
     mStreamNodeMapping := mStreamNodeMapping s;
     mStreamListenerMapping := mStreamListenerMapping s;
     mConfiguredNodesPerName := mConfiguredNodesPerName s;
     mListenerDeviceWorkers := mListenerDeviceWorkers s;
     mListeners := mListeners s; mListeningTasks := mListeningTasks s;
     mMessagesPending := mMessagesPending s;
     mMessagesUnderwork := mMessagesUnderwork s;
     mDelayProcessRequest := mDelayProcessRequest s;
     mRequestToWorkMap := mRequestToWorkMap s; mFlushing := mFlushing s;
     mFirstRequest := mFirstRequest s; mNeedRestartPoll := v;
     mErrCb := mErrCb s; mTakingPicture := mTakingPicture s;
     trace := trace s |}.

Definition set_mErrCb (v : option IErrorCallback) (s : ImguUnit) : ImguUnit :=
  {| mState := mState s; mCameraId := mCameraId s;
     mThreadRunning := mThreadRunning s; mMessageQueue := mMessageQueue s;
     mPipeConfigs_video := mPipeConfigs_video s;
     mPipeConfigs_still := mPipeConfigs_still s;
     mCurPipeConfig := mCurPipeConfig s; mActiveStreams := mActiveStreams s;
     mStreamNodeMapping := mStreamNodeMapping s;
     mStreamListenerMapping := mStreamListenerMapping s;
     mConfiguredNodesPerName := mConfiguredNodesPerName s;
     mListenerDeviceWorkers := mListenerDeviceWorkers s;
     mListeners := mListeners s; mListeningTasks := mListeningTasks s;
     mMessagesPending := mMessagesPending s;
     mMessagesUnderwork := mMessagesUnderwork s;
     mDelayProcessRequest := mDelayProcessRequest s;
     mRequestToWorkMap := mRequestToWorkMap s; mFlushing := mFlushing s;
     mFirstRequest := mFirstRequest s;
     mNeedRestartPoll := mNeedRestartPoll s; mErrCb := v;
     mTakingPicture := mTakingPicture s; trace := trace s |}.

Definition set_mTakingPicture (v : bool) (s : ImguUnit) : ImguUnit :=
  {| mState := mState s; mCameraId := mCameraId s;
     mThreadRunning := mThreadRunning s; mMessageQueue := mMessageQueue s;
     mPipeConfigs_video := mPipeConfigs_video s;
     mPipeConfigs_still := mPipeConfigs_still s;
     mCurPipeConfig := mCurPipeConfig s; mActiveStreams := mActiveStreams s;
     mStreamNodeMapping := mStreamNodeMapping s;
     mStreamListenerMapping := mStreamListenerMapping s;
     mConfiguredNodesPerName := mConfiguredNodesPerName s;
     mListenerDeviceWorkers := mListenerDeviceWorkers s;
     mListeners := mListeners s; mListeningTasks := mListeningTasks s;
     mMessagesPending := mMessagesPending s;
     mMessagesUnderwork := mMessagesUnderwork s;
     mDelayProcessRequest := mDelayProcessRequest s;
     mRequestToWorkMap := mRequestToWorkMap s; mFlushing := mFlushing s;
     mFirstRequest := mFirstRequest s;
     mNeedRestartPoll := mNeedRestartPoll s; mErrCb := mErrCb s;
     mTakingPicture := v; trace := trace s |}.

Definition set_trace (v : list Event) (s : ImguUnit) : ImguUnit :=
  {| mState := mState s; mCameraId := mCameraId s;
     mThreadRunning := mThreadRunning s; mMessageQueue := mMessageQueue s;
     mPipeConfigs_video := mPipeConfigs_video s;
     mPipeConfigs_still := mPipeConfigs_still s;
     mCurPipeConfig := mCurPipeConfig s; mActiveStreams := mActiveStreams s;
     mStreamNodeMapping := mStreamNodeMapping s;
     mStreamListenerMapping := mStreamListenerMapping s;
     mConfiguredNodesPerName := mConfiguredNodesPerName s;
     mListenerDeviceWorkers := mListenerDeviceWorkers s;
     mListeners := mListeners s; mListeningTasks := mListeningTasks s;
     mMessagesPending := mMessagesPending s;
     mMessagesUnderwork := mMessagesUnderwork s;
     mDelayProcessRequest := mDelayProcessRequest s;
     mRequestToWorkMap := mRequestToWorkMap s; mFlushing := mFlushing s;
     mFirstRequest := mFirstRequest s;
     mNeedRestartPoll := mNeedRestartPoll s; mErrCb := mErrCb s;
     mTakingPicture := mTakingPicture s; trace := v |}.

(** The object the constructor leaves. *)
Definition ImguUnit_new (cameraId : Z) : ImguUnit :=
  {| mState := IMGU_IDLE; mCameraId := cameraId; mThreadRunning := false;
     mMessageQueue := [];
     mPipeConfigs_video := PipeConfiguration_empty;
     mPipeConfigs_still := PipeConfiguration_empty;
     mCurPipeConfig := None;
     mActiveStreams := {| blobStreams := []; rawStreams := []; yuvStreams := [];
                          inputStream := None |};
     mStreamNodeMapping := ∅; mStreamListenerMapping := ∅;
     mConfiguredNodesPerName := []; mListenerDeviceWorkers := [];
     mListeners := []; mListeningTasks := [];
     mMessagesPending := []; mMessagesUnderwork := [];
     mDelayProcessRequest := []; mRequestToWorkMap := ∅;
     mFlushing := false; mFirstRequest := true; mNeedRestartPoll := true;
     mErrCb := None; mTakingPicture := false; trace := [] |}.

Definition mPipeConfigs (i : PipeConfigIndex) (s : ImguUnit) : PipeConfiguration :=
  match i with
  | PIPE_VIDEO_INDEX => mPipeConfigs_video s
  | PIPE_STILL_INDEX => mPipeConfigs_still s
  end.

Definition set_mPipeConfigs (i : PipeConfigIndex) (c : PipeConfiguration)
    (s : ImguUnit) : ImguUnit :=
  match i with
  | PIPE_VIDEO_INDEX => set_mPipeConfigs_video c s
  | PIPE_STILL_INDEX => set_mPipeConfigs_still c s
  end.

Definition set_nodes (v : list (option V4L2VideoNode)) (c : PipeConfiguration) : PipeConfiguration :=
  {| deviceWorkers := deviceWorkers c; pollableWorkers := pollableWorkers c;
     nodes := v |}.

(** One more call in the trace. *)
Definition emit (e : Event) (s : ImguUnit) : ImguUnit :=
  set_trace (trace s ++ [e]) s.

(* ================================================================== *)
(** ** [mapStreamWithDeviceNode] *)
(* ================================================================== *)

(** [(s)->width * (s)->height] in [uint32_t]. *)
Definition streamSize (s : camera3_stream_t) : Z := u32 (width s * height s).

Definition streamSizeGT (s1 s2 : camera3_stream_t) : bool := streamSize s2 <? streamSize s1.
Definition streamSizeEQ (s1 s2 : camera3_stream_t) : bool := streamSize s1 =? streamSize s2.
Definition streamSizeGE (s1 s2 : camera3_stream_t) : bool := streamSize s2 <=? streamSize s1.
Definition streamSizeRatio (s1 : camera3_stream_t) : spec_float :=
  F32.div (F32.of_Z (width s1)) (F32.of_Z (height s1)).

(** What an out-of-range [operator[]] would read; no index of the mapper is
    out of range (see [findVideoIdx_range] and [findPreviewIdx_range]). *)
Definition stream_none : camera3_stream_t :=
  {| stream_addr := 0; stream_type := 0; width := 0; height := 0; format := 0 |}.

Definition streamAt (l : list camera3_stream_t) (i : Z) : camera3_stream_t :=
  nth (Z.to_nat i) l stream_none.

(** The values [i] takes in [for (int i = 0; i < availableStreams.size(); i++)]. *)
Definition indices (l : list camera3_stream_t) : list Z :=
  map Z.of_nat (seq 0 (length l)).

(** [availableStreams]: the yuv group, the first blob stream in front. *)
Definition availableStreams (a : StreamConfig) : list camera3_stream_t :=
  match blobStreams a with
  | [] => yuvStreams a
  | b :: _ => b :: yuvStreams a
  end.

(** "find the maxium size stream". *)
Definition findVideoIdx (av : list camera3_stream_t) : Z :=
  fold_left
    (fun videoIdx i =>
       if streamSizeGT (streamAt av i) (streamAt av videoIdx) then i else videoIdx)
    (indices av) 0.

(** The second loop of the three-stream case, then the "all streams have
    the same size" default. *)
Definition previewStep (av : list camera3_stream_t) (videoIdx previewIdx i : Z) : Z :=
  if i =? videoIdx then previewIdx
  else if previewIdx =? -1 then i
  else if streamSizeEQ (streamAt av i) (streamAt av videoIdx) then previewIdx
  else if streamSizeGT (streamAt av i) (streamAt av previewIdx) then i
  else previewIdx.

Definition findPreviewIdx (av : list camera3_stream_t) (videoIdx : Z) : Z :=
  let previewIdx := fold_left (previewStep av videoIdx) (indices av) (-1) in
  if previewIdx =? -1 then 1 else previewIdx.

(** "deal with listners": the node one listener stream is given. *)
Definition listenerNode (video preview listener : camera3_stream_t) : NodeTypes :=
  let videoSizeRatio := streamSizeRatio video in
  let previewSizeRatio := streamSizeRatio preview in
  let listenerSizeRatio := streamSizeRatio listener in
  let lpRatioDiff := F32.fabs (F32.sub listenerSizeRatio previewSizeRatio) in
  let lvRatioDiff := F32.fabs (F32.sub listenerSizeRatio videoSizeRatio) in
  if F32.leb (F32.fabs (F32.sub lpRatioDiff lvRatioDiff)) F32.micro then
    if streamSizeEQ listener video then IMGU_NODE_VIDEO
    else if streamSizeEQ listener preview then IMGU_NODE_VF_PREVIEW
    else if streamSizeGT preview video then IMGU_NODE_VF_PREVIEW
    else IMGU_NODE_VIDEO
  else if F32.ltb lpRatioDiff lvRatioDiff then
    if streamSizeGE preview listener then IMGU_NODE_VF_PREVIEW
    else IMGU_NODE_VIDEO
  else
    if streamSizeGE video listener then IMGU_NODE_VIDEO
    else IMGU_NODE_VF_PREVIEW.

Definition findListeners (av : list camera3_stream_t) (videoIdx previewIdx : Z)
    : list (Z * NodeTypes) :=
  fold_left
    (fun listeners i =>
       if negb (i =? videoIdx) && negb (i =? previewIdx) then
         listeners ++ [(i, listenerNode (streamAt av videoIdx)
                                        (streamAt av previewIdx) (streamAt av i))]
       else listeners)
    (indices av) [].

(** The three assignments to [mStreamNodeMapping] that end the function. *)
Definition assignNodes (av : list camera3_stream_t) (videoIdx previewIdx : Z)
    (m : gmap NodeTypes (option camera3_stream_t))
    : gmap NodeTypes (option camera3_stream_t) :=
  let m :=
    if 0 <=? previewIdx then
      let m := <[IMGU_NODE_VF_PREVIEW := Some (streamAt av previewIdx)]> m in
      <[IMGU_NODE_PV_PREVIEW := default None (m !! IMGU_NODE_VF_PREVIEW)]> m
    else m in
  if 0 <=? videoIdx then <[IMGU_NODE_VIDEO := Some (streamAt av videoIdx)]> m
  else m.

Definition assignListeners (av : list camera3_stream_t)
    (listeners : list (Z * NodeTypes)) (m : gmap N NodeTypes) : gmap N NodeTypes :=
  fold_left (fun m iter => <[stream_addr (streamAt av iter.1) := iter.2]> m)
            listeners m.

Definition mapStreamWithDeviceNode (s : ImguUnit) : status_t * ImguUnit :=
  let blobNum := Z.of_nat (length (blobStreams (mActiveStreams s))) in
  let yuvNum := Z.of_nat (length (yuvStreams (mActiveStreams s))) in
  let streamNum := blobNum + yuvNum in
  if 1 <? blobNum then (BAD_VALUE, s)
  else
    let s := set_mStreamNodeMapping ∅ s in
    let s := set_mStreamListenerMapping ∅ s in
    let av := availableStreams (mActiveStreams s) in
    let finish (videoIdx previewIdx : Z) (listeners : list (Z * NodeTypes)) :=
      let s := set_mStreamNodeMapping
                 (assignNodes av videoIdx previewIdx (mStreamNodeMapping s)) s in
      let s := set_mStreamListenerMapping
                 (assignListeners av listeners (mStreamListenerMapping s)) s in
      (OK, s) in
    if streamNum =? 1 then finish 0 (-1) []
    else if streamNum =? 2 then
      let videoIdx := if streamSizeGE (streamAt av 0) (streamAt av 1) then 0 else 1 in
      let previewIdx := if negb (videoIdx =? 0) then 0 else 1 in
      finish videoIdx previewIdx []
    else if (2 <=? yuvNum) && (blobNum =? 1) then
      let videoIdx := findVideoIdx av in
      let previewIdx := findPreviewIdx av videoIdx in
      finish videoIdx previewIdx (findListeners av videoIdx previewIdx)
    else (UNKNOWN_ERROR, s).

(* ================================================================== *)
(** ** The member functions *)
(* ================================================================== *)

Section Controller.

Variable env : Env.

(** A call whose status the controller reads. *)
Definition call (e : Event) (s : ImguUnit) : status_t * ImguUnit :=
  (status_of env (trace s) e, emit e s).

Definition isOK (status : status_t) : bool := status =? OK.

Definition clearWorkers (s : ImguUnit) : ImguUnit :=
  let s :=
    fold_left
      (fun s i =>
         set_mPipeConfigs i
           {| deviceWorkers := []; pollableWorkers := []; nodes := [] |} s)
      PIPE_INDICES s in
  set_mListenerDeviceWorkers [] s.

(** *** [setStreamListeners]: the mapping is walked in key order *)

Definition listener_key_le (a b : N * NodeTypes) : Prop := (a.1 <= b.1)%N.

#[global] Instance listener_key_le_dec a b : Decision (listener_key_le a b).
Proof. unfold listener_key_le. apply _. Defined.

Definition listenerEntries (s : ImguUnit) : list (N * NodeTypes) :=
  merge_sort listener_key_le (map_to_list (mStreamListenerMapping s)).

Definition setStreamListeners (nodeName : NodeTypes) (source : Worker)
    (s : ImguUnit) : ImguUnit :=
  fold_left
    (fun s it =>
       if decide (it.2 = nodeName) then emit (EvAddListener source it.1) s else s)
    (listenerEntries s) s.

(** *** [createProcessingTasks] *)

(** [mStreamNodeMapping[n]] read as an rvalue: a missing key is inserted
    with a null stream. *)
Definition nodeMappingAt (n : NodeTypes) (s : ImguUnit)
    : option camera3_stream_t * ImguUnit :=
  match mStreamNodeMapping s !! n with
  | Some v => (v, s)
  | None => (None, set_mStreamNodeMapping (<[n := None]> (mStreamNodeMapping s)) s)
  end.

Definition pushFront (w : Worker) (c : PipeConfiguration) : PipeConfiguration :=
  {| deviceWorkers := w :: deviceWorkers c;
     pollableWorkers := w :: pollableWorkers c;
     nodes := getNode w :: nodes c |}.

Definition pushBack (w : Worker) (c : PipeConfiguration) : PipeConfiguration :=
  {| deviceWorkers := deviceWorkers c ++ [w];
     pollableWorkers := pollableWorkers c ++ [w];
     nodes := nodes c ++ [getNode w] |}.

(** The loop over [mConfiguredNodesPerName].  [inl] is the early
    [return UNKNOWN_ERROR]; [inr] carries [vfWorker] and [pvWorker]. *)
Fixpoint createWorkers (l : list (NodeTypes * V4L2VideoNode)) (pipelineDepth : Z)
    (vfWorker pvWorker : option Worker) (s : ImguUnit)
    : status_t * ImguUnit + option Worker * option Worker * ImguUnit :=
  match l with
  | [] => inr (vfWorker, pvWorker, s)
  | it :: l =>
    match it.1 with
    | IMGU_NODE_STILL | IMGU_NODE_VIDEO =>
      let '(stream, s) := nodeMappingAt it.1 s in
      let outWorker := OutputFrameWorker it.2 (mCameraId s) stream it.1 pipelineDepth in
      let s := set_mPipeConfigs_video (pushBack outWorker (mPipeConfigs_video s)) s in
      let s := setStreamListeners it.1 outWorker s in
      let s := set_mListenerDeviceWorkers (mListenerDeviceWorkers s ++ [outWorker]) s in
      createWorkers l pipelineDepth vfWorker pvWorker s
    | IMGU_NODE_VF_PREVIEW =>
      let '(stream, s) := nodeMappingAt it.1 s in
      let w := OutputFrameWorker it.2 (mCameraId s) stream it.1 pipelineDepth in
      let s := setStreamListeners it.1 w s in
      let s := set_mListenerDeviceWorkers (mListenerDeviceWorkers s ++ [w]) s in
      createWorkers l pipelineDepth (Some w) pvWorker s
    | IMGU_NODE_PV_PREVIEW =>
      let '(stream, s) := nodeMappingAt it.1 s in
      let w := OutputFrameWorker it.2 (mCameraId s) stream it.1 pipelineDepth in
      let s := setStreamListeners it.1 w s in
      let s := set_mListenerDeviceWorkers (mListenerDeviceWorkers s ++ [w]) s in
      createWorkers l pipelineDepth vfWorker (Some w) s
    | IMGU_NODE_RAW => createWorkers l pipelineDepth vfWorker pvWorker s
    | IMGU_NODE_OTHER _ => inl (UNKNOWN_ERROR, s)
    end
  end.

(** "Copy common part for still pipe, then add pv". *)
Definition addPostview (pvWorker : option Worker) (s : ImguUnit) : ImguUnit :=
  match pvWorker with
  | None => s
  | Some pv =>
    let s := set_mPipeConfigs_still (pushFront pv (mPipeConfigs_video s)) s in
    if decide (mCurPipeConfig s = Some PIPE_VIDEO_INDEX)
    then emit (EvWorkerConfigure pv) s else s
  end.

(** "Prepare for video pipe". *)
Definition addViewfinder (vfWorker pvWorker : option Worker) (s : ImguUnit) : ImguUnit :=
  match vfWorker with
  | None => s
  | Some vf =>
    let s := set_mPipeConfigs_video (pushFront vf (mPipeConfigs_video s)) s in
    let s := match pvWorker with
             | Some _ => setStreamListeners IMGU_NODE_PV_PREVIEW vf s
             | None => s
             end in
    if decide (mCurPipeConfig s = Some PIPE_STILL_INDEX)
    then emit (EvWorkerConfigure vf) s else s
  end.

(** The Input-Worker: in front of the video pipe's [deviceWorkers] only. *)
Definition addInputWorker (pipelineDepth : Z) (s : ImguUnit) : ImguUnit :=
  match inputStream (mActiveStreams s) with
  | None => s
  | Some input =>
    let outStreams := yuvStreams (mActiveStreams s) ++ blobStreams (mActiveStreams s) in
    let inWorker := InputFrameWorker (mCameraId s) input outStreams pipelineDepth in
    let c := mPipeConfigs_video s in
    let s := set_mPipeConfigs_video
               {| deviceWorkers := inWorker :: deviceWorkers c;
                  pollableWorkers := pollableWorkers c; nodes := nodes c |} s in
    set_mListenerDeviceWorkers (mListenerDeviceWorkers s ++ [inWorker]) s
  end.

Fixpoint configureWorkers (ws : list Worker) (s : ImguUnit) : status_t * ImguUnit :=
  match ws with
  | [] => (OK, s)
  | w :: ws =>
    let '(ret, s) := call (EvWorkerConfigure w) s in
    if negb (isOK ret) then (ret, s) else configureWorkers ws s
  end.

Definition attachListeners (s : ImguUnit) : ImguUnit :=
  fold_left
    (fun s w =>
       fold_left (fun s listener => emit (EvWorkerAttachListener w listener) s)
                 (mListeners s) s)
    (mListenerDeviceWorkers s) s.

Definition createProcessingTasks (graphConfig : bool) (s : ImguUnit)
    : option (status_t * ImguUnit) :=
  if negb graphConfig then Some (UNKNOWN_ERROR, s)
  else
    let s := clearWorkers s in
    let s := set_mCurPipeConfig (Some PIPE_VIDEO_INDEX) s in
    let '(status, s) := call (EvMediaCtlConfigure CIO2) s in
    if negb (isOK status) then Some (status, s)
    else
    let '(status, s) := call (EvMediaCtlConfigure IMGU_COMMON) s in
    if negb (isOK status) then Some (UNKNOWN_ERROR, s)
    else
    let '(status, s) :=
      if getMediaCtlConfig env (trace s) IMGU_STILL then
        let '(status, s) := call (EvMediaCtlConfigurePipe IMGU_STILL) s in
        (status, if isOK status then set_mCurPipeConfig (Some PIPE_STILL_INDEX) s else s)
      else (status, s) in
    if negb (isOK status) then Some (UNKNOWN_ERROR, s)
    else
    let '(status, s) :=
      if getMediaCtlConfig env (trace s) IMGU_VIDEO then
        let '(status, s) := call (EvMediaCtlConfigurePipe IMGU_VIDEO) s in
        (status, if isOK status then set_mCurPipeConfig (Some PIPE_VIDEO_INDEX) s else s)
      else (status, s) in
    if negb (isOK status) then Some (UNKNOWN_ERROR, s)
    else
    let s := set_mConfiguredNodesPerName (getConfiguredNodesPerName env (trace s)) s in
    if (length (mConfiguredNodesPerName s) =? 0)%nat then Some (UNKNOWN_ERROR, s)
    else
    let '(status, s) := mapStreamWithDeviceNode s in
    if negb (isOK status) then Some (UNKNOWN_ERROR, s)
    else
    let pipelineDepth := default 1 (pipelineMaxDepth env) in
    match createWorkers (mConfiguredNodesPerName s) pipelineDepth None None s with
    | inl r => Some r
    | inr (vfWorker, pvWorker, s) =>
      let s := addPostview pvWorker s in
      let s := addViewfinder vfWorker pvWorker s in
      let s := addInputWorker pipelineDepth s in
      cur ← mCurPipeConfig s;
      let '(ret, s) := configureWorkers (deviceWorkers (mPipeConfigs cur s)) s in
      if negb (isOK ret) then Some (ret, s)
      else Some (OK, attachListeners s)
    end.

(** *** [configStreams] *)

Definition set_streams (blob yuv : list camera3_stream_t) (s : ImguUnit) : ImguUnit :=
  let a := mActiveStreams s in
  set_mActiveStreams
    {| blobStreams := blob; rawStreams := rawStreams a; yuvStreams := yuv;
       inputStream := inputStream a |} s.

Definition set_inputStream (i : option camera3_stream_t) (s : ImguUnit) : ImguUnit :=
  let a := mActiveStreams s in
  set_mActiveStreams
    {| blobStreams := blobStreams a; rawStreams := rawStreams a;
       yuvStreams := yuvStreams a; inputStream := i |} s.

(** One pass of the classification loop; through a null [graphConfig] the
    [setPipeType] of a blob stream is undefined. *)
Definition classifyStream (graphConfig : bool) (st : camera3_stream_t)
    (s : ImguUnit) : option ImguUnit :=
  let isInput := (stream_type st =? CAMERA3_STREAM_INPUT)
                 || (stream_type st =? CAMERA3_STREAM_BIDIRECTIONAL) in
  let s := if isInput then set_inputStream (Some st) s else s in
  if isInput && (stream_type st =? CAMERA3_STREAM_INPUT) then Some s
  else
    let a := mActiveStreams s in
    if format st =? HAL_PIXEL_FORMAT_BLOB then
      if graphConfig
      then Some (emit EvSetPipeType (set_streams (blobStreams a ++ [st]) (yuvStreams a) s))
      else None
    else if format st =? HAL_PIXEL_FORMAT_YCbCr_420_888 then
      Some (set_streams (blobStreams a) (yuvStreams a ++ [st]) s)
    else if format st =? HAL_PIXEL_FORMAT_IMPLEMENTATION_DEFINED then
      Some (set_streams (blobStreams a) (st :: yuvStreams a) s)
    else Some s.

Fixpoint classifyStreams (graphConfig : bool) (l : list camera3_stream_t)
    (s : ImguUnit) : option ImguUnit :=
  match l with
  | [] => Some s
  | st :: l => s ← classifyStream graphConfig st s; classifyStreams graphConfig l s
  end.

(** The assignments that open [configStreams]. *)
Definition resetConfiguration (s : ImguUnit) : ImguUnit :=
  let s := set_mActiveStreams
             {| blobStreams := []; rawStreams := []; yuvStreams := [];
                inputStream := None |} s in
  let s := set_mFirstRequest true s in
  let s := set_mNeedRestartPoll true s in
  let s := set_mCurPipeConfig None s in
  let s := set_mTakingPicture false s in
  set_mFlushing false s.

Definition configStreams (activeStreams : list camera3_stream_t) (s : ImguUnit)
    : option (status_t * ImguUnit) :=
  let graphConfig := getBaseGraphConfig env (trace s) in
  let s := resetConfiguration s in
  s ← classifyStreams graphConfig activeStreams s;
  '(status, s) ← createProcessingTasks graphConfig s;
  if negb (isOK status) then Some (UNKNOWN_ERROR, s)
  else
    cur ← mCurPipeConfig s;
    let '(status, s) := call (EvPollerInit (nodes (mPipeConfigs cur s))) s in
    if negb (isOK status) then Some (UNKNOWN_ERROR, s)
    else Some (OK, s).

(** *** Listeners and request submission *)

Definition cleanListener (s : ImguUnit) : ImguUnit :=
  let s :=
    fold_left
      (fun s lTask =>
         match lTask with
         | None => s
         | Some t => emit (EvCleanListeners t) s
         end)
      (mListeningTasks s) s in
  set_mListeningTasks [] s.

Definition attachListener (aListener : ICaptureEventListener) (s : ImguUnit)
    : status_t * ImguUnit :=
  (OK, set_mListeners (mListeners s ++ [aListener]) s).

(** [mMessageQueue.send(&msg)]. *)
Definition send (msg : DeviceMessage) (s : ImguUnit) : ImguUnit :=
  set_mMessageQueue (mMessageQueue s ++ [msg]) s.

(** [processingSettings->request] is the argument [request]. *)
Definition completeRequest (request : option Camera3Request) (updateMeta : bool)
    (s : ImguUnit) : status_t * ImguUnit :=
  match request with
  | None => (UNKNOWN_ERROR, s)
  | Some r =>
    let msg :=
      {| msg_id := MESSAGE_COMPLETE_REQ; pMsg_reqId := getId r;
         cbMetadataMsg_updateMeta := updateMeta; cbMetadataMsg_request := Some r;
         pollEvent := MessagePollEvent_default |} in
    (NO_ERROR, send msg s)
  end.

(** *** [kickstart] *)

Fixpoint startWorkers (ws : list Worker) (s : ImguUnit) : status_t * ImguUnit :=
  match ws with
  | [] => (OK, s)
  | w :: ws =>
    let '(status, s) := call (EvStartWorker w) s in
    if negb (isOK status) then (status, s) else startWorkers ws s
  end.

Definition kickstart (s : ImguUnit) : option (status_t * ImguUnit) :=
  cur ← mCurPipeConfig s;
  let '(status, s) := startWorkers (deviceWorkers (mPipeConfigs cur s)) s in
  if negb (isOK status) then Some (status, s)
  else Some (status, set_mFirstRequest false s).

(** *** [processNextRequest] *)

(** The loop over [mListeningTasks]; [inl] is the return on a null task. *)
Fixpoint passSettings (tasks : list (option ITaskEventListener)) (msg : DeviceMessage)
    (status : status_t) (s : ImguUnit) : status_t * ImguUnit + status_t * ImguUnit :=
  match tasks with
  | [] => inr (status, s)
  | None :: _ => inl (UNKNOWN_ERROR, s)
  | Some lTask :: tasks =>
    let '(st, s) := call (EvSettings lTask (pMsg_reqId msg)) s in
    passSettings tasks msg (status_or status st) s
  end.

(** [mRequestToWorkMap[id].push_back(w)]. *)
Definition bindWorker (id : Z) (w : Worker) (s : ImguUnit) : ImguUnit :=
  set_mRequestToWorkMap
    (<[id := default [] (mRequestToWorkMap s !! id) ++ [w]]> (mRequestToWorkMap s)) s.

Definition dummyMsg (request : Camera3Request) : DeviceMessage :=
  {| msg_id := MESSAGE_ID_POLL;
     pMsg_reqId := pMsg_reqId DeviceMessage_default;
     cbMetadataMsg_updateMeta := cbMetadataMsg_updateMeta DeviceMessage_default;
     cbMetadataMsg_request := Some request;
     pollEvent :=
       {| pollMsgId := pollMsgId MessagePollEvent_default;
          requestId := getId request; numDevices := 0; polledDevices := 0;
          activeDevices := None |} |}.

(** The loop over [deviceWorkers]; the flag tells that the function
    returned from inside the loop, after the dummy poll event. *)
Fixpoint prepareWorkers (ws : list Worker) (request : Camera3Request)
    (status : status_t) (s : ImguUnit) : bool * status_t * ImguUnit :=
  match ws with
  | [] => (false, status, s)
  | w :: ws =>
    if (if getNode w is None then true else false)
       && (0 <? length (getInputBuffers request))%nat then
      let s := bindWorker (getId request) w s in
      let '(st, s) := call (EvPrepareRun w request) s in
      let status := status_or status st in
      (true, status, send (dummyMsg request) s)
    else
      let '(st, s) := call (EvPrepareRun w request) s in
      prepareWorkers ws request (status_or status st) s
  end.

Definition pushNode (cur : PipeConfigIndex) (n : option V4L2VideoNode)
    (s : ImguUnit) : ImguUnit :=
  let c := mPipeConfigs cur s in
  set_mPipeConfigs cur (set_nodes (nodes c ++ [n]) c) s.

(** The loop over [pollableWorkers]. *)
Definition collectPollable (cur : PipeConfigIndex) (request : Camera3Request)
    (s : ImguUnit) : ImguUnit :=
  fold_left
    (fun s pollDevice =>
       if needPolling env (trace s) pollDevice then
         let s := if (length (getInputBuffers request) =? 0)%nat
                  then pushNode cur (getNode pollDevice) s else s in
         bindWorker (getId request) pollDevice s
       else s)
    (pollableWorkers (mPipeConfigs cur s)) s.

Definition clearNodes (cur : PipeConfigIndex) (s : ImguUnit) : ImguUnit :=
  set_mPipeConfigs cur (set_nodes [] (mPipeConfigs cur s)) s.

(** From [mCurPipeConfig->nodes.clear()] to the end of the function. *)
Definition prepareRequest (request : Camera3Request) (status : status_t)
    (s : ImguUnit) : option (status_t * ImguUnit) :=
  cur ← mCurPipeConfig s;
  let s := clearNodes cur s in
  let s := set_mRequestToWorkMap
             (<[getId request := []]> (mRequestToWorkMap s)) s in
  let '(returned, status, s) :=
    prepareWorkers (deviceWorkers (mPipeConfigs cur s)) request status s in
  if returned then Some (status, s)
  else Some (status, collectPollable cur request s).

Definition processNextRequest (s : ImguUnit) : option (status_t * ImguUnit) :=
  match mMessagesPending s with
  | [] => Some (NO_ERROR, s)
  | msg :: pending =>
    let s := set_mMessagesPending pending s in
    match cbMetadataMsg_request msg with
    | None => Some (NO_ERROR, s)
    | Some request =>
      let s := set_mMessagesUnderwork (mMessagesUnderwork s ++ [msg]) s in
      match passSettings (mListeningTasks s) msg NO_ERROR s with
      | inl r => Some r
      | inr (status, s) =>
        if mFirstRequest s then
          '(status, s) ← kickstart s;
          if negb (isOK status) then Some (status, s)
          else prepareRequest request status s
        else prepareRequest request status s
      end
    end
  end.

(** *** [handleMessageCompleteReq] *)

Definition handleMessageCompleteReq (msg : DeviceMessage) (s : ImguUnit)
    : option (status_t * ImguUnit) :=
  match cbMetadataMsg_request msg with
  | None => Some (BAD_VALUE, s)
  | Some request =>
    let s := set_mMessagesPending (mMessagesPending s ++ [msg]) s in
    cur ← mCurPipeConfig s;
    let s := clearNodes cur s in
    '(status, s) ← processNextRequest s;
    let s := if negb (isOK status) then emit (EvSetError request) s else s in
    cur ← mCurPipeConfig s;
    if (0 <? length (nodes (mPipeConfigs cur s)))%nat then
      let '(st, s) :=
        call (EvPollRequest (getId request) 3000 (nodes (mPipeConfigs cur s))) s in
      Some (status_or status st, s)
    else Some (status, s)
  end.

(** *** [startProcessing] *)

(** The first loop over [mDelayProcessRequest]: how many leading entries
    are [startId], [startId + 1], ... *)
Fixpoint countDelayed (delay : list Z) (startId : Z) : nat :=
  match delay with
  | [] => O
  | d :: delay =>
    if negb (u32 d =? startId) then O
    else S (countDelayed delay (u32 (startId + 1)))
  end.

(** One of the three loops over [mRequestToWorkMap[reqId]]. *)
Fixpoint callWorkers (mk : Worker -> Event) (ws : list Worker)
    (status : status_t) (s : ImguUnit) : status_t * ImguUnit :=
  match ws with
  | [] => (status, s)
  | w :: ws =>
    let '(st, s) := call (mk w) s in
    callWorkers mk ws (status_or status st) s
  end.

Definition notifyListeners (reqId : Z) (s : ImguUnit) : ImguUnit :=
  fold_left (fun s listener => emit (EvNotifyCaptureEvent listener reqId) s)
            (mListeners s) s.

(** One pass of [for (int i = 0; i < processReqNum; i++)]. *)
Definition completeFront (deviceError : bool) (status : status_t) (s : ImguUnit)
    : option (status_t * ImguUnit) :=
  msg ← head (mMessagesUnderwork s);
  request ← cbMetadataMsg_request msg;
  let reqId := getId request in
  let ws := default [] (mRequestToWorkMap s !! reqId) in
  let '(status, s) := callWorkers (fun w => EvAsyncPollDone w request true) ws status s in
  let '(status, s) := callWorkers EvRun ws status s in
  let '(status, s) := callWorkers EvPostRun ws status s in
  let s := set_mRequestToWorkMap (delete reqId (mRequestToWorkMap s)) s in
  let s := if negb (isOK status) || deviceError
           then emit (EvSetError request) s else s in
  let s := notifyListeners (getId request) s in
  let s := set_mMessagesUnderwork (tail (mMessagesUnderwork s)) s in
  Some (status, s).

Fixpoint completeRequests (processReqNum : nat) (deviceError : bool)
    (status : status_t) (s : ImguUnit) : option (status_t * ImguUnit) :=
  match processReqNum with
  | O => Some (status, s)
  | S n =>
    '(status, s) ← completeFront deviceError status s;
    completeRequests n deviceError status s
  end.

(** "tell workers and AAL that device error occured". *)
Definition reportDeviceError (cur : PipeConfigIndex) (s : ImguUnit) : ImguUnit :=
  let s := fold_left (fun s w => emit (EvDeviceError w) s)
                     (deviceWorkers (mPipeConfigs cur s)) s in
  let s := match mErrCb s with
           | Some cb => emit (EvErrCbDeviceError cb) s
           | None => s
           end in
  emit (EvPollerFlush false) s.

Definition startProcessing (pollmsg : DeviceMessage) (s : ImguUnit)
    : option (status_t * ImguUnit) :=
  let status := OK in
  let activeNodes := activeDevices (pollEvent pollmsg) in
  let deviceError :=
    negb (polledDevices (pollEvent pollmsg) =? 0)
    && (if activeNodes is None then true else false) in
  match mMessagesUnderwork s with
  | [] => Some (status, s)
  | msg :: _ =>
    request ← cbMetadataMsg_request msg;
    let reqId := u32 (requestId (pollEvent pollmsg)) in
    if u32 (getId request) <? reqId then
      Some (status,
            set_mDelayProcessRequest (mDelayProcessRequest s ++ [reqId]) s)
    else if reqId <? u32 (getId request) then Some (UNKNOWN_ERROR, s)
    else
      let i := countDelayed (mDelayProcessRequest s) (u32 (reqId + 1)) in
      let processReqNum := S i in
      let s := set_mDelayProcessRequest (drop i (mDelayProcessRequest s)) s in
      if deviceError && (length (getInputBuffers request) =? 0)%nat then
        cur ← mCurPipeConfig s;
        let s := reportDeviceError cur s in
        completeRequests (length (mMessagesUnderwork s)) deviceError status s
      else completeRequests processReqNum deviceError status s
  end.

(** *** [notifyPollEvent] *)

(** The result carries the notification as the Poller gets it back: on
    [-EAGAIN] its [polledDevices] are the inactive devices. *)
Definition notifyPollEvent (pollMsg : option PollEventMessage) (s : ImguUnit)
    : option (status_t * option PollEventMessage * ImguUnit) :=
  match pollMsg with
  | None => Some (BAD_VALUE, pollMsg, s)
  | Some pm =>
    match pm_activeDevices (pm_data pm) with
    | None => Some (BAD_VALUE, pollMsg, s)
    | Some active =>
      let event (numDevices polled : Z) (act : option (list V4L2VideoNode)) :=
        {| pollMsgId := pm_id pm; requestId := pm_reqId (pm_data pm);
           numDevices := numDevices; polledDevices := polled;
           activeDevices := act |} in
      let message (ev : MessagePollEvent) :=
        {| msg_id := MESSAGE_ID_POLL;
           pMsg_reqId := pMsg_reqId DeviceMessage_default;
           cbMetadataMsg_updateMeta := cbMetadataMsg_updateMeta DeviceMessage_default;
           cbMetadataMsg_request := cbMetadataMsg_request DeviceMessage_default;
           pollEvent := ev |} in
      match pm_id pm with
      | POLL_EVENT_ID_EVENT =>
        let numDevices := Z.of_nat (length active) in
        if numDevices =? 0 then Some (OK, pollMsg, s)
        else
          polled ← pm_polledDevices (pm_data pm);
          let numPolledDevices := Z.of_nat (length polled) in
          if numPolledDevices =? 0 then Some (OK, pollMsg, s)
          else if negb (length active =? length polled)%nat then
            inactive ← pm_inactiveDevices (pm_data pm);
            let pm' :=
              {| pm_id := pm_id pm;
                 pm_data :=
                   {| pm_activeDevices := pm_activeDevices (pm_data pm);
                      pm_inactiveDevices := pm_inactiveDevices (pm_data pm);
                      pm_polledDevices := Some inactive;
                      pm_reqId := pm_reqId (pm_data pm) |} |} in
            Some (- EAGAIN, Some pm', s)
          else if mFlushing s then Some (OK, pollMsg, s)
          else
            Some (OK, pollMsg,
                  send (message (event numDevices numPolledDevices (Some active))) s)
      | POLL_EVENT_ID_ERROR =>
        polled ← pm_polledDevices (pm_data pm);
        Some (OK, pollMsg,
              send (message (event 0 (Z.of_nat (length polled))
                                   (activeDevices MessagePollEvent_default))) s)
      | POLL_EVENT_ID_UNKNOWN _ => Some (OK, pollMsg, s)
      end
    end
  end.

(** *** The message loop *)

Definition handleMessagePoll (msg : DeviceMessage) (s : ImguUnit)
    : option (status_t * ImguUnit) :=
  startProcessing msg s.

Definition handleMessageExit (s : ImguUnit) : status_t * ImguUnit :=
  (NO_ERROR, set_mThreadRunning false s).

(** *** [flush] and [handleMessageFlush] *)

(** [mMessageQueue.remove(id)]. *)
Definition removeMessages (id : DeviceMessageId) (s : ImguUnit) : ImguUnit :=
  set_mMessageQueue
    (filter (fun m => msg_id m <> id) (mMessageQueue s)) s.

(** The caller's side of [flush]: the reply it then waits for is the status
    of [handleMessageFlush]. *)
Definition flush (s : ImguUnit) : ImguUnit :=
  let msg :=
    {| msg_id := MESSAGE_ID_FLUSH;
       pMsg_reqId := pMsg_reqId DeviceMessage_default;
       cbMetadataMsg_updateMeta := cbMetadataMsg_updateMeta DeviceMessage_default;
       cbMetadataMsg_request := cbMetadataMsg_request DeviceMessage_default;
       pollEvent := pollEvent DeviceMessage_default |} in
  let s := set_mFlushing true s in
  let s := removeMessages MESSAGE_ID_POLL s in
  send msg s.

Fixpoint stopWorkers (ws : list Worker) (s : ImguUnit) : status_t * ImguUnit :=
  match ws with
  | [] => (OK, s)
  | w :: ws =>
    let '(status, s) := call (EvStopWorker w) s in
    if negb (isOK status) then (status, s) else stopWorkers ws s
  end.

Definition handleMessageFlush (s : ImguUnit) : status_t * ImguUnit :=
  let s := emit (EvPollerFlush true) s in
  let '(status, s) :=
    match mCurPipeConfig s with
    | Some cur => stopWorkers (deviceWorkers (mPipeConfigs cur s)) s
    | None => (OK, s)
    end in
  if negb (isOK status) then (status, s)
  else (NO_ERROR, clearWorkers s).

(** The [switch] of [messageThreadLoop]. *)
Definition dispatch (msg : DeviceMessage) (s : ImguUnit)
    : option (status_t * ImguUnit) :=
  match msg_id msg with
  | MESSAGE_ID_EXIT => Some (handleMessageExit s)
  | MESSAGE_COMPLETE_REQ => handleMessageCompleteReq msg s
  | MESSAGE_ID_POLL | MESSAGE_ID_POLL_META => handleMessagePoll msg s
  | MESSAGE_ID_FLUSH => Some (handleMessageFlush s)
  | MESSAGE_ID_MAX => Some (BAD_VALUE, s)
  end.

(** One turn of the loop: receive the oldest message and handle it; with
    an empty queue the thread stays blocked. *)
Definition messageThreadLoop (s : ImguUnit) : option ImguUnit :=
  match mMessageQueue s with
  | [] => Some s
  | msg :: queue =>
    '(_, s) ← dispatch msg (set_mMessageQueue queue s);
    Some s
  end.

(** *** Runs of the controller *)

(** What the caller, the Poller and the control thread can do, one at a
    time. *)
Inductive Op :=
| OpConfigStreams (activeStreams : list camera3_stream_t)
| OpAttachListener (aListener : ICaptureEventListener)
| OpCompleteRequest (request : option Camera3Request) (updateMeta : bool)
| OpNotifyPollEvent (pollMsg : option PollEventMessage)
| OpFlush
| OpLoop.

Definition exec (op : Op) (s : ImguUnit) : option ImguUnit :=
  match op with
  | OpConfigStreams l => snd <$> configStreams l s
  | OpAttachListener l => Some (attachListener l s).2
  | OpCompleteRequest r u => Some (completeRequest r u s).2
  | OpNotifyPollEvent pm => snd <$> notifyPollEvent pm s
  | OpFlush => Some (flush s)
  | OpLoop => messageThreadLoop s
  end.

Fixpoint run (ops : list Op) (s : ImguUnit) : option ImguUnit :=
  match ops with
  | [] => Some s
  | op :: ops => s ← exec op s; run ops s
  end.

End Controller.

(* ================================================================== *)
(** ** Definitions used to state the properties *)
(* ================================================================== *)

(** The listener rule in the words of the specification: the node with the
    closer aspect ratio (absolute difference of the [float] ratios); when
    the two differences are within [1e-6], equal area to the video stream
    gives video, equal area to the preview stream gives preview, otherwise
    the node with the larger area. *)
Definition specListenerNode (video preview listener : camera3_stream_t) : NodeTypes :=
  let lp := F32.fabs (F32.sub (streamSizeRatio listener) (streamSizeRatio preview)) in
  let lv := F32.fabs (F32.sub (streamSizeRatio listener) (streamSizeRatio video)) in
  if F32.leb (F32.fabs (F32.sub lp lv)) F32.micro then
    if streamSize listener =? streamSize video then IMGU_NODE_VIDEO
    else if streamSize listener =? streamSize preview then IMGU_NODE_VF_PREVIEW
    else if streamSize video <? streamSize preview then IMGU_NODE_VF_PREVIEW
    else IMGU_NODE_VIDEO
  else if F32.ltb lp lv then IMGU_NODE_VF_PREVIEW
  else IMGU_NODE_VIDEO.

(** Whether the preview stream's ratio is strictly the closer one, outside
    the tie band. *)
Definition previewCloser (video preview listener : camera3_stream_t) : bool :=
  let lp := F32.fabs (F32.sub (streamSizeRatio listener) (streamSizeRatio preview)) in
  let lv := F32.fabs (F32.sub (streamSizeRatio listener) (streamSizeRatio video)) in
  negb (F32.leb (F32.fabs (F32.sub lp lv)) F32.micro) && F32.ltb lp lv.

(** The request ids of the completion events, in the order they were
    delivered. *)
Definition completionIds (t : list Event) : list Z :=
  omap (fun e => match e with
                 | EvNotifyCaptureEvent _ reqId => Some reqId
                 | _ => None
                 end) t.

Definition requestIds (l : list DeviceMessage) : list Z :=
  omap (fun m => getId <$> cbMetadataMsg_request m) l.

(** *** Stream sets used as examples *)

Definition exampleStream (addr : N) (w h fmt : Z) : camera3_stream_t :=
  {| stream_addr := addr; stream_type := CAMERA3_STREAM_OUTPUT;
     width := w; height := h; format := fmt |}.

Definition yuv1080 := exampleStream 1 1920 1080 HAL_PIXEL_FORMAT_YCbCr_420_888.
Definition yuv480 := exampleStream 2 640 480 HAL_PIXEL_FORMAT_YCbCr_420_888.
Definition blob1200 := exampleStream 3 1600 1200 HAL_PIXEL_FORMAT_BLOB.
Definition yuv360 := exampleStream 4 640 360 HAL_PIXEL_FORMAT_YCbCr_420_888.
Definition yuv1000 := exampleStream 5 1920 1000 HAL_PIXEL_FORMAT_YCbCr_420_888.
Definition blob3000 := exampleStream 6 4000 3000 HAL_PIXEL_FORMAT_BLOB.

(** A controller whose classified streams are [blob] and [yuv]. *)
Definition withStreams (blob yuv : list camera3_stream_t) : ImguUnit :=
  set_streams blob yuv (ImguUnit_new 0).

(** One blob of 1600x1200 (4:3), a yuv stream of 640x360 (16:9) and a yuv
    stream of 1920x1000, whose area is the blob's. *)
Definition threeStreams : ImguUnit := withStreams [blob1200] [yuv360; yuv1000].

(** A reconfiguration: a single yuv stream was mapped, then two blob
    streams are classified. *)
Definition twoBlobsAfterOneStream : ImguUnit :=
  set_streams [blob1200; blob3000] []
    (mapStreamWithDeviceNode (withStreams [] [yuv1080])).2.

Definition isCompletion (e : Event) : bool :=
  match e with
  | EvNotifyCaptureEvent _ _ => true
  | _ => false
  end.

(** The ids of the submitted requests still in the message queue. *)
Definition queuedIds (q : list DeviceMessage) : list Z :=
  requestIds (filter (fun m => msg_id m = MESSAGE_COMPLETE_REQ) q).

(** Completed, then in flight, then pending, then queued: the request ids
    the controller has seen, in the order it completes them. *)
Definition completionOrder (s : ImguUnit) : list Z :=
  completionIds (trace s) ++ requestIds (mMessagesUnderwork s)
  ++ requestIds (mMessagesPending s) ++ queuedIds (mMessageQueue s).

(** The ids the caller submits in a run. *)
Definition submittedIds (ops : list Op) : list Z :=
  omap (fun op => match op with
                  | OpCompleteRequest (Some r) _ => Some (getId r)
                  | _ => None
                  end) ops.

(** *** Environments and controllers used as examples *)

(** One video node is opened; every call succeeds except those [fails]
    selects; every pollable Worker asks for polling. *)
Definition exampleEnv (fails : Event -> bool) : Env :=
  {| status_of := fun _ e => if fails e then UNKNOWN_ERROR else OK;
     needPolling := fun _ _ => true;
     getBaseGraphConfig := fun _ => true;
     getMediaCtlConfig :=
       fun _ t => match t with IMGU_VIDEO => true | _ => false end;
     getConfiguredNodesPerName := fun _ => [(IMGU_NODE_VIDEO, 10%N)];
     pipelineMaxDepth := Some 4 |}.

Definition envOK : Env := exampleEnv (fun _ => false).


Definition envSettingsFail : Env :=
  exampleEnv (fun e => match e with EvSettings _ _ => true | _ => false end).

Definition exampleRequest (id : Z) : Camera3Request :=
  {| getId := id; getInputBuffers := []; getOutputBuffers := [1%N] |}.

(** A reprocessing request: it brings an input buffer. *)
Definition reprocessRequest (id : Z) : Camera3Request :=
  {| getId := id; getInputBuffers := [7%N]; getOutputBuffers := [1%N] |}.

Definition inputStream1080 : camera3_stream_t :=
  {| stream_addr := 9; stream_type := CAMERA3_STREAM_INPUT;
     width := 1920; height := 1080; format := HAL_PIXEL_FORMAT_YCbCr_420_888 |}.

(** The controller after [configStreams] of a single 1920x1080 yuv stream. *)
Definition configuredUnit (env : Env) : ImguUnit :=
  default (ImguUnit_new 0) (run env [OpConfigStreams [yuv1080]] (ImguUnit_new 0)).

(** The same with an input stream for reprocessing. *)
Definition reprocessUnit (env : Env) : ImguUnit :=
  default (ImguUnit_new 0)
    (run env [OpConfigStreams [inputStream1080; yuv1080]] (ImguUnit_new 0)).

(** The Workers [prepareRun] was called on, and the requests the Poller was
    asked to wait for, in call order. *)
Definition preparedWorkers (t : list Event) : list Worker :=
  omap (fun e => match e with EvPrepareRun w _ => Some w | _ => None end) t.

Definition pollRequests (t : list Event) : list Z :=
  omap (fun e => match e with EvPollRequest id _ _ => Some id | _ => None end) t.

(** A pipe whose waitable nodes are the nodes of its pollable Workers, all
    of which have one. *)
Definition pollableConsistent (c : PipeConfiguration) : Prop :=
  Forall (fun w => is_Some (getNode w)) (pollableWorkers c)
  /\ nodes c = getNode <$> pollableWorkers c.

(** What the admission of a request is observed through. *)
Definition isPrepareOrPoll (e : Event) : bool :=
  match e with
  | EvPrepareRun _ _ | EvPollRequest _ _ _ => true
  | _ => false
  end.

Definition admissionView (s : ImguUnit) :=
  (mRequestToWorkMap s, mMessageQueue s, mMessagesUnderwork s,
   mMessagesPending s, mCurPipeConfig s, mPipeConfigs_video s,
   mPipeConfigs_still s, preparedWorkers (trace s), pollRequests (trace s)).

(** Classified streams with an input stream, before the pipe is built. *)
Definition withInput : ImguUnit :=
  set_inputStream (Some inputStream1080) (withStreams [] [yuv1080]).

Definition requestMsg (r : Camera3Request) : DeviceMessage :=
  {| msg_id := MESSAGE_COMPLETE_REQ; pMsg_reqId := getId r;
     cbMetadataMsg_updateMeta := false; cbMetadataMsg_request := Some r;
     pollEvent := MessagePollEvent_default |}.

Definition exampleInputWorker : Worker :=
  InputFrameWorker 0 inputStream1080 [yuv1080] 4.

Definition exampleOutputWorker : Worker :=
  OutputFrameWorker 10%N 0 (Some yuv1080) IMGU_NODE_VIDEO 4.

(** *** Traces of a completion batch *)

(** The three Worker phases of one request, over its bound Workers. *)
Definition phaseEvents (r : Camera3Request) (ws : list Worker) : list Event :=
  ((fun w => EvAsyncPollDone w r true) <$> ws) ++ (EvRun <$> ws) ++ (EvPostRun <$> ws).

(** The completion event of one request, once per listener. *)
Definition completionEvents (listeners : list ICaptureEventListener) (reqId : Z)
    : list Event :=
  (fun l => EvNotifyCaptureEvent l reqId) <$> listeners.

Definition isSetError (e : Event) : bool :=
  match e with EvSetError _ => true | _ => false end.

Definition isPhase (e : Event) : bool :=
  match e with
  | EvAsyncPollDone _ _ _ | EvRun _ | EvPostRun _ => true
  | _ => false
  end.

(** The calls of a batch that completes the requests [rs] in turn, the
    binding table being [m] when it starts: for every request its phases,
    then [setError] (always so on a device error), then its completion
    events. *)
Inductive Drained (deviceError : bool) (listeners : list ICaptureEventListener)
    : gmap Z (list Worker) -> list Camera3Request -> list Event -> Prop :=
| Drained_nil m : Drained deviceError listeners m [] []
| Drained_cons m r rs err evs :
    (err = [] /\ deviceError = false) \/ err = [EvSetError r] ->
    Drained deviceError listeners (delete (getId r) m) rs evs ->
    Drained deviceError listeners m (r :: rs)
      (phaseEvents r (default [] (m !! getId r)) ++ err
       ++ completionEvents listeners (getId r) ++ evs).

(** The binding table without the entries of [rs]. *)
Definition unbind (rs : list Camera3Request) (m : gmap Z (list Worker))
    : gmap Z (list Worker) :=
  fold_left (fun m r => delete (getId r) m) rs m.

(** The ids [e], [e + 1], ..., [e + n - 1]. *)
Definition idsFrom (e : Z) (n : nat) : list Z :=
  (fun i => e + Z.of_nat i) <$> seq 0 n.

(** The phases and completion events of the requests [rs], in turn, with
    the Workers [m] binds to each. *)
Definition batchEvents (listeners : list ICaptureEventListener)
    (m : gmap Z (list Worker)) (rs : list Camera3Request) : list Event :=
  rs ≫= (fun r => phaseEvents r (default [] (m !! getId r))
                  ++ completionEvents listeners (getId r)).

(** *** Runs used as examples *)

(** The Poller reports the video node ready for request [id]. *)
Definition pollEventFor (id : Z) : PollEventMessage :=
  {| pm_id := POLL_EVENT_ID_EVENT;
     pm_data := {| pm_activeDevices := Some [10%N]; pm_inactiveDevices := Some [];
                   pm_polledDevices := Some [10%N]; pm_reqId := id |} |}.

(** The Poller reports that the wait for request [id] failed. *)
Definition pollErrorFor (id : Z) : PollEventMessage :=
  {| pm_id := POLL_EVENT_ID_ERROR;
     pm_data := {| pm_activeDevices := Some []; pm_inactiveDevices := Some [];
                   pm_polledDevices := Some [10%N]; pm_reqId := id |} |}.

(** The poll messages the two put into the queue. *)
Definition pollMsg (id : Z) : DeviceMessage :=
  {| msg_id := MESSAGE_ID_POLL; pMsg_reqId := 0;
     cbMetadataMsg_updateMeta := false; cbMetadataMsg_request := None;
     pollEvent := {| pollMsgId := POLL_EVENT_ID_EVENT; requestId := id;
                     numDevices := 1; polledDevices := 1;
                     activeDevices := Some [10%N] |} |}.

Definition pollErrorMsg (id : Z) : DeviceMessage :=
  {| msg_id := MESSAGE_ID_POLL; pMsg_reqId := 0;
     cbMetadataMsg_updateMeta := false; cbMetadataMsg_request := None;
     pollEvent := {| pollMsgId := POLL_EVENT_ID_ERROR; requestId := id;
                     numDevices := 0; polledDevices := 1;
                     activeDevices := None |} |}.

(** The caller submits request [id] and the control thread takes it in. *)
Definition submit (id : Z) : list Op :=
  [OpCompleteRequest (Some (exampleRequest id)) false; OpLoop].

(** The Poller notifies and the control thread handles the notification. *)
Definition notify (pm : PollEventMessage) : list Op :=
  [OpNotifyPollEvent (Some pm); OpLoop].

(** One listener, one yuv stream, requests 5, 6 and 7 in flight. *)
Definition startAndSubmit : list Op :=
  [OpConfigStreams [yuv1080]; OpAttachListener 1%N]
  ++ submit 5 ++ submit 6 ++ submit 7.

Definition after (env : Env) (ops : list Op) : ImguUnit :=
  default (ImguUnit_new 0) (run env ops (ImguUnit_new 0)).

(** Requests 5, 6 and 7 in flight. *)
Definition inflight567 : ImguUnit := after envOK startAndSubmit.

(** The same after the notifications for 6 and then 7 were handled. *)
Definition delayed67 : ImguUnit :=
  after envOK (startAndSubmit ++ notify (pollEventFor 6) ++ notify (pollEventFor 7)).

(** The same after the notifications for 7 and then 6 were handled. *)
Definition delayed76 : ImguUnit :=
  after envOK (startAndSubmit ++ notify (pollEventFor 7) ++ notify (pollEventFor 6)).

(** A notification of the kind [notifyPollEvent] forwards to the control
    loop: an event, with devices, all the polled devices active. *)
Definition successfulPollEvent (pm : PollEventMessage) : Prop :=
  pm_id pm = POLL_EVENT_ID_EVENT
  /\ exists active polled,
       pm_activeDevices (pm_data pm) = Some active
       /\ pm_polledDevices (pm_data pm) = Some polled
       /\ active <> []
       /\ length active = length polled.

Definition isConfigStreams (op : Op) : bool :=
  match op with OpConfigStreams _ => true | _ => false end.

(** A configured controller with one capture listener and one listening
    task, whose [settings] call fails under [envSettingsFail]; no request
    was submitted yet. *)
Definition listened : ImguUnit :=
  set_mListeningTasks [Some 3%N]
    (after envSettingsFail [OpConfigStreams [yuv1080]; OpAttachListener 1%N]).

(** The same once request 5 was taken in. *)
Definition listenedAfter5 : ImguUnit :=
  default listened
    (snd <$> handleMessageCompleteReq envSettingsFail
               (requestMsg (exampleRequest 5)) listened).

(** [ordered s fut]: the ids the controller has seen, in completion order,
    followed by the ids [fut] still to be submitted, never step down. *)
Definition ordered (s : ImguUnit) (fut : list Z) : Prop :=
  StronglySorted Z.le (completionOrder s ++ fut).

(** *** Stream sets of [configStreams] *)

(** A stream the classification loop takes as an output of pixel format
    [f]: it is not a pure input stream. *)
Definition isOutputOf (f : Z) (st : camera3_stream_t) : bool :=
  negb (stream_type st =? CAMERA3_STREAM_INPUT) && (format st =? f).

(** A stream the loop takes as the input stream. *)
Definition isInputStream (st : camera3_stream_t) : bool :=
  (stream_type st =? CAMERA3_STREAM_INPUT)
  || (stream_type st =? CAMERA3_STREAM_BIDIRECTIONAL).


(** *** The pipes [createProcessingTasks] builds *)

(** The Output-Worker of a configured node, with the stream the node
    mapping gives the node. *)
Definition outputWorkerFor (s : ImguUnit) (depth : Z) (it : NodeTypes * V4L2VideoNode)
    : Worker :=
  OutputFrameWorker it.2 (mCameraId s) (default None (mStreamNodeMapping s !! it.1))
                    it.1 depth.

Definition isCommonNode (n : NodeTypes) : bool :=
  match n with
  | IMGU_NODE_STILL | IMGU_NODE_VIDEO => true
  | _ => false
  end.

(** The part the two pipes share: the Workers of the still and video
    nodes, in the order of the configured nodes. *)
Definition commonPipe (s : ImguUnit) (depth : Z) : PipeConfiguration :=
  let ws := outputWorkerFor s depth
              <$> List.filter (fun it => isCommonNode it.1) (mConfiguredNodesPerName s) in
  {| deviceWorkers := ws; pollableWorkers := ws; nodes := getNode <$> ws |}.

(** The Worker of the last configured node tagged [n]. *)
Definition lastWorkerFor (n : NodeTypes) (s : ImguUnit) (depth : Z) : option Worker :=
  outputWorkerFor s depth
    <$> last (List.filter (fun it => bool_decide (it.1 = n)) (mConfiguredNodesPerName s)).

Definition withFront (w : option Worker) (c : PipeConfiguration) : PipeConfiguration :=
  match w with
  | Some w => pushFront w c
  | None => c
  end.

(** *** The control thread as a whole *)

(** [messageThreadLoop] from its first statement: the flag is set, and
    while it is set the oldest message is received and handled.  [fuel]
    bounds the turns; with an empty queue the thread stays blocked in
    [receive]. *)
Fixpoint threadTurns (env : Env) (fuel : nat) (s : ImguUnit) : option ImguUnit :=
  match fuel with
  | O => Some s
  | S fuel =>
    if mThreadRunning s then
      match mMessageQueue s with
      | [] => Some s
      | _ :: _ => s ← messageThreadLoop env s; threadTurns env fuel s
      end
    else Some s
  end.

Definition messageThread (env : Env) (fuel : nat) (s : ImguUnit) : option ImguUnit :=
  threadTurns env fuel (set_mThreadRunning true s).

(** The message [requestExitAndWait] sends. *)
Definition exitMsg : DeviceMessage :=
  {| msg_id := MESSAGE_ID_EXIT;
     pMsg_reqId := pMsg_reqId DeviceMessage_default;
     cbMetadataMsg_updateMeta := cbMetadataMsg_updateMeta DeviceMessage_default;
     cbMetadataMsg_request := cbMetadataMsg_request DeviceMessage_default;
     pollEvent := pollEvent DeviceMessage_default |}.

(** *** More examples *)

(** The first Worker cannot be started. *)
Definition envStartFails : Env :=
  exampleEnv (fun e => match e with EvStartWorker _ => true | _ => false end).


(** Three nodes are opened: video, viewfinder and postview; the provider
    configures both pipes. *)
Definition envThreeNodes : Env :=
  {| status_of := fun _ _ => OK;
     needPolling := fun _ _ => true;
     getBaseGraphConfig := fun _ => true;
     getMediaCtlConfig := fun _ _ => true;
     getConfiguredNodesPerName :=
       fun _ => [(IMGU_NODE_VIDEO, 10%N); (IMGU_NODE_VF_PREVIEW, 11%N);
                 (IMGU_NODE_PV_PREVIEW, 12%N); (IMGU_NODE_RAW, 13%N)];
     pipelineMaxDepth := Some 4 |}.

(** The Input-Worker of a stream set with an input stream. *)
Definition inputWorkerOf (s : ImguUnit) (depth : Z) : list Worker :=
  match inputStream (mActiveStreams s) with
  | Some input =>
    [InputFrameWorker (mCameraId s) input
       (yuvStreams (mActiveStreams s) ++ blobStreams (mActiveStreams s)) depth]
  | None => []
  end.

(** What the loop of [createProcessingTasks] reads and what the pipes are
    read from. *)
Definition viewOf (s : ImguUnit) :=
  (mCameraId s, mStreamNodeMapping s, mPipeConfigs_video s).

Definition pipesOf (s : ImguUnit) :=
  (mPipeConfigs_video s, mPipeConfigs_still s, mCameraId s, mActiveStreams s,
   mConfiguredNodesPerName s, mStreamNodeMapping s).

(** The Worker of the last node tagged [n], or [w] without one. *)
Definition orLast (W : NodeTypes * V4L2VideoNode -> Worker) (n : NodeTypes)
    (l : list (NodeTypes * V4L2VideoNode)) (w : option Worker) : option Worker :=
  match last (List.filter (fun it => bool_decide (it.1 = n)) l) with
  | Some it => Some (W it)
  | None => w
  end.

(* ================================================================== *)
(** ** [MediaCtlHelper]: the Link Configurator *)
(* ================================================================== *)

(** A shallow embedding of [MediaCtlHelper.cpp], in the conventions of the
    controller: the members of the class are the fields of a record, every
    call on the media controller, on a media entity, on a video node or on
    the open callback is an [Event] of the [trace], and what the call
    answers is read from an environment that sees the trace so far.  The
    bodies are written in a small monad over the object: a computation ends
    in a [return] statement, goes on to the next statement, or dereferences
    a null pointer. *)

Module MediaCtl.

(** [V4L2_CID_BASE + 20] of [linux/v4l2-controls.h]. *)
Definition V4L2_CID_HFLIP : Z := 9963796.

(** *** The configuration the provider hands out

    The structures carry the members this file reads or writes; what else a
    link or a format holds travels in one opaque member. *)

Record MediaCtlLinkParams := {
  link_ends : N;
  enable : bool
}.

Record MediaCtlControlParams := {
  ctl_entityName : string;
  controlId : Z;
  value : Z;
  controlName : string
}.

Record MediaCtlFormatParams := {
  fmt_entityName : string;
  fmt_width : Z;
  fmt_height : Z;
  formatCode : Z;
  stride : Z;
  field : Z;
  fmt_other : N
}.

Record MediaCtlSelectionParams := {
  sel_entityName : string;
  sel_pad : Z;
  sel_target : Z;
  sel_top : Z;
  sel_left : Z;
  sel_width : Z;
  sel_height : Z
}.

(** [struct v4l2_selection], which this file only passes on. *)
Definition v4l2_selection := N.

Record MediaCtlSelectionVideoParams := {
  selv_entityName : string;
  select : v4l2_selection
}.

Record MediaCtlElement := {
  name : string;
  isysNodeName : NodeTypes
}.

Record MediaCtlConfig := {
  mLinkParams : list MediaCtlLinkParams;
  mControlParams : list MediaCtlControlParams;
  mFormatParams : list MediaCtlFormatParams;
  mSelectionParams : list MediaCtlSelectionParams;
  mSelectionVideoParams : list MediaCtlSelectionVideoParams;
  mVideoNodes : list MediaCtlElement
}.

(** A default-constructed [MediaCtlConfig]: every vector is empty. *)
Definition MediaCtlConfig_empty : MediaCtlConfig :=
  {| mLinkParams := []; mControlParams := []; mFormatParams := [];
     mSelectionParams := []; mSelectionVideoParams := []; mVideoNodes := [] |}.

(** [pipeLink.enable = v], [pipeFormat.field = v], [pipeFormat.stride = v]. *)
Definition set_enable (v : bool) (l : MediaCtlLinkParams) : MediaCtlLinkParams :=
  {| link_ends := link_ends l; enable := v |}.

Definition set_field (v : Z) (f : MediaCtlFormatParams) : MediaCtlFormatParams :=
  {| fmt_entityName := fmt_entityName f; fmt_width := fmt_width f;
     fmt_height := fmt_height f; formatCode := formatCode f;
     stride := stride f; field := v; fmt_other := fmt_other f |}.

Definition set_stride (v : Z) (f : MediaCtlFormatParams) : MediaCtlFormatParams :=
  {| fmt_entityName := fmt_entityName f; fmt_width := fmt_width f;
     fmt_height := fmt_height f; formatCode := formatCode f;
     stride := v; field := field f; fmt_other := fmt_other f |}.

(** [IStreamConfigProvider::MediaType] with its end marker:
    [MEDIA_TYPE_MAX_COUNT] is [None]. *)
Definition MEDIA_TYPE_MAX_COUNT : option MediaType := None.

#[global] Instance MediaType_eq_dec : EqDecision MediaType.
Proof. solve_decision. Defined.

(** A [MediaEntity] and an [IOpenCallBack], by their identity. *)
Definition MediaEntity := N.
Definition IOpenCallBack := N.

(** *** Calls that leave the helper *)

Inductive Event :=
| EvResetLinks
| EvGetMediaDevInfo
| EvConfigureLink (pipeLink : MediaCtlLinkParams)
| EvSetControl (entityName : string) (controlId value : Z) (controlName : string)
| EvGetMediaEntity (entityName : string)
| EvSetFormat (pipeFormat : MediaCtlFormatParams)
| EvSetSelection (entityName : string) (pad target top left width height : Z)
| EvGetDevice (entity : MediaEntity)
| EvNodeSetSelection (vNode : V4L2VideoNode) (select : v4l2_selection)
| EvOpened (cb : IOpenCallBack) (isysNodeName : NodeTypes)
    (videoNode : option V4L2VideoNode)
| EvClose (node : V4L2VideoNode).

(** What the collaborators answer: the status of a call, the object a call
    hands back through its reference argument, the provider's
    configurations, and the two predicates declared in the headers
    ([isMediaTypeForPipe], and [getType() == DEVICE_VIDEO] of an entity). *)
Record Env := {
  status_of : list Event -> Event -> status_t;
  entity_of : list Event -> string -> option MediaEntity;
  device_of : list Event -> MediaEntity -> option V4L2VideoNode;
  isDeviceVideo : list Event -> MediaEntity -> bool;
  getMediaCtlConfig : list Event -> option MediaType -> option MediaCtlConfig;
  isMediaTypeForPipe : MediaType -> bool
}.

(** *** The helper's state *)

(** [mMediaCtlConfig] and [mPipeConfig] point at configurations of the
    provider, which are [const]: the fields hold what they point at.
    [mConfigResults_pixelFormat] is [None] until [configure] assigns it. *)
Record MediaCtlHelper := {
  mOpenVideoNodeCallBack : option IOpenCallBack;
  mMediaCtlConfig : option MediaCtlConfig;
  mPipeConfig : option MediaCtlConfig;
  mConfigedPipeType : option MediaType;
  mConfigedMediaCtlConfigs : MediaType -> MediaCtlConfig;
  mConfiguredNodes : list (option V4L2VideoNode);
  mConfiguredNodesPerName : gmap NodeTypes (option V4L2VideoNode);
  mConfigResults_pixelFormat : option Z;
  trace : list Event
}.

Definition set_mMediaCtlConfig (v : option MediaCtlConfig) (s : MediaCtlHelper) : MediaCtlHelper :=
  {| mOpenVideoNodeCallBack := mOpenVideoNodeCallBack s; mMediaCtlConfig := v;
     mPipeConfig := mPipeConfig s; mConfigedPipeType := mConfigedPipeType s;
     mConfigedMediaCtlConfigs := mConfigedMediaCtlConfigs s;
     mConfiguredNodes := mConfiguredNodes s;
     mConfiguredNodesPerName := mConfiguredNodesPerName s;
     mConfigResults_pixelFormat := mConfigResults_pixelFormat s;
     trace := trace s |}.

Definition set_mPipeConfig (v : option MediaCtlConfig) (s : MediaCtlHelper) : MediaCtlHelper :=
  {| mOpenVideoNodeCallBack := mOpenVideoNodeCallBack s;
     mMediaCtlConfig := mMediaCtlConfig s; mPipeConfig := v;
     mConfigedPipeType := mConfigedPipeType s;
     mConfigedMediaCtlConfigs := mConfigedMediaCtlConfigs s;
     mConfiguredNodes := mConfiguredNodes s;
     mConfiguredNodesPerName := mConfiguredNodesPerName s;
     mConfigResults_pixelFormat := mConfigResults_pixelFormat s;
     trace := trace s |}.

Definition set_mConfigedPipeType (v : option MediaType) (s : MediaCtlHelper) : MediaCtlHelper :=
  {| mOpenVideoNodeCallBack := mOpenVideoNodeCallBack s;
     mMediaCtlConfig := mMediaCtlConfig s; mPipeConfig := mPipeConfig s;
     mConfigedPipeType := v;
     mConfigedMediaCtlConfigs := mConfigedMediaCtlConfigs s;
     mConfiguredNodes := mConfiguredNodes s;
     mConfiguredNodesPerName := mConfiguredNodesPerName s;
     mConfigResults_pixelFormat := mConfigResults_pixelFormat s;
     trace := trace s |}.

Definition set_mConfigedMediaCtlConfigs (v : MediaType -> MediaCtlConfig) (s : MediaCtlHelper) : MediaCtlHelper :=
  {| mOpenVideoNodeCallBack := mOpenVideoNodeCallBack s;
     mMediaCtlConfig := mMediaCtlConfig s; mPipeConfig := mPipeConfig s;
     mConfigedPipeType := mConfigedPipeType s;
     mConfigedMediaCtlConfigs := v;
     mConfiguredNodes := mConfiguredNodes s;
     mConfiguredNodesPerName := mConfiguredNodesPerName s;
     mConfigResults_pixelFormat := mConfigResults_pixelFormat s;
     trace := trace s |}.

Definition set_mConfiguredNodes (v : list (option V4L2VideoNode)) (s : MediaCtlHelper) : MediaCtlHelper :=
  {| mOpenVideoNodeCallBack := mOpenVideoNodeCallBack s;
     mMediaCtlConfig := mMediaCtlConfig s; mPipeConfig := mPipeConfig s;
     mConfigedPipeType := mConfigedPipeType s;
     mConfigedMediaCtlConfigs := mConfigedMediaCtlConfigs s;
     mConfiguredNodes := v;
     mConfiguredNodesPerName := mConfiguredNodesPerName s;
     mConfigResults_pixelFormat := mConfigResults_pixelFormat s;
     trace := trace s |}.

Definition set_mConfiguredNodesPerName (v : gmap NodeTypes (option V4L2VideoNode)) (s : MediaCtlHelper) : MediaCtlHelper :=
  {| mOpenVideoNodeCallBack := mOpenVideoNodeCallBack s;
     mMediaCtlConfig := mMediaCtlConfig s; mPipeConfig := mPipeConfig s;
     mConfigedPipeType := mConfigedPipeType s;
     mConfigedMediaCtlConfigs := mConfigedMediaCtlConfigs s;
     mConfiguredNodes := mConfiguredNodes s;
     mConfiguredNodesPerName := v;
     mConfigResults_pixelFormat := mConfigResults_pixelFormat s;
     trace := trace s |}.

Definition set_mConfigResults_pixelFormat (v : option Z) (s : MediaCtlHelper) : MediaCtlHelper :=
  {| mOpenVideoNodeCallBack := mOpenVideoNodeCallBack s;
     mMediaCtlConfig := mMediaCtlConfig s; mPipeConfig := mPipeConfig s;
     mConfigedPipeType := mConfigedPipeType s;
     mConfigedMediaCtlConfigs := mConfigedMediaCtlConfigs s;
     mConfiguredNodes := mConfiguredNodes s;
     mConfiguredNodesPerName := mConfiguredNodesPerName s;
     mConfigResults_pixelFormat := v;
     trace := trace s |}.

Definition set_trace (v : list Event) (s : MediaCtlHelper) : MediaCtlHelper :=
  {| mOpenVideoNodeCallBack := mOpenVideoNodeCallBack s;
     mMediaCtlConfig := mMediaCtlConfig s; mPipeConfig := mPipeConfig s;
     mConfigedPipeType := mConfigedPipeType s;
     mConfigedMediaCtlConfigs := mConfigedMediaCtlConfigs s;
     mConfiguredNodes := mConfiguredNodes s;
     mConfiguredNodesPerName := mConfiguredNodesPerName s;
     mConfigResults_pixelFormat := mConfigResults_pixelFormat s;
     trace := v |}.

(** One more call in the trace. *)
Definition emit (e : Event) (s : MediaCtlHelper) : MediaCtlHelper :=
  set_trace (trace s ++ [e]) s.

(** [mConfigedMediaCtlConfigs[type] = c]. *)
Definition store (type : MediaType) (c : MediaCtlConfig)
    (a : MediaType -> MediaCtlConfig) : MediaType -> MediaCtlConfig :=
  fun t => if decide (t = type) then c else a t.

(** [mConfiguredNodesPerName.insert(std::make_pair(k, v))]: a key that is
    present keeps its node. *)
Definition map_insert (k : NodeTypes) (v : option V4L2VideoNode)
    (m : gmap NodeTypes (option V4L2VideoNode)) : gmap NodeTypes (option V4L2VideoNode) :=
  match m !! k with
  | Some _ => m
  | None => <[k := v]> m
  end.

(** *** The monad of the member functions *)

Inductive Flow (A : Type) : Type :=
| Returned (status : status_t) (s : MediaCtlHelper)
| Goes (a : A) (s : MediaCtlHelper)
| Undefined.

Arguments Returned {A} status s.
Arguments Goes {A} a s.
Arguments Undefined {A}.

Definition M (A : Type) : Type := MediaCtlHelper -> Flow A.

Definition ret {A} (a : A) : M A := fun s => Goes a s.

Definition bind {A B} (m : M A) (k : A -> M B) : M B :=
  fun s =>
    match m s with
    | Returned status s => Returned status s
    | Goes a s => k a s
    | Undefined => Undefined
    end.

Declare Scope flow_scope.
Delimit Scope flow_scope with flow.
Notation "x <- y ;; z" := (bind y (fun x => z))
  (at level 20, y at level 99, z at level 200, only parsing) : flow_scope.
Notation "' pat <- y ;; z" := (bind y (fun x => match x with pat => z end))
  (at level 20, pat pattern, y at level 99, z at level 200, only parsing) : flow_scope.
Notation "y ;; z" := (bind y (fun _ => z))
  (at level 100, z at level 200, only parsing, right associativity) : flow_scope.
Local Open Scope flow_scope.

(** [return status;] *)
Definition returns {A} (status : status_t) : M A := fun s => Returned status s.

Definition gets {A} (f : MediaCtlHelper -> A) : M A := fun s => Goes (f s) s.

Definition modify (f : MediaCtlHelper -> MediaCtlHelper) : M unit :=
  fun s => Goes tt (f s).

(** [p->...] on a pointer that may be null. *)
Definition deref {A} (p : option A) : M A :=
  fun s => match p with Some a => Goes a s | None => Undefined end.

(** [if (status != NO_ERROR) return status;] *)
Definition check (status : status_t) : M unit :=
  if negb (status =? NO_ERROR) then returns status else ret tt.

(** A member function as its callers see it: the status it returns,
    whether by a [return] inside or by the one that ends the body. *)
Definition runM (m : M status_t) (s : MediaCtlHelper)
    : option (status_t * MediaCtlHelper) :=
  match m s with
  | Returned status s | Goes status s => Some (status, s)
  | Undefined => None
  end.

(** The call of a member function from another one. *)
Definition callee (f : MediaCtlHelper -> option (status_t * MediaCtlHelper))
    : M status_t :=
  fun s => match f s with Some (status, s) => Goes status s | None => Undefined end.

(** *** The constructor *)

Definition MediaCtlHelper_new (openCallBack : option IOpenCallBack) (isIMGU : bool)
    : MediaCtlHelper :=
  let s := {| mOpenVideoNodeCallBack := openCallBack; mMediaCtlConfig := None;
              mPipeConfig := None; mConfigedPipeType := MEDIA_TYPE_MAX_COUNT;
              mConfigedMediaCtlConfigs := fun _ => MediaCtlConfig_empty;
              mConfiguredNodes := []; mConfiguredNodesPerName := ∅;
              mConfigResults_pixelFormat := None; trace := [] |} in
  if isIMGU then emit EvResetLinks s else s.

(** *** The two size queries *)

(** The C string a [std::string] holds for [strcmp]: the characters before
    the first NUL. *)
Fixpoint c_str (s : string) : string :=
  match s with
  | EmptyString => EmptyString
  | String c s => if Ascii.eqb c Ascii.zero then EmptyString else String c (c_str s)
  end.

Definition strcmp_is_0 (a b : string) : bool := String.eqb (c_str a) (c_str b).

(** [size = params[i].width * params[i].height], as the [uint32_t] that
    [size] holds. *)
Definition formatSize (p : MediaCtlFormatParams) : Z := u32 (fmt_width p * fmt_height p).

(** [size] is the reference argument: its value at the call and at the
    return. *)
Definition getConfigedHwPathSize (pathName : string) (size : Z) (s : MediaCtlHelper) : Z :=
  fold_left
    (fun size p => if strcmp_is_0 pathName (fmt_entityName p) then formatSize p else size)
    (mFormatParams (mConfigedMediaCtlConfigs s IMGU_COMMON)) size.

Definition getConfigedSensorOutputSize (s : MediaCtlHelper) : Z :=
  let params := mFormatParams (mConfigedMediaCtlConfigs s CIO2) in
  if (length params =? 1)%nat then
    match params with
    | p :: _ => formatSize p
    | [] => 0
    end
  else 0.

(** *** The member functions that program the hardware *)

Section Helper.

Variable env : Env.

(** A call whose status the helper reads. *)
Definition call (e : Event) : M status_t :=
  fun s => Goes (status_of env (trace s) e) (emit e s).

(** [mMediaCtl->getMediaEntity(entity, name)]: the status and the entity
    handed back. *)
Definition getMediaEntity (entityName : string) : M (status_t * option MediaEntity) :=
  fun s => Goes (status_of env (trace s) (EvGetMediaEntity entityName),
                 entity_of env (trace s) entityName)
                (emit (EvGetMediaEntity entityName) s).

(** [entity->getDevice(node)]: the status and the device handed back. *)
Definition getDevice (entity : MediaEntity) : M (status_t * option V4L2VideoNode) :=
  fun s => Goes (status_of env (trace s) (EvGetDevice entity),
                 device_of env (trace s) entity)
                (emit (EvGetDevice entity) s).

(** The loop of [resetLinks], which is also the first loop of
    [configurePipe]. *)
Fixpoint disableLinks (links : list MediaCtlLinkParams) (status : status_t) : M status_t :=
  match links with
  | [] => ret status
  | pipeLink :: links =>
    let pipeLink := set_enable false pipeLink in
    status <- call (EvConfigureLink pipeLink) ;;
    check status ;;
    disableLinks links status
  end.

Definition resetLinks (config : option MediaCtlConfig) (s : MediaCtlHelper)
    : option (status_t * MediaCtlHelper) :=
  runM (let status := NO_ERROR in
        match config with
        | None => returns status
        | Some config => disableLinks (mLinkParams config) status
        end) s.

(** The loop of [closeVideoNodes]: the status of a [close] is only logged. *)
Fixpoint closeNodes (nodes : list (option V4L2VideoNode)) (status : status_t) : M status_t :=
  match nodes with
  | [] => ret status
  | node :: nodes =>
    node <- deref node ;;
    status <- call (EvClose node) ;;
    closeNodes nodes status
  end.

Definition closeVideoNodes (s : MediaCtlHelper) : option (status_t * MediaCtlHelper) :=
  runM (nodes <- gets mConfiguredNodes ;;
        closeNodes nodes NO_ERROR ;;
        modify (set_mConfiguredNodes []) ;;
        modify (set_mConfiguredNodesPerName ∅) ;;
        ret NO_ERROR) s.

(** [entityName] is a [const char*]. *)
Definition openVideoNode (entityName : option string) (isysNodeName : NodeTypes)
    (s : MediaCtlHelper) : option (status_t * MediaCtlHelper) :=
  runM (let status := UNKNOWN_ERROR in
        match entityName with
        | None => ret status
        | Some entityName =>
          '(status, entity) <- getMediaEntity entityName ;;
          check status ;;
          entity <- deref entity ;;
          '(status, videoNode) <- getDevice entity ;;
          check status ;;
          modify (fun s => set_mConfiguredNodes (mConfiguredNodes s ++ [videoNode]) s) ;;
          modify (fun s => set_mConfiguredNodesPerName
                             (map_insert isysNodeName videoNode
                                (mConfiguredNodesPerName s)) s) ;;
          cb <- gets mOpenVideoNodeCallBack ;;
          match cb with
          | Some cb => call (EvOpened cb isysNodeName videoNode)
          | None => ret status
          end
        end) s.

Fixpoint openNodes (elements : list MediaCtlElement) (status : status_t) : M status_t :=
  match elements with
  | [] => ret status
  | element :: elements =>
    status <- callee (openVideoNode (Some (name element)) (isysNodeName element)) ;;
    check status ;;
    openNodes elements status
  end.

Definition openVideoNodes (s : MediaCtlHelper) : option (status_t * MediaCtlHelper) :=
  runM (let status := UNKNOWN_ERROR in
        modify (set_mConfiguredNodes []) ;;
        modify (set_mConfiguredNodesPerName ∅) ;;
        config <- gets mMediaCtlConfig ;;
        config <- deref config ;;
        openNodes (mVideoNodes config) status ;;
        ret NO_ERROR) s.

(** *** [configure] *)

(** "setting all the Link necessary for the media controller"; the last
    loop of [configurePipe] but one. *)
Fixpoint configureLinks (links : list MediaCtlLinkParams) (status : status_t) : M status_t :=
  match links with
  | [] => ret status
  | pipeLink :: links =>
    status <- call (EvConfigureLink pipeLink) ;;
    check status ;;
    configureLinks links status
  end.

Definition setControl (pipeControl : MediaCtlControlParams) : M status_t :=
  call (EvSetControl (ctl_entityName pipeControl) (controlId pipeControl)
                     (value pipeControl) (controlName pipeControl)).

(** "HFLIP must be set before setting formats": the loop stops at the first
    HFLIP control. *)
Fixpoint setHflip (controls : list MediaCtlControlParams) (status : status_t) : M status_t :=
  match controls with
  | [] => ret status
  | pipeControl :: controls =>
    if controlId pipeControl =? V4L2_CID_HFLIP then
      status <- setControl pipeControl ;;
      check status ;;
      ret status
    else setHflip controls status
  end.

(** "setting all the format necessary for the media controller entities". *)
Fixpoint setFormats (formats : list MediaCtlFormatParams) (status : status_t) : M status_t :=
  match formats with
  | [] => ret status
  | pipeFormat :: formats =>
    '(status, entity) <- getMediaEntity (fmt_entityName pipeFormat) ;;
    check status ;;
    let pipeFormat := set_field 0 pipeFormat in
    let pipeFormat := set_stride (fmt_width pipeFormat) pipeFormat in
    status <- call (EvSetFormat pipeFormat) ;;
    check status ;;
    entity <- deref entity ;;
    isVideo <- gets (fun s => isDeviceVideo env (trace s) entity) ;;
    (if isVideo
     then modify (set_mConfigResults_pixelFormat (Some (formatCode pipeFormat)))
     else ret tt) ;;
    setFormats formats status
  end.

(** Only an entity whose name holds "isp-subdev" gets its selection. *)
Definition isIspSubdev (entityName : string) : bool :=
  if String.index 0 "isp-subdev" entityName is Some _ then true else false.

Fixpoint setSelections (params : list MediaCtlSelectionParams) (status : status_t) : M status_t :=
  match params with
  | [] => ret status
  | it :: params =>
    if negb (isIspSubdev (sel_entityName it)) then setSelections params status
    else
      status <- call (EvSetSelection (sel_entityName it) (sel_pad it) (sel_target it)
                                     (sel_top it) (sel_left it) (sel_width it)
                                     (sel_height it)) ;;
      check status ;;
      setSelections params status
  end.

(** "setting all the selections". *)
Fixpoint setVideoSelections (params : list MediaCtlSelectionVideoParams)
    (status : status_t) : M status_t :=
  match params with
  | [] => ret status
  | it :: params =>
    '(status, entity) <- getMediaEntity (selv_entityName it) ;;
    check status ;;
    entity <- deref entity ;;
    '(status, vNode) <- getDevice entity ;;
    check status ;;
    vNode <- deref vNode ;;
    status <- call (EvNodeSetSelection vNode (select it)) ;;
    check status ;;
    setVideoSelections params status
  end.

(** "HFLIP already set earlier, so no need to set it again". *)
Fixpoint setControls (controls : list MediaCtlControlParams) (status : status_t) : M status_t :=
  match controls with
  | [] => ret status
  | pipeControl :: controls =>
    if negb (controlId pipeControl =? V4L2_CID_HFLIP) then
      status <- setControl pipeControl ;;
      check status ;;
      setControls controls status
    else setControls controls status
  end.

(** From [getMediaDevInfo] to the end of [configure]; [gc], the base graph
    configuration fetched before, is not used. *)
Definition programDevice (config : MediaCtlConfig) : M status_t :=
  status <- call EvGetMediaDevInfo ;;
  check status ;;
  status <- configureLinks (mLinkParams config) status ;;
  status <- callee openVideoNodes ;;
  check status ;;
  status <- setHflip (mControlParams config) status ;;
  status <- setFormats (mFormatParams config) status ;;
  status <- setSelections (mSelectionParams config) status ;;
  status <- setVideoSelections (mSelectionVideoParams config) status ;;
  status <- setControls (mControlParams config) status ;;
  ret status.

Definition configure (type : MediaType) (s : MediaCtlHelper)
    : option (status_t * MediaCtlHelper) :=
  runM (if isMediaTypeForPipe env type then returns BAD_VALUE
        else
          modify (set_mConfigedPipeType MEDIA_TYPE_MAX_COUNT) ;;
          modify (set_mPipeConfig None) ;;
          config <- gets (fun s => getMediaCtlConfig env (trace s) (Some type)) ;;
          modify (set_mMediaCtlConfig config) ;;
          match config with
          | None => returns BAD_VALUE
          | Some config =>
            modify (fun s => set_mConfigedMediaCtlConfigs
                               (store type config (mConfigedMediaCtlConfigs s)) s) ;;
            programDevice config
          end) s.

(** *** [configurePipe] *)

(** The last loop of [configurePipe]. *)
Fixpoint resetFormats (formats : list MediaCtlFormatParams) (status : status_t) : M status_t :=
  match formats with
  | [] => ret status
  | pipeFormat :: formats =>
    let pipeFormat := set_field 0 pipeFormat in
    let pipeFormat := set_stride (fmt_width pipeFormat) pipeFormat in
    status <- call (EvSetFormat pipeFormat) ;;
    check status ;;
    resetFormats formats status
  end.

(** From "Config for the new MediaCtlData" to the end of [configurePipe]. *)
Definition configureNewPipe (pipeType : MediaType) (resetFormat : bool)
    (status : status_t) : M status_t :=
  config <- gets (fun s => getMediaCtlConfig env (trace s) (Some pipeType)) ;;
  match config with
  | None => returns OK
  | Some config =>
    modify (set_mPipeConfig (Some config)) ;;
    modify (set_mConfigedPipeType (Some pipeType)) ;;
    status <- configureLinks (mLinkParams config) status ;;
    if negb resetFormat then returns OK
    else
      resetFormats (mFormatParams config) status ;;
      returns OK
  end.

Definition configurePipe (pipeType : MediaType) (resetFormat : bool)
    (s : MediaCtlHelper) : option (status_t * MediaCtlHelper) :=
  runM (let status := OK in
        if negb (isMediaTypeForPipe env pipeType) then returns BAD_VALUE
        else
          configed <- gets mConfigedPipeType ;;
          if decide (configed = Some pipeType) then returns OK
          else
            config <- gets (fun s => getMediaCtlConfig env (trace s) configed) ;;
            status <- match config with
                      | Some config => disableLinks (mLinkParams config) status
                      | None => ret status
                      end ;;
            configureNewPipe pipeType resetFormat status) s.

(** *** The destructor *)


End Helper.

(** *** Definitions used to state the properties of the helper *)

(** What a computation does to the object: [G a s s'] when it goes on with
    [a], [R status s s'] when it returns [status]. *)
Definition spec {A} (m : M A)
    (G : A -> MediaCtlHelper -> MediaCtlHelper -> Prop)
    (R : status_t -> MediaCtlHelper -> MediaCtlHelper -> Prop) : Prop :=
  forall s, match m s with
            | Goes a s' => G a s s'
            | Returned status s' => R status s s'
            | Undefined => True
            end.

(** However the computation ends, the object it leaves is related to the
    one it started on. *)
Definition keeps {A} (Rel : MediaCtlHelper -> MediaCtlHelper -> Prop) (m : M A) : Prop :=
  spec m (fun _ => Rel) (fun _ => Rel).

(** The calls that program the hardware, without the entity or node they
    go through. *)
Inductive Programmed :=
| PLink (pipeLink : MediaCtlLinkParams)
| PControl (pipeControl : MediaCtlControlParams)
| PFormat (pipeFormat : MediaCtlFormatParams)
| PSelection (it : MediaCtlSelectionParams)
| PVideoSelection (select : v4l2_selection).

Definition programmed (e : Event) : option Programmed :=
  match e with
  | EvConfigureLink l => Some (PLink l)
  | EvSetControl n i v c =>
    Some (PControl {| ctl_entityName := n; controlId := i; value := v; controlName := c |})
  | EvSetFormat f => Some (PFormat f)
  | EvSetSelection n p t tp l w h =>
    Some (PSelection {| sel_entityName := n; sel_pad := p; sel_target := t;
                        sel_top := tp; sel_left := l; sel_width := w; sel_height := h |})
  | EvNodeSetSelection _ sel => Some (PVideoSelection sel)
  | _ => None
  end.

(** A format as [configure] and [configurePipe] send it: [field] is 0 and
    [stride] is the width. *)
Definition sentFormat (f : MediaCtlFormatParams) : MediaCtlFormatParams :=
  set_stride (fmt_width f) (set_field 0 f).

Definition isHflip (c : MediaCtlControlParams) : bool := controlId c =? V4L2_CID_HFLIP.

(** What a [configure] that succeeds programs, in call order: the links as
    the configuration gives them, the first HFLIP control, the formats, the
    selections of the isp sub-device, the selections of the video nodes,
    and the controls other than HFLIP. *)
Definition configureProgram (config : MediaCtlConfig) : list Programmed :=
  (PLink <$> mLinkParams config)
  ++ (PControl <$> take 1 (filter (fun c => isHflip c = true) (mControlParams config)))
  ++ (PFormat <$> (sentFormat <$> mFormatParams config))
  ++ (PSelection <$> filter (fun it => isIspSubdev (sel_entityName it) = true)
                            (mSelectionParams config))
  ++ (PVideoSelection <$> (select <$> mSelectionVideoParams config))
  ++ (PControl <$> filter (fun c => isHflip c = false) (mControlParams config)).

(** [m] programs [P]: going on it has made the calls [P]; returning it has
    failed after a prefix of them. *)
Definition programs {A} (m : M A) (P : list Programmed) : Prop :=
  spec m
    (fun _ s s' => exists evs, trace s' = trace s ++ evs /\ omap programmed evs = P)
    (fun status s s' =>
       status <> NO_ERROR
       /\ exists evs, trace s' = trace s ++ evs /\ omap programmed evs `prefix_of` P).

(** The events added to the trace are all of kind [P]. *)
Definition adds (P : Event -> Prop) (s s' : MediaCtlHelper) : Prop :=
  exists evs, trace s' = trace s ++ evs /\ Forall P evs.

Definition isClose (e : Event) : bool :=
  match e with EvClose _ => true | _ => false end.

(** The link as [resetLinks] sends it. *)
Definition disabled (l : MediaCtlLinkParams) : MediaCtlLinkParams := set_enable false l.


(** The links of the configuration the provider holds for a type. *)
Definition linksOf (config : option MediaCtlConfig) : list MediaCtlLinkParams :=
  match config with
  | Some c => mLinkParams c
  | None => []
  end.

(** *** A configuration and environments used as examples *)

Definition exampleLink (n : N) : MediaCtlLinkParams :=
  {| link_ends := n; enable := true |}.

Definition hflipControl : MediaCtlControlParams :=
  {| ctl_entityName := "rkisp1-isp-subdev"; controlId := V4L2_CID_HFLIP;
     value := 1; controlName := "hflip" |}.

(** [V4L2_CID_GAIN] is [V4L2_CID_BASE + 19]. *)
Definition gainControl : MediaCtlControlParams :=
  {| ctl_entityName := "sensor"; controlId := 9963795;
     value := 16; controlName := "gain" |}.

Definition exampleFormat (n : string) (w h : Z) : MediaCtlFormatParams :=
  {| fmt_entityName := n; fmt_width := w; fmt_height := h; formatCode := 8199;
     stride := 0; field := 1; fmt_other := 0 |}.

Definition exampleSelection (n : string) : MediaCtlSelectionParams :=
  {| sel_entityName := n; sel_pad := 0; sel_target := 0; sel_top := 0;
     sel_left := 0; sel_width := 1920; sel_height := 1080 |}.

(** Two links, a gain control and two HFLIP controls, one format, a
    selection on the isp sub-device and one on the sensor, a selection on the
    main path's node, and two video nodes. *)
Definition exampleConfig : MediaCtlConfig :=
  {| mLinkParams := [exampleLink 1; exampleLink 2];
     mControlParams := [gainControl; hflipControl; hflipControl];
     mFormatParams := [exampleFormat "rkisp1_mainpath" 1920 1080];
     mSelectionParams := [exampleSelection "rkisp1-isp-subdev";
                          exampleSelection "sensor"];
     mSelectionVideoParams :=
       [{| selv_entityName := "rkisp1_mainpath"; select := 5%N |}];
     mVideoNodes := [{| name := "rkisp1_mainpath"; isysNodeName := IMGU_NODE_VIDEO |};
                     {| name := "rkisp1_selfpath";
                        isysNodeName := IMGU_NODE_VF_PREVIEW |};
                     {| name := "rkisp1_rawpath"; isysNodeName := IMGU_NODE_VIDEO |}] |}.

(** A pipe configuration of two links and one format. *)
Definition examplePipeConfig : MediaCtlConfig :=
  {| mLinkParams := [exampleLink 3; exampleLink 4];
     mControlParams := [];
     mFormatParams := [exampleFormat "rkisp1_selfpath" 640 480];
     mSelectionParams := []; mSelectionVideoParams := []; mVideoNodes := [] |}.

(** The provider configures the sensor side, the common part and the video
    pipe; an entity is numbered by the call that fetches it, its device is
    the entity plus 100; every call succeeds except those [fails] selects. *)
Definition exampleHelperEnv (fails : Event -> bool) : Env :=
  {| status_of := fun _ e => if fails e then UNKNOWN_ERROR else NO_ERROR;
     entity_of := fun t _ => Some (N.of_nat (length t));
     device_of := fun _ e => Some (e + 100)%N;
     isDeviceVideo := fun _ _ => true;
     getMediaCtlConfig :=
       fun _ t => match t with
                  | Some CIO2 | Some IMGU_COMMON => Some exampleConfig
                  | Some IMGU_VIDEO => Some examplePipeConfig
                  | _ => None
                  end;
     isMediaTypeForPipe :=
       fun t => match t with IMGU_STILL | IMGU_VIDEO => true | _ => false end |}.

Definition helperEnvOK : Env := exampleHelperEnv (fun _ => false).

(** The second link of a configuration cannot be set. *)
Definition helperEnvLinkFails : Env :=
  exampleHelperEnv
    (fun e => match e with
              | EvConfigureLink l => bool_decide (link_ends l = 2%N \/ link_ends l = 4%N)
              | _ => false
              end).

(** A helper as the controller constructs it. *)
Definition exampleHelper : MediaCtlHelper := MediaCtlHelper_new None true.

(** The same after [configure] of the sensor side. *)
Definition configuredHelper (env : Env) : MediaCtlHelper :=
  default exampleHelper (snd <$> configure env CIO2 exampleHelper).

End MediaCtl.

(* ================================================================== *)
(** ** Properties *)
(* ================================================================== *)

(** *** Arithmetic of the embedding *)

Lemma streamSize_exact (s : camera3_stream_t) :
  0 <= width s * height s < 2 ^ 32 -> streamSize s = width s * height s.
Proof. intros H. unfold streamSize, u32. apply Z.mod_small. exact H. Qed.

Lemma micro_is_rounded_literal :
  F32.div (F32.of_Z 1) (F32.of_Z 1000000) = F32.micro.
Proof. vm_compute. reflexivity. Qed.

Lemma status_or_OK (a b : status_t) : status_or a b = OK <-> a = OK /\ b = OK.
Proof. unfold status_or, OK. apply Z.lor_eq_0_iff. Qed.

Lemma isOK_true (a : status_t) : isOK a = true <-> a = OK.
Proof. unfold isOK. apply Z.eqb_eq. Qed.

(** *** The stream mapper *)

Lemma availableStreams_length (a : StreamConfig) :
  (length (blobStreams a) <= 1)%nat ->
  length (availableStreams a) = (length (blobStreams a) + length (yuvStreams a))%nat.
Proof.
  unfold availableStreams. destruct (blobStreams a) as [|b [|b' l]]; simpl; intros H.
  - reflexivity.
  - reflexivity.
  - lia.
Qed.

Lemma mapStream_supported_head (s : ImguUnit) :
  (length (blobStreams (mActiveStreams s)) <= 1)%nat ->
  (1 <? Z.of_nat (length (blobStreams (mActiveStreams s)))) = false.
Proof. intros H. apply Z.ltb_ge. lia. Qed.


(** C7, as the code has it.  More than one blob stream: the mapper returns
    [BAD_VALUE] before it touches anything, so both mappings keep what an
    earlier configuration left in them.  At most one blob stream and a
    combination that is none of "one stream", "two streams", "one blob and
    at least two yuv": it returns [UNKNOWN_ERROR] and leaves both mappings
    empty.  Neither failure makes a call outside the controller. *)
Theorem mapStream_unsupported (s : ImguUnit) :
  let blobNum := length (blobStreams (mActiveStreams s)) in
  let yuvNum := length (yuvStreams (mActiveStreams s)) in
  ((1 < blobNum)%nat -> mapStreamWithDeviceNode s = (BAD_VALUE, s))
  /\
  ((blobNum <= 1)%nat ->
   (blobNum + yuvNum)%nat <> 1%nat ->
   (blobNum + yuvNum)%nat <> 2%nat ->
   ~ ((2 <= yuvNum)%nat /\ blobNum = 1%nat) ->
   exists s',
     mapStreamWithDeviceNode s = (UNKNOWN_ERROR, s')
     /\ mStreamNodeMapping s' = ∅
     /\ mStreamListenerMapping s' = ∅
     /\ trace s' = trace s).
Proof.
  intros blobNum yuvNum. split.
  - intros H. unfold mapStreamWithDeviceNode. fold blobNum.
    destruct (Z.ltb_spec 1 (Z.of_nat blobNum)) as [_|Hge]; [reflexivity|lia].
  - intros Hb H1 H2 H3. unfold mapStreamWithDeviceNode.
    fold blobNum. fold yuvNum.
    destruct (Z.ltb_spec 1 (Z.of_nat blobNum)) as [Hlt|_]; [lia|].
    destruct (Z.eqb_spec (Z.of_nat blobNum + Z.of_nat yuvNum) 1) as [He|_]; [lia|].
    destruct (Z.eqb_spec (Z.of_nat blobNum + Z.of_nat yuvNum) 2) as [He|_]; [lia|].
    destruct (Z.leb_spec 2 (Z.of_nat yuvNum)) as [Hy|Hy];
      destruct (Z.eqb_spec (Z.of_nat blobNum) 1) as [Hbn|Hbn]; simpl;
      try (exfalso; apply H3; split; lia);
      eexists; repeat split; reflexivity.
Qed.

Lemma index_loop_ind {A} (f : A -> Z -> A) (P : nat -> A -> Prop) (n : nat) (a0 : A) :
  P O a0 ->
  (forall k a, (k < n)%nat -> P k a -> P (S k) (f a (Z.of_nat k))) ->
  P n (fold_left f (map Z.of_nat (seq 0 n)) a0).
Proof.
  intros H0 Hstep.
  assert (G : forall m, (m <= n)%nat -> P m (fold_left f (map Z.of_nat (seq 0 m)) a0)).
  { induction m as [|m IH]; intros Hm.
    - exact H0.
    - rewrite seq_S, map_app, fold_left_app. simpl.
      apply Hstep; [lia|]. apply IH. lia. }
  apply G. lia.
Qed.

Lemma streamAt_nth (av : list camera3_stream_t) (k : nat) :
  streamAt av (Z.of_nat k) = nth k av stream_none.
Proof. unfold streamAt. rewrite Nat2Z.id. reflexivity. Qed.

Lemma findVideoIdx_spec (av : list camera3_stream_t) :
  av <> [] ->
  0 <= findVideoIdx av < Z.of_nat (length av)
  /\ forall i, 0 <= i < Z.of_nat (length av) ->
       streamSize (streamAt av i) <= streamSize (streamAt av (findVideoIdx av)).
Proof.
  intros Hne. unfold findVideoIdx, indices.
  assert (Hlen : (0 < length av)%nat) by (destruct av; [congruence|simpl; lia]).
  apply (index_loop_ind _
    (fun k v => 0 <= v < Z.of_nat (length av)
                /\ forall i, 0 <= i < Z.of_nat k ->
                     streamSize (streamAt av i) <= streamSize (streamAt av v))).
  - split; [lia|]. intros i Hi. lia.
  - intros k v Hk [Hv Hmax]. unfold streamSizeGT.
    destruct (Z.ltb_spec (streamSize (streamAt av v)) (streamSize (streamAt av (Z.of_nat k)))) as [Hlt|Hge].
    + split; [lia|]. intros i Hi.
      destruct (Z.eq_dec i (Z.of_nat k)) as [->|Hik]; [lia|].
      specialize (Hmax i ltac:(lia)). lia.
    + split; [lia|]. intros i Hi.
      destruct (Z.eq_dec i (Z.of_nat k)) as [->|Hik]; [lia|].
      apply Hmax. lia.
Qed.

Lemma findPreviewIdx_spec (av : list camera3_stream_t) (v : Z) :
  (2 <= length av)%nat ->
  0 <= findPreviewIdx av v < Z.of_nat (length av) /\ findPreviewIdx av v <> v.
Proof.
  intros Hlen. unfold findPreviewIdx, indices.
  set (p := fold_left (previewStep av v) (map Z.of_nat (seq 0 (length av))) (-1)).
  assert (Hp : (p = -1 /\ forall j, 0 <= j < Z.of_nat (length av) -> j = v)
               \/ (0 <= p < Z.of_nat (length av) /\ p <> v)).
  { subst p.
    apply (index_loop_ind _
      (fun k p => (p = -1 /\ forall j, 0 <= j < Z.of_nat k -> j = v)
                  \/ (0 <= p < Z.of_nat (length av) /\ p <> v))).
    - left. split; [reflexivity|]. intros j Hj. lia.
    - intros k q Hk Hq. unfold previewStep.
      destruct (Z.eqb_spec (Z.of_nat k) v) as [Hkv|Hkv].
      + destruct Hq as [[-> Hall]|Hq]; [left|right; exact Hq].
        split; [reflexivity|]. intros j Hj.
        destruct (Z.eq_dec j (Z.of_nat k)); [lia|]. apply Hall. lia.
      + destruct (Z.eqb_spec q (-1)) as [Hq1|Hq1].
        * right. lia.
        * destruct Hq as [[-> _]|Hq]; [congruence|].
          destruct (streamSizeEQ _ _); [right; exact Hq|].
          destruct (streamSizeGT _ _); right; [lia|exact Hq]. }
  destruct Hp as [[Hp1 Hall]|Hp].
  - exfalso. pose proof (Hall 0 ltac:(lia)). pose proof (Hall 1 ltac:(lia)). lia.
  - destruct (Z.eqb_spec p (-1)); [lia|]. exact Hp.
Qed.

Lemma collect_loop {A} (c : Z -> bool) (P : Z -> Prop) `{forall i, Decision (P i)}
    (g : Z -> A) (l : list Z) (acc : list A) :
  (forall i, c i = true <-> P i) ->
  fold_left (fun acc i => if c i then acc ++ [g i] else acc) l acc
  = acc ++ (g <$> filter P l).
Proof.
  intros Hc. revert acc.
  induction l as [|i l IH]; intros acc; simpl.
  - rewrite app_nil_r. reflexivity.
  - rewrite IH, filter_cons.
    destruct (c i) eqn:E.
    + destruct (decide (P i)) as [_|Hn]; [|exfalso; apply Hn, Hc, E].
      rewrite <- app_assoc. reflexivity.
    + destruct (decide (P i)) as [Hp|_]; [|reflexivity].
      apply Hc in Hp. congruence.
Qed.

Lemma findListeners_eq (av : list camera3_stream_t) (v p : Z) :
  findListeners av v p =
  (fun i => (i, listenerNode (streamAt av v) (streamAt av p) (streamAt av i)))
    <$> filter (fun i => i <> v /\ i <> p) (indices av).
Proof.
  unfold findListeners.
  rewrite (collect_loop (fun i => negb (i =? v) && negb (i =? p))
                        (fun i => i <> v /\ i <> p)).
  - reflexivity.
  - intros i. rewrite andb_true_iff, !negb_true_iff, !Z.eqb_neq. reflexivity.
Qed.

Lemma assignListeners_other (av : list camera3_stream_t) ls (m : gmap N NodeTypes) (k : N) :
  (forall it, it ∈ ls -> stream_addr (streamAt av it.1) <> k) ->
  assignListeners av ls m !! k = m !! k.
Proof.
  unfold assignListeners. revert m.
  induction ls as [|it ls IH]; intros m H; simpl; [reflexivity|].
  rewrite IH.
  - apply lookup_insert_ne. apply H. left.
  - intros it' Hin. apply H. right. exact Hin.
Qed.

Lemma assignListeners_lookup (av : list camera3_stream_t) ls (m : gmap N NodeTypes) i n :
  NoDup ((fun it : Z * NodeTypes => stream_addr (streamAt av it.1)) <$> ls) ->
  (i, n) ∈ ls ->
  assignListeners av ls m !! stream_addr (streamAt av i) = Some n.
Proof.
  revert m. induction ls as [|it ls IH]; intros m Hnd Hin.
  - inversion Hin.
  - rewrite fmap_cons in Hnd. apply NoDup_cons in Hnd as [Hnotin Hnd].
    apply elem_of_cons in Hin as [Heq|Hin].
    + subst it. unfold assignListeners. simpl.
      fold (assignListeners av ls (<[stream_addr (streamAt av i) := n]> m)).
      rewrite assignListeners_other.
      * apply lookup_insert_eq.
      * intros it' Hit' Heq. apply Hnotin. simpl. rewrite <- Heq.
        apply (list_elem_of_fmap_2 (fun it : Z * NodeTypes => stream_addr (streamAt av it.1))). exact Hit'.
    + unfold assignListeners. simpl. apply IH; assumption.
Qed.

Lemma streamAt_indices (av : list camera3_stream_t) :
  streamAt av <$> indices av = av.
Proof.
  unfold indices. rewrite <- list_fmap_compose.
  apply list_eq. intros k. rewrite list_lookup_fmap.
  destruct (av !! k) as [x|] eqn:E.
  - pose proof (lookup_lt_Some _ _ _ E) as Hk.
    rewrite lookup_seq_lt by exact Hk. simpl. unfold streamAt. rewrite Nat2Z.id.
    f_equal. apply nth_lookup_Some with (d := stream_none) in E. exact E.
  - pose proof (lookup_ge_None_1 _ _ E) as Hk.
    rewrite lookup_seq_ge by exact Hk. reflexivity.
Qed.

Lemma listeners_NoDup (av : list camera3_stream_t) (v p : Z) :
  NoDup (stream_addr <$> av) ->
  NoDup ((fun it : Z * NodeTypes => stream_addr (streamAt av it.1))
           <$> findListeners av v p).
Proof.
  intros Hnd. rewrite findListeners_eq. rewrite <- list_fmap_compose.
  assert (Hsub : sublist ((fun i => stream_addr (streamAt av i)) <$> filter (fun i => i <> v /\ i <> p) (indices av))
                         (stream_addr <$> av)).
  { rewrite <- (streamAt_indices av) at 2. rewrite <- list_fmap_compose.
    apply fmap_sublist. apply sublist_filter. }
  eapply sublist_NoDup; eassumption.
Qed.

Lemma listenerNode_amended (v p l : camera3_stream_t) :
  streamSize l <= streamSize v ->
  listenerNode v p l =
    if previewCloser v p l && (streamSize p <? streamSize l)
    then IMGU_NODE_VIDEO else specListenerNode v p l.
Proof.
  intros Hmax. unfold listenerNode, specListenerNode, previewCloser.
  unfold streamSizeEQ, streamSizeGT, streamSizeGE.
  destruct (F32.leb _ F32.micro); simpl; [reflexivity|].
  destruct (F32.ltb _ _); simpl.
  - destruct (Z.leb_spec (streamSize l) (streamSize p)) as [H|H];
      destruct (Z.ltb_spec (streamSize p) (streamSize l)) as [H'|H']; try reflexivity; lia.
  - destruct (Z.leb_spec (streamSize l) (streamSize v)) as [H|H]; [reflexivity|lia].
Qed.

Lemma streamAt_lookup (av : list camera3_stream_t) (k : nat) (x : camera3_stream_t) :
  av !! k = Some x -> streamAt av (Z.of_nat k) = x.
Proof.
  intros E. unfold streamAt. rewrite Nat2Z.id.
  apply nth_lookup_Some with (d := stream_none) in E. exact E.
Qed.

Lemma streamAt_elem (av : list camera3_stream_t) (i : Z) :
  0 <= i < Z.of_nat (length av) -> av !! Z.to_nat i = Some (streamAt av i).
Proof.
  intros Hi. unfold streamAt.
  destruct (lookup_lt_is_Some_2 av (Z.to_nat i) ltac:(lia)) as [x E].
  rewrite E. f_equal. symmetry. apply nth_lookup_Some with (d := stream_none) in E. exact E.
Qed.

Lemma streamAt_addr_inj (av : list camera3_stream_t) (i j : Z) :
  NoDup (stream_addr <$> av) ->
  0 <= i < Z.of_nat (length av) -> 0 <= j < Z.of_nat (length av) ->
  stream_addr (streamAt av i) = stream_addr (streamAt av j) -> i = j.
Proof.
  intros Hnd Hi Hj Heq.
  pose proof (streamAt_elem av i Hi) as Ei. pose proof (streamAt_elem av j Hj) as Ej.
  assert (Z.to_nat i = Z.to_nat j).
  { eapply NoDup_lookup; [exact Hnd| |].
    - rewrite list_lookup_fmap, Ei. reflexivity.
    - rewrite list_lookup_fmap, Ej. simpl. rewrite Heq. reflexivity. }
  lia.
Qed.

(** C4, as the code has it.  With one blob and at least two yuv streams
    (distinct stream objects), the video stream has the largest area, the
    preview stream is another stream, neither of them is a listener, and
    every other stream is a listener of exactly one node: the node the
    specification's rule names (closer aspect ratio, with its tie-breaks
    within 1e-6), except that a stream whose ratio is closer to the preview
    stream's but whose area exceeds the preview stream's listens to the
    video node.  The listeners vector holds every stream at most once. *)
Theorem listener_assignment (s : ImguUnit) :
  let av := availableStreams (mActiveStreams s) in
  length (blobStreams (mActiveStreams s)) = 1%nat ->
  (2 <= length (yuvStreams (mActiveStreams s)))%nat ->
  NoDup (stream_addr <$> av) ->
  exists s' video preview,
    mapStreamWithDeviceNode s = (OK, s')
    /\ mStreamNodeMapping s' !! IMGU_NODE_VIDEO = Some (Some video)
    /\ mStreamNodeMapping s' !! IMGU_NODE_VF_PREVIEW = Some (Some preview)
    /\ video ∈ av /\ preview ∈ av
    /\ stream_addr video <> stream_addr preview
    /\ (forall l, l ∈ av -> streamSize l <= streamSize video)
    /\ mStreamListenerMapping s' !! stream_addr video = None
    /\ mStreamListenerMapping s' !! stream_addr preview = None
    /\ (forall l, l ∈ av -> l <> video -> l <> preview ->
          mStreamListenerMapping s' !! stream_addr l =
            Some (if previewCloser video preview l
                     && (streamSize preview <? streamSize l)
                  then IMGU_NODE_VIDEO
                  else specListenerNode video preview l))
    /\ NoDup ((fun it : Z * NodeTypes => stream_addr (streamAt av it.1))
                <$> findListeners av (findVideoIdx av)
                      (findPreviewIdx av (findVideoIdx av))).
Proof.
  intros av Hblob Hyuv Hnd.
  assert (Hb : (length (blobStreams (mActiveStreams s)) <= 1)%nat) by lia.
  pose proof (availableStreams_length _ Hb) as Hlen. fold av in Hlen.
  assert (Hne : av <> []) by (intros E; rewrite E in Hlen; simpl in Hlen; lia).
  destruct (findVideoIdx_spec av Hne) as [Hv Hmax].
  destruct (findPreviewIdx_spec av (findVideoIdx av) ltac:(lia)) as [Hp Hpv].
  set (v := findVideoIdx av) in *. set (p := findPreviewIdx av v) in *.
  assert (Hinrange : forall l, l ∈ av ->
            exists i, 0 <= i < Z.of_nat (length av) /\ streamAt av i = l).
  { intros l Hl. apply list_elem_of_lookup in Hl as [k Hk].
    exists (Z.of_nat k). split.
    - apply lookup_lt_Some in Hk. lia.
    - apply streamAt_lookup. exact Hk. }
  assert (Hlis : forall it, it ∈ findListeners av v p ->
            0 <= it.1 < Z.of_nat (length av) /\ it.1 <> v /\ it.1 <> p).
  { intros it Hit. rewrite findListeners_eq in Hit.
    apply list_elem_of_fmap in Hit as (i & -> & Hi).
    apply list_elem_of_filter in Hi as [Hi1 Hi2]. simpl. split; [|exact Hi1].
    unfold indices in Hi2. apply list_elem_of_fmap in Hi2 as (k & -> & Hk).
    apply elem_of_seq in Hk. lia. }
  eexists _, (streamAt av v), (streamAt av p).
  split.
  { unfold mapStreamWithDeviceNode.
    rewrite (mapStream_supported_head _ Hb).
    cbn [mActiveStreams set_mStreamListenerMapping set_mStreamNodeMapping
         mStreamNodeMapping mStreamListenerMapping].
    destruct (Z.eqb_spec (Z.of_nat (length (blobStreams (mActiveStreams s)))
                          + Z.of_nat (length (yuvStreams (mActiveStreams s)))) 1)
      as [He|_]; [lia|].
    destruct (Z.eqb_spec (Z.of_nat (length (blobStreams (mActiveStreams s)))
                          + Z.of_nat (length (yuvStreams (mActiveStreams s)))) 2)
      as [He|_]; [lia|].
    destruct (Z.leb_spec 2 (Z.of_nat (length (yuvStreams (mActiveStreams s)))))
      as [_|Hlt]; [|lia].
    destruct (Z.eqb_spec (Z.of_nat (length (blobStreams (mActiveStreams s)))) 1)
      as [_|Hn]; [|lia].
    simpl. reflexivity. }
  cbn [mStreamNodeMapping mStreamListenerMapping set_mStreamListenerMapping
       set_mStreamNodeMapping].
  fold av. fold v. fold p. unfold assignNodes.
  destruct (Z.leb_spec 0 p) as [_|?]; [|lia].
  destruct (Z.leb_spec 0 v) as [_|?]; [|lia].
  split; [apply lookup_insert_eq|].
  split.
  { rewrite lookup_insert_ne by discriminate.
    rewrite lookup_insert_ne by discriminate. apply lookup_insert_eq. }
  split; [apply list_elem_of_lookup; eexists; apply streamAt_elem; exact Hv|].
  split; [apply list_elem_of_lookup; eexists; apply streamAt_elem; exact Hp|].
  split.
  { intros Heq. apply Hpv. symmetry.
    apply (streamAt_addr_inj av v p Hnd Hv Hp Heq). }
  split.
  { intros l Hl. destruct (Hinrange l Hl) as (i & Hi & <-). apply Hmax. exact Hi. }
  split.
  { rewrite assignListeners_other; [apply lookup_empty|].
    intros it Hit Heq. destruct (Hlis it Hit) as (Hr & Hnv & _).
    apply Hnv. apply (streamAt_addr_inj av _ _ Hnd Hr Hv Heq). }
  split.
  { rewrite assignListeners_other; [apply lookup_empty|].
    intros it Hit Heq. destruct (Hlis it Hit) as (Hr & _ & Hnp).
    apply Hnp. apply (streamAt_addr_inj av _ _ Hnd Hr Hp Heq). }
  split; [|apply listeners_NoDup; exact Hnd].
  intros l Hl Hlv Hlp.
  destruct (Hinrange l Hl) as (i & Hi & <-).
  rewrite <- listenerNode_amended by (apply Hmax; exact Hi).
  apply assignListeners_lookup.
  - apply listeners_NoDup. exact Hnd.
  - rewrite findListeners_eq.
    apply (list_elem_of_fmap_2
             (fun i => (i, listenerNode (streamAt av v) (streamAt av p) (streamAt av i)))).
    apply list_elem_of_filter. split.
    + split; intros ->; [apply Hlv|apply Hlp]; reflexivity.
    + unfold indices. replace i with (Z.of_nat (Z.to_nat i)) by lia.
      apply list_elem_of_fmap_2. apply elem_of_seq. lia.
Qed.

(** The rule of C4 as the specification words it fails on [threeStreams]:
    the 1920x1000 stream has the ratio 1.92, closer to the preview
    stream's 16:9 than to the video stream's 4:3, yet it listens to the
    video node, because its area exceeds the preview stream's. *)
Lemma listener_not_closest_ratio :
  exists s',
    mapStreamWithDeviceNode threeStreams = (OK, s')
    /\ mStreamNodeMapping s' !! IMGU_NODE_VIDEO = Some (Some blob1200)
    /\ mStreamNodeMapping s' !! IMGU_NODE_VF_PREVIEW = Some (Some yuv360)
    /\ specListenerNode blob1200 yuv360 yuv1000 = IMGU_NODE_VF_PREVIEW
    /\ mStreamListenerMapping s' !! stream_addr yuv1000 = Some IMGU_NODE_VIDEO.
Proof.
  eexists. split; [reflexivity|].
  repeat split; vm_compute; reflexivity.
Qed.

(** C7 as the specification words it fails on a reconfiguration: after
    one stream was mapped, a set with two blob streams is refused with the
    video entry of the earlier configuration still in the node mapping. *)
Lemma two_blobs_keep_stale_mappings :
  (mapStreamWithDeviceNode twoBlobsAfterOneStream).1 = BAD_VALUE
  /\ mStreamNodeMapping (mapStreamWithDeviceNode twoBlobsAfterOneStream).2
       !! IMGU_NODE_VIDEO = Some (Some yuv1080)
  /\ mStreamNodeMapping (mapStreamWithDeviceNode twoBlobsAfterOneStream).2 <> ∅.
Proof.
  split; [reflexivity|]. split; [vm_compute; reflexivity|].
  intros H. apply (f_equal (fun m => m !! IMGU_NODE_VIDEO)) in H.
  vm_compute in H. discriminate H.
Qed.

Lemma mapStream_unsupported_witness :
  mapStreamWithDeviceNode (withStreams [blob1200; blob3000] [])
    = (BAD_VALUE, withStreams [blob1200; blob3000] [])
  /\ exists s',
       mapStreamWithDeviceNode (withStreams [] [yuv1080; yuv480; yuv360])
         = (UNKNOWN_ERROR, s')
       /\ mStreamNodeMapping s' = ∅ /\ mStreamListenerMapping s' = ∅
       /\ trace s' = trace (withStreams [] [yuv1080; yuv480; yuv360]).
Proof.
  split.
  - apply (proj1 (mapStream_unsupported (withStreams [blob1200; blob3000] []))).
    simpl. lia.
  - apply (proj2 (mapStream_unsupported (withStreams [] [yuv1080; yuv480; yuv360])));
      simpl; lia.
Defined.


Lemma listener_assignment_witness :
  exists s' video preview,
    mapStreamWithDeviceNode threeStreams = (OK, s')
    /\ mStreamNodeMapping s' !! IMGU_NODE_VIDEO = Some (Some video)
    /\ mStreamNodeMapping s' !! IMGU_NODE_VF_PREVIEW = Some (Some preview)
    /\ mStreamListenerMapping s' !! stream_addr video = None
    /\ mStreamListenerMapping s' !! stream_addr preview = None.
Proof.
  assert (Hnd : NoDup (stream_addr <$> availableStreams (mActiveStreams threeStreams))).
  { refine (bool_decide_unpack _ _). vm_compute. exact I. }
  destruct (listener_assignment threeStreams eq_refl ltac:(simpl; lia) Hnd)
    as (s' & video & preview & H1 & H2 & H3 & _ & _ & _ & _ & H4 & H5 & _).
  exists s', video, preview. repeat split; assumption.
Defined.

(** *** Frame lemmas: what the member functions leave alone *)

Section Frame.

(** [proj] is what is observed of the controller; [loud] selects the calls
    that change it.  A lemma depends on the hypotheses its function needs. *)
Context {A : Type} (proj : ImguUnit -> A) (loud : Event -> bool) (env : Env).

Hypothesis proj_video : forall v s, proj (set_mPipeConfigs_video v s) = proj s.
Hypothesis proj_still : forall v s, proj (set_mPipeConfigs_still v s) = proj s.
Hypothesis proj_cur : forall v s, proj (set_mCurPipeConfig v s) = proj s.
Hypothesis proj_active : forall v s, proj (set_mActiveStreams v s) = proj s.
Hypothesis proj_nodeMapping : forall v s, proj (set_mStreamNodeMapping v s) = proj s.
Hypothesis proj_listenerMapping :
  forall v s, proj (set_mStreamListenerMapping v s) = proj s.
Hypothesis proj_configured : forall v s, proj (set_mConfiguredNodesPerName v s) = proj s.
Hypothesis proj_listenerWorkers :
  forall v s, proj (set_mListenerDeviceWorkers v s) = proj s.
Hypothesis proj_first : forall v s, proj (set_mFirstRequest v s) = proj s.
Hypothesis proj_restart : forall v s, proj (set_mNeedRestartPoll v s) = proj s.
Hypothesis proj_taking : forall v s, proj (set_mTakingPicture v s) = proj s.
Hypothesis proj_delay : forall v s, proj (set_mDelayProcessRequest v s) = proj s.
Hypothesis proj_work : forall v s, proj (set_mRequestToWorkMap v s) = proj s.
Hypothesis proj_emit : forall e s, loud e = false -> proj (emit e s) = proj s.
Hypothesis quiet_SetPipeType : loud EvSetPipeType = false.
Hypothesis quiet_MediaCtlConfigure : forall t, loud (EvMediaCtlConfigure t) = false.
Hypothesis quiet_MediaCtlConfigurePipe :
  forall t, loud (EvMediaCtlConfigurePipe t) = false.
Hypothesis quiet_WorkerConfigure : forall w, loud (EvWorkerConfigure w) = false.
Hypothesis quiet_AddListener : forall w a, loud (EvAddListener w a) = false.
Hypothesis quiet_WorkerAttachListener :
  forall w l, loud (EvWorkerAttachListener w l) = false.
Hypothesis quiet_PollerInit : forall n, loud (EvPollerInit n) = false.
Hypothesis quiet_PollerFlush : forall b, loud (EvPollerFlush b) = false.
Hypothesis quiet_Settings : forall t i, loud (EvSettings t i) = false.
Hypothesis quiet_StartWorker : forall w, loud (EvStartWorker w) = false.
Hypothesis quiet_StopWorker : forall w, loud (EvStopWorker w) = false.
Hypothesis quiet_PrepareRun : forall w r, loud (EvPrepareRun w r) = false.
Hypothesis quiet_DeviceError : forall w, loud (EvDeviceError w) = false.
Hypothesis quiet_ErrCbDeviceError : forall c, loud (EvErrCbDeviceError c) = false.
Hypothesis proj_send :
  forall m s, msg_id m = MESSAGE_ID_POLL -> proj (send m s) = proj s.

Local Ltac frame :=
  repeat first
    [ rewrite proj_video | rewrite proj_still | rewrite proj_cur
    | rewrite proj_active | rewrite proj_nodeMapping
    | rewrite proj_listenerMapping | rewrite proj_configured
    | rewrite proj_listenerWorkers | rewrite proj_first | rewrite proj_restart
    | rewrite proj_taking | rewrite proj_delay | rewrite proj_work
    | rewrite proj_emit by
        first [ apply quiet_SetPipeType | apply quiet_MediaCtlConfigure
              | apply quiet_MediaCtlConfigurePipe | apply quiet_WorkerConfigure
              | apply quiet_AddListener | apply quiet_WorkerAttachListener
              | apply quiet_PollerInit | apply quiet_PollerFlush
              | apply quiet_Settings | apply quiet_StartWorker
              | apply quiet_StopWorker | apply quiet_PrepareRun
              | apply quiet_DeviceError | apply quiet_ErrCbDeviceError ]
    | rewrite proj_send by reflexivity ].

Lemma frame_fold {B} (f : ImguUnit -> B -> ImguUnit) (l : list B) (s : ImguUnit) :
  (forall s b, proj (f s b) = proj s) -> proj (fold_left f l s) = proj s.
Proof.
  intros H. revert s. induction l as [|b l IH]; intros s; simpl.
  - reflexivity.
  - rewrite IH. apply H.
Qed.

Lemma frame_set_mPipeConfigs i c s : proj (set_mPipeConfigs i c s) = proj s.
Proof. destruct i; simpl; frame; reflexivity. Qed.

Lemma frame_call e s :
  loud e = false -> proj (call env e s).2 = proj s.
Proof. intros H. unfold call. simpl. apply proj_emit. exact H. Qed.

Lemma frame_clearWorkers s : proj (clearWorkers s) = proj s.
Proof.
  unfold clearWorkers. frame. apply frame_fold.
  intros s' i. apply frame_set_mPipeConfigs.
Qed.

Lemma frame_setStreamListeners n w s : proj (setStreamListeners n w s) = proj s.
Proof.
  unfold setStreamListeners. apply frame_fold.
  intros s' it. destruct (decide (it.2 = n)); frame; reflexivity.
Qed.

Lemma frame_nodeMappingAt n s : proj (nodeMappingAt n s).2 = proj s.
Proof.
  unfold nodeMappingAt. destruct (mStreamNodeMapping s !! n); simpl; frame; reflexivity.
Qed.

Lemma frame_mapStreamWithDeviceNode s :
  proj (mapStreamWithDeviceNode s).2 = proj s.
Proof.
  unfold mapStreamWithDeviceNode.
  repeat match goal with
         | |- context [if ?c then _ else _] => destruct c
         end; simpl; frame; reflexivity.
Qed.

Lemma frame_createWorkers l depth vf pv s :
  match createWorkers l depth vf pv s with
  | inl r => proj r.2 = proj s
  | inr r => proj r.2 = proj s
  end.
Proof.
  revert vf pv s. induction l as [|[n node] l IH]; intros vf pv s; simpl.
  - reflexivity.
  - destruct n;
      try match goal with
          | |- context [nodeMappingAt ?k s] =>
            pose proof (frame_nodeMappingAt k s) as H1;
            destruct (nodeMappingAt k s) as [stream s1]; simpl in H1
          end.
    all: try match goal with
             | |- match createWorkers ?l ?d ?a ?b ?s' with _ => _ end =>
               specialize (IH a b s');
               destruct (createWorkers l d a b s') as [r|r];
               rewrite IH; frame; rewrite ?frame_setStreamListeners; frame
             end.
    all: try reflexivity.
    all: exact H1.
Qed.

Lemma frame_addPostview pv s : proj (addPostview pv s) = proj s.
Proof.
  unfold addPostview. destruct pv as [w|]; [|reflexivity].
  destruct (decide _); frame; reflexivity.
Qed.

Lemma frame_addViewfinder vf pv s : proj (addViewfinder vf pv s) = proj s.
Proof.
  unfold addViewfinder. destruct vf as [w|]; [|reflexivity].
  destruct (decide _); destruct pv; frame;
    rewrite ?frame_setStreamListeners; frame; reflexivity.
Qed.

Lemma frame_addInputWorker depth s : proj (addInputWorker depth s) = proj s.
Proof.
  unfold addInputWorker. destruct (inputStream (mActiveStreams s)); frame; reflexivity.
Qed.

Lemma frame_configureWorkers ws s : proj (configureWorkers env ws s).2 = proj s.
Proof.
  revert s. induction ws as [|w ws IH]; intros s; simpl; [reflexivity|].
  destruct (negb (isOK _)); simpl; [|rewrite IH]; frame; reflexivity.
Qed.

Lemma frame_attachListeners s : proj (attachListeners s) = proj s.
Proof.
  unfold attachListeners. apply frame_fold. intros s' w.
  apply frame_fold. intros s'' l. frame. reflexivity.
Qed.

Lemma frame_createProcessingTasks graphConfig s r :
  createProcessingTasks env graphConfig s = Some r -> proj r.2 = proj s.
Proof.
  unfold createProcessingTasks, call.
  destruct graphConfig; simpl; [|intros [= <-]; reflexivity].
  repeat match goal with
         | |- context [if negb (isOK ?c) then _ else _] => destruct (negb (isOK c))
         | |- context [if ?c then _ else _] => destruct c eqn:?
         end; simpl;
    try (intros [= <-]; simpl; frame; rewrite ?frame_clearWorkers; reflexivity).
  all: match goal with
       | |- context [mapStreamWithDeviceNode ?s0] =>
         pose proof (frame_mapStreamWithDeviceNode s0) as Hm;
         destruct (mapStreamWithDeviceNode s0) as [st s1]; simpl in Hm
       end.
  all: destruct (negb (isOK st));
    [intros [= <-]; simpl; rewrite Hm; frame; rewrite ?frame_clearWorkers; reflexivity|].
  all: match goal with
       | |- context [createWorkers ?l ?d ?a ?b ?s0] =>
         pose proof (frame_createWorkers l d a b s0) as Hw;
         destruct (createWorkers l d a b s0) as [r0|[[vf pv] s2]]; simpl in Hw
       end;
    [intros [= <-]; rewrite Hw, Hm; frame; rewrite ?frame_clearWorkers; reflexivity|].
  all: destruct (mCurPipeConfig _) as [cur|]; simpl; [|discriminate].
  all: match goal with
       | |- context [configureWorkers env ?ws ?s0] =>
         pose proof (frame_configureWorkers ws s0) as Hc;
         destruct (configureWorkers env ws s0) as [ret s3]; simpl in Hc
       end.
  all: destruct (negb (isOK ret)); intros [= <-]; simpl;
    rewrite ?frame_attachListeners, Hc, frame_addInputWorker, frame_addViewfinder,
      frame_addPostview, Hw, Hm; frame; rewrite ?frame_clearWorkers; reflexivity.
Qed.

Lemma frame_classifyStream graphConfig st s s' :
  classifyStream graphConfig st s = Some s' -> proj s' = proj s.
Proof.
  unfold classifyStream, set_streams, set_inputStream.
  repeat match goal with
         | |- context [if ?c then _ else _] => destruct c
         end; intros [= <-]; frame; reflexivity.
Qed.

Lemma frame_classifyStreams graphConfig l s s' :
  classifyStreams graphConfig l s = Some s' -> proj s' = proj s.
Proof.
  revert s. induction l as [|st l IH]; intros s; simpl.
  - intros [= <-]. reflexivity.
  - destruct (classifyStream graphConfig st s) as [s1|] eqn:E; simpl; [|discriminate].
    intros H. rewrite (IH _ H). eapply frame_classifyStream. exact E.
Qed.

Lemma frame_configStreams l s r :
  (forall v s, proj (set_mFlushing v s) = proj s) ->
  configStreams env l s = Some r -> proj r.2 = proj s.
Proof.
  intros proj_flushing. unfold configStreams.
  destruct (classifyStreams _ l (resetConfiguration s)) as [s1|] eqn:E1; simpl;
    [|discriminate].
  apply frame_classifyStreams in E1.
  assert (E0 : proj (resetConfiguration s) = proj s).
  { unfold resetConfiguration. rewrite proj_flushing. frame. reflexivity. }
  destruct (createProcessingTasks env _ s1) as [[st s2]|] eqn:E2; simpl; [|discriminate].
  apply frame_createProcessingTasks in E2. simpl in E2.
  destruct (negb (isOK st)); [intros [= <-]; simpl; congruence|].
  destruct (mCurPipeConfig s2) as [cur|]; simpl; [|discriminate].
  unfold call.
  destruct (negb (isOK _)); intros [= <-]; simpl; frame; congruence.
Qed.

Lemma frame_passSettings tasks msg status s :
  match passSettings env tasks msg status s with
  | inl r => proj r.2 = proj s
  | inr r => proj r.2 = proj s
  end.
Proof.
  revert status s. induction tasks as [|[t|] tasks IH]; intros status s; simpl;
    try reflexivity.
  match goal with
  | |- match passSettings env tasks msg ?st ?s' with _ => _ end =>
    specialize (IH st s'); destruct (passSettings env tasks msg st s') as [r|r];
      rewrite IH; frame; reflexivity
  end.
Qed.

Lemma frame_startWorkers ws s : proj (startWorkers env ws s).2 = proj s.
Proof.
  revert s. induction ws as [|w ws IH]; intros s; simpl; [reflexivity|].
  destruct (negb (isOK _)); simpl; [|rewrite IH]; frame; reflexivity.
Qed.

Lemma frame_stopWorkers ws s : proj (stopWorkers env ws s).2 = proj s.
Proof.
  revert s. induction ws as [|w ws IH]; intros s; simpl; [reflexivity|].
  destruct (negb (isOK _)); simpl; [|rewrite IH]; frame; reflexivity.
Qed.

Lemma frame_kickstart s r : kickstart env s = Some r -> proj r.2 = proj s.
Proof.
  unfold kickstart. destruct (mCurPipeConfig s) as [cur|]; simpl; [|discriminate].
  pose proof (frame_startWorkers (deviceWorkers (mPipeConfigs cur s)) s) as H.
  destruct (startWorkers env _ s) as [st s1]. simpl in H.
  destruct (negb (isOK st)); intros [= <-]; simpl; frame; exact H.
Qed.

Lemma frame_bindWorker id w s : proj (bindWorker id w s) = proj s.
Proof. unfold bindWorker. frame. reflexivity. Qed.

Lemma frame_prepareWorkers ws request status s :
  proj (prepareWorkers env ws request status s).2 = proj s.
Proof.
  revert status s. induction ws as [|w ws IH]; intros status s; simpl; [reflexivity|].
  destruct (_ && _); simpl.
  - frame. apply frame_bindWorker.
  - rewrite IH. frame. reflexivity.
Qed.

Lemma frame_clearNodes cur s : proj (clearNodes cur s) = proj s.
Proof. unfold clearNodes. apply frame_set_mPipeConfigs. Qed.

Lemma frame_collectPollable cur request s :
  proj (collectPollable env cur request s) = proj s.
Proof.
  unfold collectPollable. apply frame_fold. intros s' w.
  destruct (needPolling env (trace s') w); [|reflexivity].
  rewrite frame_bindWorker.
  destruct (_ =? _)%nat; [|reflexivity].
  unfold pushNode. apply frame_set_mPipeConfigs.
Qed.

Lemma frame_prepareRequest request status s r :
  prepareRequest env request status s = Some r -> proj r.2 = proj s.
Proof.
  unfold prepareRequest. destruct (mCurPipeConfig s) as [cur|]; simpl; [|discriminate].
  match goal with
  | |- context [prepareWorkers env ?ws ?rq ?st ?s0] =>
    pose proof (frame_prepareWorkers ws rq st s0) as H;
    destruct (prepareWorkers env ws rq st s0) as [[returned st1] s1]; simpl in H
  end.
  rewrite proj_work, frame_clearNodes in H.
  destruct returned; intros [= <-]; simpl; rewrite ?frame_collectPollable; exact H.
Qed.

Lemma frame_callWorkers mk ws status s :
  (forall w, loud (mk w) = false) ->
  proj (callWorkers env mk ws status s).2 = proj s.
Proof.
  intros Hmk. revert status s.
  induction ws as [|w ws IH]; intros status s; simpl; [reflexivity|].
  rewrite IH. apply proj_emit. apply Hmk.
Qed.

Lemma frame_reportDeviceError cur s : proj (reportDeviceError cur s) = proj s.
Proof.
  unfold reportDeviceError. frame.
  match goal with
  | |- proj (match ?o with _ => _ end) = _ => destruct o
  end; frame; apply frame_fold; intros s' w; frame; reflexivity.
Qed.

Lemma frame_handleMessageFlush s : proj (handleMessageFlush env s).2 = proj s.
Proof.
  unfold handleMessageFlush.
  cbn [mCurPipeConfig emit set_trace].
  destruct (mCurPipeConfig s) as [cur|].
  - match goal with
    | |- context [stopWorkers env ?ws ?s0] =>
      pose proof (frame_stopWorkers ws s0) as H;
      destruct (stopWorkers env ws s0) as [st s1]; simpl in H
    end.
    rewrite proj_emit in H by apply quiet_PollerFlush.
    destruct (negb (isOK st)); simpl; rewrite ?frame_clearWorkers; exact H.
  - simpl. rewrite frame_clearWorkers. frame. reflexivity.
Qed.

End Frame.

(** *** Flush *)





(** *** The Input-Worker *)

Lemma pollableConsistent_pushBack (w : Worker) (c : PipeConfiguration) :
  is_Some (getNode w) -> pollableConsistent c -> pollableConsistent (pushBack w c).
Proof.
  intros Hw [Hall Hn]. split; simpl.
  - apply Forall_app. split; [exact Hall|]. constructor; [exact Hw|constructor].
  - rewrite Hn, fmap_app. reflexivity.
Qed.

Lemma pollableConsistent_pushFront (w : Worker) (c : PipeConfiguration) :
  is_Some (getNode w) -> pollableConsistent c -> pollableConsistent (pushFront w c).
Proof.
  intros Hw [Hall Hn]. split; simpl.
  - constructor; assumption.
  - rewrite Hn. reflexivity.
Qed.

(** What [createWorkers] leaves alone and what it keeps true. *)
Lemma createWorkers_video l depth vf pv s vf' pv' s' :
  createWorkers l depth vf pv s = inr (vf', pv', s') ->
  pollableConsistent (mPipeConfigs_video s) ->
  (forall w, vf = Some w -> is_Some (getNode w)) ->
  pollableConsistent (mPipeConfigs_video s')
  /\ (forall w, vf' = Some w -> is_Some (getNode w)).
Proof.
  revert vf pv s. induction l as [|[n node] l IH]; intros vf pv s; simpl.
  - intros [= <- <- <-] Hc Hvf. split; assumption.
  - destruct n;
      try match goal with
          | |- context [nodeMappingAt ?k s] =>
            pose proof (frame_nodeMappingAt mPipeConfigs_video
                          ltac:(intros; reflexivity) k s) as H1;
            destruct (nodeMappingAt k s) as [stream s1]; simpl in H1
          end.
    all: intros Hr Hc Hvf.
    all: try discriminate Hr.
    all: apply IH in Hr; [exact Hr| |]; clear IH.
    all: try (intros w [= <-]; eexists; reflexivity).
    all: try exact Hvf.
    all: try exact Hc.
    all: cbn [set_mListenerDeviceWorkers mPipeConfigs_video].
    all: rewrite (frame_setStreamListeners mPipeConfigs_video (fun _ => false))
      by (intros; reflexivity).
    all: cbn [set_mPipeConfigs_video mPipeConfigs_video]; try (rewrite H1; exact Hc).
    all: apply pollableConsistent_pushBack; [eexists; reflexivity|].
    all: rewrite H1; exact Hc.
Qed.

Lemma createWorkers_failure l depth vf pv s r :
  createWorkers l depth vf pv s = inl r -> r.1 = UNKNOWN_ERROR.
Proof.
  revert vf pv s. induction l as [|[n node] l IH]; intros vf pv s; simpl.
  - discriminate.
  - destruct n; try destruct (nodeMappingAt _ s) as [stream s1];
      try apply IH.
    intros [= <-]. reflexivity.
Qed.

Lemma addInputWorker_front (vf pv : option Worker) (depth : Z) (s : ImguUnit)
    (input : camera3_stream_t) :
  inputStream (mActiveStreams s) = Some input ->
  pollableConsistent (mPipeConfigs_video s) ->
  (forall w, vf = Some w -> is_Some (getNode w)) ->
  let s' := addInputWorker depth (addViewfinder vf pv (addPostview pv s)) in
  pollableConsistent (mPipeConfigs_video s')
  /\ exists rest,
       deviceWorkers (mPipeConfigs_video s') =
         InputFrameWorker (mCameraId s) input
           (yuvStreams (mActiveStreams s) ++ blobStreams (mActiveStreams s)) depth
         :: rest.
Proof.
  intros Hin Hc Hvf s'.
  set (s1 := addPostview pv s).
  assert (H1 : (mPipeConfigs_video s1, mActiveStreams s1, mCameraId s1)
               = (mPipeConfigs_video s, mActiveStreams s, mCameraId s)).
  { apply (frame_addPostview
             (fun s => (mPipeConfigs_video s, mActiveStreams s, mCameraId s))
             (fun _ => false)); intros; reflexivity. }
  injection H1 as H1v H1a H1c.
  set (s2 := addViewfinder vf pv s1).
  assert (H2 : (mActiveStreams s2, mCameraId s2) = (mActiveStreams s1, mCameraId s1)).
  { apply (frame_addViewfinder (fun s => (mActiveStreams s, mCameraId s))
             (fun _ => false)); intros; reflexivity. }
  injection H2 as H2a H2c.
  assert (H2v : pollableConsistent (mPipeConfigs_video s2)).
  { subst s2. unfold addViewfinder. destruct vf as [w|]; [|rewrite H1v; exact Hc].
    assert (Hv : forall s0, mPipeConfigs_video
                   (match pv with
                    | Some _ => setStreamListeners IMGU_NODE_PV_PREVIEW w s0
                    | None => s0
                    end) = mPipeConfigs_video s0).
    { intros s0. destruct pv; [|reflexivity].
      apply (frame_setStreamListeners mPipeConfigs_video (fun _ => false));
        intros; reflexivity. }
    destruct (decide _); cbn [emit set_trace mPipeConfigs_video];
      rewrite Hv; cbn [set_mPipeConfigs_video mPipeConfigs_video];
      (apply pollableConsistent_pushFront; [apply Hvf; reflexivity|]);
      rewrite H1v; exact Hc. }
  subst s'. fold s1. fold s2. unfold addInputWorker.
  rewrite H2a, H1a, Hin. cbn [set_mListenerDeviceWorkers set_mPipeConfigs_video
                              mPipeConfigs_video deviceWorkers].
  rewrite H2c, H1c. split.
  - destruct H2v as [Ha Hn]. split; simpl; assumption.
  - eexists. reflexivity.
Qed.

(** The pipe builder with an input stream: see [input_worker]. *)
Lemma createProcessingTasks_input_worker (env : Env) (graphConfig : bool) (s s' : ImguUnit)
    (input : camera3_stream_t) :
  inputStream (mActiveStreams s) = Some input ->
  createProcessingTasks env graphConfig s = Some (OK, s') ->
  pollableConsistent (mPipeConfigs_video s')
  /\ exists rest,
       deviceWorkers (mPipeConfigs_video s') =
         InputFrameWorker (mCameraId s) input
           (yuvStreams (mActiveStreams s) ++ blobStreams (mActiveStreams s))
           (default 1 (pipelineMaxDepth env))
         :: rest.
Proof.
  intros Hin. unfold createProcessingTasks, call.
  destruct graphConfig; simpl; [|intros [= ?]; discriminate].
  set (P := fun s0 : ImguUnit =>
              (mPipeConfigs_video s0, mActiveStreams s0, mCameraId s0)
              = (PipeConfiguration_empty, mActiveStreams s, mCameraId s)).
  repeat match goal with
         | |- context [if negb (isOK ?c) then _ else _] =>
           let E := fresh "E" in destruct (isOK c) eqn:E; simpl
         | |- context [if ?c then _ else _] => destruct c eqn:?
         end;
    try (intros [= E' _];
         first [discriminate E' | simpl in *; rewrite E' in *; discriminate]).
  all: match goal with
       | |- context [mapStreamWithDeviceNode ?s0] =>
         assert (H0 : P s0) by reflexivity;
         pose proof (frame_mapStreamWithDeviceNode
                       (fun s => (mPipeConfigs_video s, mActiveStreams s, mCameraId s))
                       ltac:(intros; reflexivity) ltac:(intros; reflexivity) s0) as Hm;
         destruct (mapStreamWithDeviceNode s0) as [st s1]; simpl in Hm;
         rewrite H0 in Hm; clear H0
       end.
  all: destruct (isOK st); simpl; [|intros [= ?]; discriminate].
  all: injection Hm as Hmv Hma Hmc.
  all: match goal with
       | |- context [createWorkers ?l ?d ?a ?b ?s0] =>
         pose proof (frame_createWorkers (fun s => (mActiveStreams s, mCameraId s))
                       (fun _ => false)
                       ltac:(intros; reflexivity) ltac:(intros; reflexivity)
                       ltac:(intros; reflexivity) ltac:(intros; reflexivity)
                       ltac:(intros; reflexivity) l d a b s0) as Hw;
         pose proof (createWorkers_video l d a b s0) as Hv;
         pose proof (createWorkers_failure l d a b s0) as Hf;
         destruct (createWorkers l d a b s0) as [r0|[[vf pv] s2]]; simpl in Hw
       end;
    [intros [= ->]; specialize (Hf _ eq_refl); discriminate Hf|clear Hf].
  all: injection Hw as Hwa Hwc.
  all: destruct (Hv vf pv s2 eq_refl) as [Hc Hvf];
    [rewrite Hmv; split; [constructor|reflexivity] | intros w [=] |].
  all: destruct (addInputWorker_front vf pv (default 1 (pipelineMaxDepth env)) s2 input)
    as [Hc3 [rest Hd3]]; [rewrite Hwa, Hma; exact Hin | exact Hc | exact Hvf |].
  all: destruct (mCurPipeConfig _) as [cur|]; simpl; [|discriminate].
  all: match goal with
       | |- context [configureWorkers ?e ?ws ?s0] =>
         pose proof (frame_configureWorkers mPipeConfigs_video (fun _ => false) e
                       ltac:(intros; reflexivity) ltac:(intros; reflexivity)
                       ws s0) as Hcw;
         destruct (configureWorkers e ws s0) as [ret s3]; simpl in Hcw
       end.
  all: destruct (isOK ret) eqn:Er; simpl;
    [intros [= <-] | intros [= E' _]; rewrite E' in Er; discriminate Er].
  all: rewrite (frame_attachListeners mPipeConfigs_video (fun _ => false))
    by (intros; reflexivity).
  all: rewrite Hcw; split; [exact Hc3|].
  all: exists rest; rewrite Hd3, Hwa, Hwc, Hma, Hmc; reflexivity.
Qed.

Lemma preparedWorkers_app t1 t2 :
  preparedWorkers (t1 ++ t2) = preparedWorkers t1 ++ preparedWorkers t2.
Proof. unfold preparedWorkers. apply omap_app. Qed.

Lemma pollRequests_app t1 t2 :
  pollRequests (t1 ++ t2) = pollRequests t1 ++ pollRequests t2.
Proof. unfold pollRequests. apply omap_app. Qed.

Lemma preparedWorkers_prepareRun (l : list Worker) (r : Camera3Request) :
  preparedWorkers ((fun w => EvPrepareRun w r) <$> l) = l.
Proof.
  induction l as [|x l IH]; [reflexivity|].
  rewrite fmap_cons. unfold preparedWorkers in *. simpl. f_equal. exact IH.
Qed.

Lemma pollRequests_prepareRun (l : list Worker) (r : Camera3Request) :
  pollRequests ((fun w => EvPrepareRun w r) <$> l) = [].
Proof.
  induction l as [|x l IH]; [reflexivity|].
  rewrite fmap_cons. unfold pollRequests in *. simpl. exact IH.
Qed.

Lemma mPipeConfigs_clearNodes cur s :
  mPipeConfigs cur (clearNodes cur s) = set_nodes [] (mPipeConfigs cur s).
Proof. destruct cur; reflexivity. Qed.

(** The loop over [deviceWorkers] when a Worker without a node is met and
    the request has input buffers. *)
Lemma prepareWorkers_input (env : Env) (pre post : list Worker) (w : Worker)
    (r : Camera3Request) (status : status_t) (s : ImguUnit) :
  Forall (fun w' => is_Some (getNode w')) pre ->
  getNode w = None ->
  getInputBuffers r <> [] ->
  exists status' s',
    prepareWorkers env (pre ++ w :: post) r status s = (true, status', s')
    /\ mRequestToWorkMap s' =
         <[getId r := default [] (mRequestToWorkMap s !! getId r) ++ [w]]>
           (mRequestToWorkMap s)
    /\ mMessageQueue s' = mMessageQueue s ++ [dummyMsg r]
    /\ trace s' = trace s ++ ((fun w' => EvPrepareRun w' r) <$> (pre ++ [w]))
    /\ (status <> OK -> status' <> OK).
Proof.
  intros Hpre Hw Hin. revert status s.
  induction Hpre as [|w' pre [n Hn] _ IH]; intros status s; simpl.
  - rewrite Hw. destruct (getInputBuffers r) as [|b bs] eqn:Eb; [congruence|].
    simpl. eexists _, _. split; [reflexivity|]. simpl.
    repeat split. intros Hs Hor. apply status_or_OK in Hor as [? _]. auto.
  - rewrite Hn. simpl.
    destruct (IH (status_or status (status_of env (trace s) (EvPrepareRun w' r)))
                 (emit (EvPrepareRun w' r) s))
      as (status' & s' & E & Hm & Hq & Ht & Hs).
    exists status', s'. split; [exact E|]. split; [exact Hm|]. split; [exact Hq|].
    split.
    + rewrite Ht. simpl. rewrite <- app_assoc. reflexivity.
    + intros Hne. apply Hs. intros Hor. apply status_or_OK in Hor as [? _]. auto.
Qed.

Lemma admissionView_emit e s :
  isPrepareOrPoll e = false -> admissionView (emit e s) = admissionView s.
Proof.
  intros H. unfold admissionView. simpl.
  rewrite preparedWorkers_app, pollRequests_app.
  destruct e; try discriminate H; simpl; rewrite !app_nil_r; reflexivity.
Qed.

Lemma passSettings_continues (env : Env) tasks msg status s :
  Forall is_Some tasks ->
  exists status' s',
    passSettings env tasks msg status s = inr (status', s')
    /\ (status <> OK -> status' <> OK).
Proof.
  intros H. revert status s.
  induction H as [|t tasks [x ->] _ IH]; intros status s; simpl.
  - eexists _, _. split; [reflexivity|]. auto.
  - destruct (IH (status_or status (status_of env (trace s) (EvSettings x (pMsg_reqId msg))))
                 (emit (EvSettings x (pMsg_reqId msg)) s)) as (st' & s' & E & Hs).
    exists st', s'. split; [exact E|].
    intros Hne. apply Hs. intros Hor. apply status_or_OK in Hor as [? _]. auto.
Qed.

Lemma startWorkers_OK (env : Env) (ws : list Worker) (s : ImguUnit) :
  (forall t w, status_of env t (EvStartWorker w) = OK) ->
  (startWorkers env ws s).1 = OK.
Proof.
  intros H. revert s. induction ws as [|w ws IH]; intros s; simpl; [reflexivity|].
  rewrite H. simpl. apply IH.
Qed.

Lemma kickstart_OK (env : Env) (s : ImguUnit) (cur : PipeConfigIndex) :
  (forall t w, status_of env t (EvStartWorker w) = OK) ->
  mCurPipeConfig s = Some cur ->
  exists s', kickstart env s = Some (OK, s').
Proof.
  intros H Hcur. unfold kickstart. rewrite Hcur. simpl.
  pose proof (startWorkers_OK env (deviceWorkers (mPipeConfigs cur s)) s H) as E.
  destruct (startWorkers env _ s) as [st s1]. simpl in E. subst st.
  simpl. eexists. reflexivity.
Qed.

(** [processNextRequest] on a reprocessing request, up to the return from
    inside the loop over [deviceWorkers]. *)
Lemma processNextRequest_reprocess (env : Env) (msg : DeviceMessage)
    (r : Camera3Request) (s : ImguUnit) (cur : PipeConfigIndex)
    (pre post : list Worker) (w : Worker) :
  cbMetadataMsg_request msg = Some r ->
  getInputBuffers r <> [] ->
  mMessagesPending s = [msg] ->
  mCurPipeConfig s = Some cur ->
  deviceWorkers (mPipeConfigs cur s) = pre ++ w :: post ->
  Forall (fun w' => is_Some (getNode w')) pre ->
  getNode w = None ->
  Forall is_Some (mListeningTasks s) ->
  (forall t w', status_of env t (EvStartWorker w') = OK) ->
  exists status s',
    processNextRequest env s = Some (status, s')
    /\ mCurPipeConfig s' = Some cur
    /\ nodes (mPipeConfigs cur s') = []
    /\ mRequestToWorkMap s' !! getId r = Some [w]
    /\ mMessageQueue s' = mMessageQueue s ++ [dummyMsg r]
    /\ preparedWorkers (trace s') = preparedWorkers (trace s) ++ pre ++ [w]
    /\ pollRequests (trace s') = pollRequests (trace s)
    /\ mMessagesUnderwork s' = mMessagesUnderwork s ++ [msg]
    /\ mMessagesPending s' = [].
Proof.
  intros Hreq Hin Hpend Hcur Hdev Hpre Hw Htasks Hstart.
  unfold processNextRequest. rewrite Hpend, Hreq.
  set (s1 := set_mMessagesUnderwork (mMessagesUnderwork (set_mMessagesPending [] s) ++ [msg])
               (set_mMessagesPending [] s)).
  change (mListeningTasks s1) with (mListeningTasks s).
  destruct (passSettings_continues env (mListeningTasks s) msg NO_ERROR s1 Htasks)
    as (st1 & s2 & E1 & _).
  pose proof (frame_passSettings admissionView isPrepareOrPoll env
                admissionView_emit ltac:(intros; reflexivity)
                (mListeningTasks s) msg NO_ERROR s1) as V1.
  rewrite E1 in V1 |- *. simpl in V1.
  (* kickstart, when this is the first request *)
  assert (K : exists st2 s3,
            (if mFirstRequest s2
             then '(status, s) ← kickstart env s2;
                  if negb (isOK status) then Some (status, s)
                  else prepareRequest env r status s
             else prepareRequest env r st1 s2)
            = prepareRequest env r st2 s3
            /\ admissionView s3 = admissionView s1).
  { destruct (mFirstRequest s2).
    - assert (C2 : mCurPipeConfig s2 = Some cur).
      { unfold admissionView in V1. injection V1 as _ _ _ _ Hc _ _ _ _.
        rewrite Hc. exact Hcur. }
      destruct (kickstart_OK env s2 cur Hstart C2) as [s3 E3].
      pose proof (frame_kickstart admissionView isPrepareOrPoll env
                    ltac:(intros; reflexivity) admissionView_emit
                    ltac:(intros; reflexivity) s2 _ E3) as V3.
      rewrite E3. simpl. exists OK, s3. split; [reflexivity|].
      simpl in V3. congruence.
    - exists st1, s2. split; [reflexivity|exact V1]. }
  destruct K as (st2 & s3 & -> & V3). clear E1 V1 s2.
  unfold admissionView in V3. injection V3 as Vm Vq Vu Vp Vc Vv Vs Vt Vr.
  subst s1. simpl in Vm, Vq, Vu, Vp, Vc, Vv, Vs, Vt, Vr.
  assert (C3 : mCurPipeConfig s3 = Some cur) by (rewrite Vc; exact Hcur).
  assert (D3 : deviceWorkers (mPipeConfigs cur s3) = pre ++ w :: post).
  { rewrite <- Hdev. destruct cur; simpl; [rewrite Vv|rewrite Vs]; reflexivity. }
  unfold prepareRequest. rewrite C3. simpl mbind.
  set (s4 := set_mRequestToWorkMap _ (clearNodes cur s3)).
  assert (D4 : deviceWorkers (mPipeConfigs cur s4) = pre ++ w :: post).
  { subst s4. rewrite <- D3. destruct cur; reflexivity. }
  rewrite D4.
  destruct (prepareWorkers_input env pre post w r st2 s4 Hpre Hw Hin)
    as (st5 & s5 & E5 & M5 & Q5 & T5 & _).
  rewrite E5.
  pose proof (frame_prepareWorkers
                (fun s => (mCurPipeConfig s, mPipeConfigs cur s, mMessagesUnderwork s,
                           mMessagesPending s))
                (fun _ => false) env
                ltac:(intros; reflexivity) ltac:(intros; reflexivity)
                ltac:(intros; reflexivity) ltac:(intros; reflexivity)
                (pre ++ w :: post) r st2 s4) as V5.
  rewrite E5 in V5. simpl in V5. injection V5 as C5 N5 U5 P5.
  exists st5, s5. split; [reflexivity|].
  split. { rewrite C5. subst s4. destruct cur; exact C3. }
  split. { rewrite N5. subst s4. destruct cur; reflexivity. }
  split. { rewrite M5. subst s4. cbn [mRequestToWorkMap set_mRequestToWorkMap].
           rewrite !lookup_insert_eq. reflexivity. }
  split. { rewrite Q5. subst s4. cbn [mMessageQueue set_mRequestToWorkMap].
           rewrite (frame_clearNodes mMessageQueue) by (intros; reflexivity).
           rewrite Vq. reflexivity. }
  split. { rewrite T5, preparedWorkers_app. subst s4.
           cbn [trace set_mRequestToWorkMap].
           rewrite (frame_clearNodes trace) by (intros; reflexivity).
           rewrite Vt, preparedWorkers_prepareRun. reflexivity. }
  split. { rewrite T5, pollRequests_app. subst s4.
           cbn [trace set_mRequestToWorkMap].
           rewrite (frame_clearNodes trace) by (intros; reflexivity).
           rewrite Vr, pollRequests_prepareRun. apply app_nil_r. }
  split. { rewrite U5. subst s4. cbn [mMessagesUnderwork set_mRequestToWorkMap].
           rewrite (frame_clearNodes mMessagesUnderwork) by (intros; reflexivity).
           exact Vu. }
  rewrite P5. subst s4. cbn [mMessagesPending set_mRequestToWorkMap].
  rewrite (frame_clearNodes mMessagesPending) by (intros; reflexivity).
  exact Vp.
Qed.

(** The admission of a reprocessing request: see [input_worker]. *)
Lemma handleMessageCompleteReq_reprocess (env : Env) (msg : DeviceMessage) (r : Camera3Request)
    (s : ImguUnit) (cur : PipeConfigIndex) (pre post : list Worker) (w : Worker) :
  cbMetadataMsg_request msg = Some r ->
  getInputBuffers r <> [] ->
  mMessagesPending s = [] ->
  mCurPipeConfig s = Some cur ->
  deviceWorkers (mPipeConfigs cur s) = pre ++ w :: post ->
  Forall (fun w' => is_Some (getNode w')) pre ->
  getNode w = None ->
  Forall is_Some (mListeningTasks s) ->
  (forall t w', status_of env t (EvStartWorker w') = OK) ->
  exists status s' m,
    handleMessageCompleteReq env msg s = Some (status, s')
    /\ mRequestToWorkMap s' !! getId r = Some [w]
    /\ mMessageQueue s' = mMessageQueue s ++ [m]
    /\ msg_id m = MESSAGE_ID_POLL
    /\ requestId (pollEvent m) = getId r
    /\ numDevices (pollEvent m) = 0
    /\ polledDevices (pollEvent m) = 0
    /\ activeDevices (pollEvent m) = None
    /\ preparedWorkers (trace s') = preparedWorkers (trace s) ++ pre ++ [w]
    /\ pollRequests (trace s') = pollRequests (trace s)
    /\ mMessagesUnderwork s' = mMessagesUnderwork s ++ [msg]
    /\ mMessagesPending s' = [].
Proof.
  intros Hreq Hin Hpend Hcur Hdev Hpre Hw Htasks Hstart.
  unfold handleMessageCompleteReq. rewrite Hreq.
  cbn [mCurPipeConfig set_mMessagesPending]. rewrite Hcur. simpl mbind.
  set (s0 := clearNodes cur (set_mMessagesPending (mMessagesPending s ++ [msg]) s)).
  destruct (processNextRequest_reprocess env msg r s0 cur pre post w)
    as (st & s1 & E & C1 & N1 & M1 & Q1 & T1 & R1 & U1 & P1);
    try assumption.
  { subst s0. destruct cur; simpl; rewrite Hpend; reflexivity. }
  { subst s0. destruct cur; exact Hcur. }
  { subst s0. rewrite mPipeConfigs_clearNodes. simpl. destruct cur; exact Hdev. }
  { subst s0. destruct cur; exact Htasks. }
  rewrite E. simpl mbind.
  set (s2 := if negb (isOK st) then emit (EvSetError r) s1 else s1).
  assert (V2 : (mCurPipeConfig s2, mPipeConfigs cur s2, mRequestToWorkMap s2,
                mMessageQueue s2, mMessagesUnderwork s2, mMessagesPending s2,
                preparedWorkers (trace s2), pollRequests (trace s2))
               = (mCurPipeConfig s1, mPipeConfigs cur s1, mRequestToWorkMap s1,
                  mMessageQueue s1, mMessagesUnderwork s1, mMessagesPending s1,
                  preparedWorkers (trace s1), pollRequests (trace s1))).
  { subst s2. destruct (negb (isOK st)); [|reflexivity].
    destruct cur; simpl; rewrite preparedWorkers_app, pollRequests_app;
      simpl; rewrite !app_nil_r; reflexivity. }
  injection V2 as C2 N2 M2 Q2 U2 P2 T2 R2.
  rewrite C2, C1. simpl mbind. rewrite N2, N1. simpl.
  exists st, s2, (dummyMsg r).
  split; [reflexivity|].
  split; [rewrite M2; exact M1|].
  split. { rewrite Q2, Q1. subst s0. destruct cur; reflexivity. }
  do 5 (split; [reflexivity|]).
  split. { rewrite T2, T1. subst s0. destruct cur; reflexivity. }
  split. { rewrite R2, R1. subst s0. destruct cur; reflexivity. }
  split. { rewrite U2, U1. subst s0. destruct cur; reflexivity. }
  rewrite P2. exact P1.
Qed.

(** C6.  Pipe builder: when an input stream exists and the worker chain is
    built, the Input-Worker is the first of the video pipe's
    [deviceWorkers]; it has no node, the pollable Workers all have one and
    the waitable nodes are exactly theirs, so the Input-Worker is in neither
    list.  Admission: a request with input buffers is submitted while
    nothing is pending; the current pipe has a Worker [w] without a node,
    behind Workers [pre] that have one; no listening task is null and no
    Worker fails to start.  Then [w] is the one Worker bound to the
    request, a poll message for the request that carries no polled device
    and no active-device array is appended to the message queue,
    [prepareRun] was called on [pre] and on [w] and on no Worker behind
    [w], and the Poller was not asked to wait. *)
Theorem input_worker (env : Env) :
  (forall graphConfig s s' input,
     inputStream (mActiveStreams s) = Some input ->
     createProcessingTasks env graphConfig s = Some (OK, s') ->
     pollableConsistent (mPipeConfigs_video s')
     /\ exists inWorker rest,
          deviceWorkers (mPipeConfigs_video s') = inWorker :: rest
          /\ getNode inWorker = None
          /\ inWorker =
               InputFrameWorker (mCameraId s) input
                 (yuvStreams (mActiveStreams s) ++ blobStreams (mActiveStreams s))
                 (default 1 (pipelineMaxDepth env)))
  /\
  (forall msg r s cur pre post w,
     cbMetadataMsg_request msg = Some r ->
     getInputBuffers r <> [] ->
     mMessagesPending s = [] ->
     mCurPipeConfig s = Some cur ->
     deviceWorkers (mPipeConfigs cur s) = pre ++ w :: post ->
     Forall (fun w' => is_Some (getNode w')) pre ->
     getNode w = None ->
     Forall is_Some (mListeningTasks s) ->
     (forall t w', status_of env t (EvStartWorker w') = OK) ->
     exists status s' m,
       handleMessageCompleteReq env msg s = Some (status, s')
       /\ mRequestToWorkMap s' !! getId r = Some [w]
       /\ mMessageQueue s' = mMessageQueue s ++ [m]
       /\ msg_id m = MESSAGE_ID_POLL
       /\ requestId (pollEvent m) = getId r
       /\ numDevices (pollEvent m) = 0
       /\ polledDevices (pollEvent m) = 0
       /\ activeDevices (pollEvent m) = None
       /\ preparedWorkers (trace s') = preparedWorkers (trace s) ++ pre ++ [w]
       /\ pollRequests (trace s') = pollRequests (trace s)
       /\ mMessagesUnderwork s' = mMessagesUnderwork s ++ [msg]
       /\ mMessagesPending s' = []).
Proof.
  split.
  - intros graphConfig s s' input Hin Hc.
    destruct (createProcessingTasks_input_worker env graphConfig s s' input Hin Hc)
      as [Hp [rest Hd]].
    split; [exact Hp|]. eexists _, rest. split; [exact Hd|]. split; reflexivity.
  - intros. eapply handleMessageCompleteReq_reprocess; eassumption.
Qed.

Lemma input_worker_witness :
  (exists s',
     createProcessingTasks envOK true withInput = Some (OK, s')
     /\ pollableConsistent (mPipeConfigs_video s')
     /\ exists rest,
          deviceWorkers (mPipeConfigs_video s') = exampleInputWorker :: rest)
  /\
  (exists status s',
     handleMessageCompleteReq envOK (requestMsg (reprocessRequest 5))
       (reprocessUnit envOK) = Some (status, s')
     /\ mRequestToWorkMap s' !! 5 = Some [exampleInputWorker]
     /\ mMessageQueue s' = [dummyMsg (reprocessRequest 5)]
     /\ preparedWorkers (trace s') = [exampleInputWorker]
     /\ pollRequests (trace s') = []).
Proof.
  split.
  - eexists. split; [vm_compute; reflexivity|].
    destruct (proj1 (input_worker envOK) true withInput _ inputStream1080
                eq_refl ltac:(vm_compute; reflexivity))
      as [Hp (inW & rest & Hd & _ & ->)].
    split; [exact Hp|]. exists rest. exact Hd.
  - destruct (proj2 (input_worker envOK) (requestMsg (reprocessRequest 5))
                (reprocessRequest 5) (reprocessUnit envOK) PIPE_VIDEO_INDEX
                [] [exampleOutputWorker] exampleInputWorker)
      as (status & s' & m & E & Hm & Hq & _ & _ & _ & _ & _ & Ht & Hr & _).
    + reflexivity.
    + discriminate.
    + vm_compute; reflexivity.
    + vm_compute; reflexivity.
    + vm_compute; reflexivity.
    + constructor.
    + reflexivity.
    + vm_compute. constructor.
    + intros t w'. reflexivity.
    + exists status, s'. split; [exact E|]. split; [exact Hm|].
      assert (Em : m = dummyMsg (reprocessRequest 5)).
      { assert (Hq0 : mMessageQueue (reprocessUnit envOK) = []) by (vm_compute; reflexivity).
        rewrite Hq0 in Hq. simpl in Hq.
        revert E. vm_compute. intros [= _ <-]. simpl in Hq.
        injection Hq as <-. reflexivity. }
      subst m.
      assert (Hq0 : mMessageQueue (reprocessUnit envOK) = []) by (vm_compute; reflexivity).
      assert (Ht0 : preparedWorkers (trace (reprocessUnit envOK)) = []) by (vm_compute; reflexivity).
      assert (Hr0 : pollRequests (trace (reprocessUnit envOK)) = []) by (vm_compute; reflexivity).
      rewrite Hq0 in Hq. rewrite Ht0 in Ht. rewrite Hr0 in Hr.
      split; [exact Hq|]. split; [exact Ht|exact Hr].
Defined.

(** *** Completion batches *)

Lemma set_trace_same (s : ImguUnit) : set_trace (trace s) s = s.
Proof. destruct s. reflexivity. Qed.

Lemma callWorkers_trace (env : Env) (mk : Worker -> Event) (ws : list Worker)
    (status : status_t) (s : ImguUnit) :
  (callWorkers env mk ws status s).2 = set_trace (trace s ++ (mk <$> ws)) s.
Proof.
  revert status s. induction ws as [|w ws IH]; intros status s; simpl.
  - rewrite app_nil_r. symmetry. apply set_trace_same.
  - rewrite IH. unfold emit. simpl. rewrite <- app_assoc. reflexivity.
Qed.

Lemma emits_trace {B} (mk : B -> Event) (l : list B) (s : ImguUnit) :
  fold_left (fun s b => emit (mk b) s) l s = set_trace (trace s ++ (mk <$> l)) s.
Proof.
  revert s. induction l as [|b l IH]; intros s; simpl.
  - rewrite app_nil_r. symmetry. apply set_trace_same.
  - rewrite IH. unfold emit. simpl. rewrite <- app_assoc. reflexivity.
Qed.

Lemma notifyListeners_trace (reqId : Z) (s : ImguUnit) :
  notifyListeners reqId s
  = set_trace (trace s ++ completionEvents (mListeners s) reqId) s.
Proof. unfold notifyListeners, completionEvents. apply emits_trace. Qed.

(** One request leaves the in-flight set. *)
Lemma completeFront_spec (env : Env) (deviceError : bool) (status : status_t)
    (s : ImguUnit) (msg : DeviceMessage) (rest : list DeviceMessage)
    (r : Camera3Request) :
  mMessagesUnderwork s = msg :: rest ->
  cbMetadataMsg_request msg = Some r ->
  exists status' err,
    ((err = [] /\ deviceError = false) \/ err = [EvSetError r])
    /\ completeFront env deviceError status s =
         Some (status',
               set_mMessagesUnderwork rest
                 (set_trace
                    (trace s
                     ++ phaseEvents r (default [] (mRequestToWorkMap s !! getId r))
                     ++ err ++ completionEvents (mListeners s) (getId r))
                    (set_mRequestToWorkMap
                       (delete (getId r) (mRequestToWorkMap s)) s))).
Proof.
  intros Hu Hr. unfold completeFront. rewrite Hu. simpl. rewrite Hr. simpl.
  set (ws := default [] (mRequestToWorkMap s !! getId r)).
  pose proof (callWorkers_trace env (fun w => EvAsyncPollDone w r true) ws status s) as H1.
  destruct (callWorkers env _ ws status s) as [st1 s1]. simpl in H1. subst s1.
  match goal with
  | |- context [callWorkers env EvRun ws st1 ?s0] =>
    pose proof (callWorkers_trace env EvRun ws st1 s0) as H2;
    destruct (callWorkers env EvRun ws st1 s0) as [st2 s2]
  end.
  simpl in H2. subst s2.
  match goal with
  | |- context [callWorkers env EvPostRun ws st2 ?s0] =>
    pose proof (callWorkers_trace env EvPostRun ws st2 s0) as H3;
    destruct (callWorkers env EvPostRun ws st2 s0) as [st3 s3]
  end.
  simpl in H3. subst s3.
  exists st3, (if negb (isOK st3) || deviceError then [EvSetError r] else []).
  split.
  - destruct (negb (isOK st3)); simpl; [right; reflexivity|].
    destruct deviceError; [right|left]; auto.
  - f_equal. f_equal.
    destruct (negb (isOK st3) || deviceError);
      rewrite notifyListeners_trace; unfold emit, phaseEvents; simpl;
      rewrite Hu; simpl; rewrite <- ?app_assoc; reflexivity.
Qed.

Lemma completeRequests_spec (env : Env) (deviceError : bool)
    (batch : list DeviceMessage) (rs : list Camera3Request) :
  cbMetadataMsg_request <$> batch = Some <$> rs ->
  forall (status : status_t) (s : ImguUnit) (rest : list DeviceMessage),
    mMessagesUnderwork s = batch ++ rest ->
    exists status' evs,
      Drained deviceError (mListeners s) (mRequestToWorkMap s) rs evs
      /\ completeRequests env (length batch) deviceError status s =
           Some (status',
                 set_mMessagesUnderwork rest
                   (set_trace (trace s ++ evs)
                      (set_mRequestToWorkMap (unbind rs (mRequestToWorkMap s)) s))).
Proof.
  revert rs. induction batch as [|msg batch IH]; intros rs Hrs status s rest Hu.
  - destruct rs; [|discriminate]. simpl in *.
    exists status, []. split; [constructor|].
    rewrite app_nil_r. f_equal. f_equal. destruct s; simpl in *; subst; reflexivity.
  - destruct rs as [|r rs]; [discriminate|]. simpl in Hrs.
    injection Hrs as Hr Hrs. simpl in Hu.
    destruct (completeFront_spec env deviceError status s msg (batch ++ rest) r Hu Hr)
      as (st1 & err & Herr & E1).
    simpl. rewrite E1. simpl.
    match goal with
    | |- context [completeRequests env _ _ st1 ?s1] =>
      destruct (IH rs Hrs st1 s1 rest eq_refl) as (st2 & evs & Hd & E2)
    end.
    rewrite E2. simpl.
    exists st2, (phaseEvents r (default [] (mRequestToWorkMap s !! getId r)) ++ err
                 ++ completionEvents (mListeners s) (getId r) ++ evs).
    split.
    + constructor; assumption.
    + rewrite <- !app_assoc. reflexivity.
Qed.

Lemma idsFrom_length (e : Z) (n : nat) : length (idsFrom e n) = n.
Proof. unfold idsFrom. rewrite length_fmap. apply length_seq. Qed.

Lemma idsFrom_S (e : Z) (n : nat) : idsFrom e (S n) = e :: idsFrom (e + 1) n.
Proof.
  unfold idsFrom. simpl. f_equal; [lia|].
  rewrite <- fmap_S_seq, <- list_fmap_compose. apply list_fmap_ext.
  intros i x _. simpl. lia.
Qed.

Lemma idsFrom_NoDup (e : Z) (n : nat) : NoDup (idsFrom e n).
Proof.
  unfold idsFrom. apply NoDup_fmap_2; [|apply NoDup_seq].
  intros i j H. lia.
Qed.

Lemma u32_small (z : Z) : 0 <= z < 2 ^ 32 -> u32 z = z.
Proof. intros H. unfold u32. apply Z.mod_small. exact H. Qed.

(** The scan of the delay queue stops behind its leading run. *)
Lemma countDelayed_run (a : Z) (k : nat) (drest : list Z) :
  0 <= a -> a + Z.of_nat k < 2 ^ 32 ->
  (forall d drest', drest = d :: drest' -> u32 d <> a + Z.of_nat k) ->
  countDelayed (idsFrom a k ++ drest) a = k.
Proof.
  revert a. induction k as [|k IH]; intros a Ha Hk Hd.
  - simpl. destruct drest as [|d drest']; [reflexivity|]. simpl.
    specialize (Hd d drest' eq_refl).
    destruct (Z.eqb_spec (u32 d) a) as [E|_]; [|reflexivity].
    exfalso. apply Hd. rewrite E. lia.
  - rewrite idsFrom_S. simpl.
    rewrite (u32_small a) by lia. rewrite Z.eqb_refl. simpl.
    rewrite (u32_small (a + 1)) by lia. f_equal.
    apply IH; [lia|lia|].
    intros d drest' E. specialize (Hd d drest' E). lia.
Qed.

Lemma filter_fmap_all {B} (P : Event -> Prop) `{forall e, Decision (P e)}
    (mk : B -> Event) (l : list B) :
  (forall b, P (mk b)) -> filter P (mk <$> l) = mk <$> l.
Proof.
  intros HP. induction l as [|b l IH]; [reflexivity|].
  rewrite fmap_cons, filter_cons_True by apply HP. rewrite IH. reflexivity.
Qed.

Lemma filter_fmap_none {B} (P : Event -> Prop) `{forall e, Decision (P e)}
    (mk : B -> Event) (l : list B) :
  (forall b, ~ P (mk b)) -> filter P (mk <$> l) = [].
Proof.
  intros HP. induction l as [|b l IH]; [reflexivity|].
  rewrite fmap_cons, filter_cons_False by apply HP. exact IH.
Qed.

Lemma filter_no_SetError_phase r ws :
  filter (fun e => isSetError e = false) (phaseEvents r ws) = phaseEvents r ws.
Proof.
  unfold phaseEvents. rewrite !filter_app.
  rewrite !filter_fmap_all by reflexivity. reflexivity.
Qed.

Lemma filter_no_SetError_completion ls id :
  filter (fun e => isSetError e = false) (completionEvents ls id)
  = completionEvents ls id.
Proof. unfold completionEvents. apply filter_fmap_all. reflexivity. Qed.

Lemma batchEvents_cons ls m r rs :
  batchEvents ls m (r :: rs)
  = (phaseEvents r (default [] (m !! getId r)) ++ completionEvents ls (getId r))
    ++ batchEvents ls m rs.
Proof. reflexivity. Qed.

Lemma batchEvents_delete ls m id rs :
  id ∉ (getId <$> rs) ->
  batchEvents ls (delete id m) rs = batchEvents ls m rs.
Proof.
  induction rs as [|r rs IH]; intros Hn; [reflexivity|].
  rewrite fmap_cons in Hn. apply not_elem_of_cons in Hn as [Hne Hn].
  rewrite !batchEvents_cons.
  rewrite lookup_delete_ne by congruence. rewrite IH by exact Hn. reflexivity.
Qed.

(** Without the [setError] calls, a batch is the phases and the completion
    events of its requests, in turn. *)
Lemma Drained_phases de ls m rs evs :
  Drained de ls m rs evs ->
  NoDup (getId <$> rs) ->
  filter (fun e => isSetError e = false) evs = batchEvents ls m rs.
Proof.
  induction 1 as [m|m r rs err evs Herr Hd IH]; intros Hnd.
  - reflexivity.
  - rewrite fmap_cons in Hnd. apply NoDup_cons in Hnd as [Hnotin Hnd].
    rewrite !filter_app, filter_no_SetError_phase, filter_no_SetError_completion.
    rewrite (IH Hnd), batchEvents_delete by exact Hnotin.
    assert (E : filter (fun e => isSetError e = false) err = []).
    { destruct Herr as [[-> _]| ->]; reflexivity. }
    rewrite E, batchEvents_cons. simpl. rewrite <- app_assoc. reflexivity.
Qed.

(** C2, as the code has it.  The notification carries the id [e] of the
    oldest in-flight request, the first [k + 1] in-flight requests have the
    ids [e], ..., [e + k], the Delay Queue begins with the run [e + 1],
    ..., [e + k] and does not go on with [e + k + 1], and the notification
    is not a device error on a request without input buffers.  Then the
    [k + 1] requests are completed in this one call: the calls made are,
    request after request, [asyncPollDone] on every bound Worker, then
    [run] on every bound Worker, then [postRun] on every bound Worker, then
    (after a [setError], if any) the completion event to every listener;
    the requests leave the in-flight set and the binding table, and the
    run leaves the Delay Queue. *)
Theorem startProcessing_batch (env : Env) (pollmsg : DeviceMessage) (s : ImguUnit)
    (batch rest : list DeviceMessage) (r0 : Camera3Request)
    (rs : list Camera3Request) (e : Z) (k : nat) (drest : list Z) :
  mMessagesUnderwork s = batch ++ rest ->
  cbMetadataMsg_request <$> batch = Some <$> (r0 :: rs) ->
  getId <$> (r0 :: rs) = idsFrom e (S k) ->
  0 <= e -> e + Z.of_nat k + 1 < 2 ^ 32 ->
  requestId (pollEvent pollmsg) = e ->
  mDelayProcessRequest s = idsFrom (e + 1) k ++ drest ->
  (forall d drest', drest = d :: drest' -> u32 d <> e + 1 + Z.of_nat k) ->
  polledDevices (pollEvent pollmsg) = 0
  \/ is_Some (activeDevices (pollEvent pollmsg))
  \/ getInputBuffers r0 <> [] ->
  exists status s' evs,
    startProcessing env pollmsg s = Some (status, s')
    /\ mMessagesUnderwork s' = rest
    /\ mDelayProcessRequest s' = drest
    /\ mRequestToWorkMap s' = unbind (r0 :: rs) (mRequestToWorkMap s)
    /\ trace s' = trace s ++ evs
    /\ filter (fun e => isSetError e = false) evs
       = batchEvents (mListeners s) (mRequestToWorkMap s) (r0 :: rs).
Proof.
  intros Hu Hrs Hids He Hk Hreq Hdelay Hdrest Hok.
  assert (Hlen : length batch = S k).
  { apply (f_equal length) in Hrs. apply (f_equal length) in Hids.
    rewrite !length_fmap in *. rewrite idsFrom_length in Hids. lia. }
  destruct batch as [|m0 batch]; [discriminate|].
  pose proof Hrs as Hrs'. simpl in Hrs'. injection Hrs' as Hr0 _.
  assert (Hid0 : getId r0 = e).
  { rewrite idsFrom_S in Hids. simpl in Hids. injection Hids as H _. exact H. }
  unfold startProcessing. rewrite Hu. simpl app. cbv iota. rewrite Hr0. simpl mbind.
  rewrite Hreq, Hid0, (u32_small e) by lia. rewrite Z.ltb_irrefl.
  rewrite (u32_small (e + 1)) by lia.
  rewrite Hdelay, countDelayed_run by (try lia; exact Hdrest).
  rewrite drop_app_length' by (symmetry; apply idsFrom_length).
  assert (Hde : negb (polledDevices (pollEvent pollmsg) =? 0)
                && (if activeDevices (pollEvent pollmsg) is None then true else false)
                && (length (getInputBuffers r0) =? 0)%nat = false).
  { destruct Hok as [H|[[x H]|H]].
    - rewrite H. reflexivity.
    - rewrite H. apply andb_false_iff. left. apply andb_false_r.
    - destruct (getInputBuffers r0); [congruence|]. apply andb_false_r. }
  rewrite Hde.
  destruct (completeRequests_spec env
              (negb (polledDevices (pollEvent pollmsg) =? 0)
               && (if activeDevices (pollEvent pollmsg) is None then true else false))
              (m0 :: batch) (r0 :: rs) Hrs OK
              (set_mDelayProcessRequest drest s) rest Hu)
    as (status & evs & Hd & E).
  rewrite Hlen in E. cbn [completeRequests] in E |- *. rewrite E.
  eexists status, _, evs. split; [reflexivity|].
  do 4 (split; [reflexivity|]).
  apply (Drained_phases _ _ _ _ _ Hd). rewrite Hids. apply idsFrom_NoDup.
Qed.

Lemma reportDeviceError_trace (cur : PipeConfigIndex) (s : ImguUnit) :
  reportDeviceError cur s
  = set_trace
      (trace s ++ (EvDeviceError <$> deviceWorkers (mPipeConfigs cur s))
       ++ match mErrCb s with
          | Some cb => [EvErrCbDeviceError cb]
          | None => []
          end
       ++ [EvPollerFlush false]) s.
Proof.
  unfold reportDeviceError. rewrite emits_trace. simpl.
  destruct (mErrCb s); unfold emit; simpl; rewrite <- !app_assoc; reflexivity.
Qed.

(** Without the Worker phases, a batch under a device error is, for every
    request in turn, [setError] and then the completion events. *)
Lemma Drained_errors ls m rs evs :
  Drained true ls m rs evs ->
  filter (fun e => isPhase e = false) evs
  = rs ≫= (fun r => EvSetError r :: completionEvents ls (getId r)).
Proof.
  induction 1 as [m|m r rs err evs Herr Hd IH]; [reflexivity|].
  destruct Herr as [[_ ?]| ->]; [discriminate|].
  rewrite !filter_app, IH. unfold phaseEvents, completionEvents.
  rewrite !filter_app, !filter_fmap_none by (intros ? ?; discriminate).
  rewrite filter_fmap_all by reflexivity. reflexivity.
Qed.

(** C5, as the code has it.  The notification carries the id of the oldest
    in-flight request and signals a device error (devices were polled, no
    active-device array), and that request has no input buffers.  Then
    every Worker of the current pipe is told [deviceError], the error
    callback is called when one is registered, the Poller is flushed, and
    every in-flight request is completed in this call, each with
    [setError] before its completion events. *)
Theorem startProcessing_deviceError (env : Env) (pollmsg : DeviceMessage)
    (s : ImguUnit) (m0 : DeviceMessage) (rest : list DeviceMessage)
    (r0 : Camera3Request) (rs : list Camera3Request) (cur : PipeConfigIndex) :
  mMessagesUnderwork s = m0 :: rest ->
  cbMetadataMsg_request <$> (m0 :: rest) = Some <$> (r0 :: rs) ->
  u32 (requestId (pollEvent pollmsg)) = u32 (getId r0) ->
  polledDevices (pollEvent pollmsg) <> 0 ->
  activeDevices (pollEvent pollmsg) = None ->
  getInputBuffers r0 = [] ->
  mCurPipeConfig s = Some cur ->
  exists status s' evs,
    startProcessing env pollmsg s = Some (status, s')
    /\ mMessagesUnderwork s' = []
    /\ mRequestToWorkMap s' = unbind (r0 :: rs) (mRequestToWorkMap s)
    /\ trace s' =
         trace s ++ (EvDeviceError <$> deviceWorkers (mPipeConfigs cur s))
         ++ match mErrCb s with
            | Some cb => [EvErrCbDeviceError cb]
            | None => []
            end
         ++ [EvPollerFlush false] ++ evs
    /\ Drained true (mListeners s) (mRequestToWorkMap s) (r0 :: rs) evs
    /\ filter (fun e => isPhase e = false) evs
       = (r0 :: rs) ≫= (fun r => EvSetError r :: completionEvents (mListeners s) (getId r)).
Proof.
  intros Hu Hrs Hid Hpolled Hactive Hin Hcur.
  pose proof Hrs as Hrs'. simpl in Hrs'. injection Hrs' as Hr0 _.
  unfold startProcessing. rewrite Hu. cbv iota. rewrite Hr0.
  cbn [mbind option_bind].
  rewrite Hid, Z.ltb_irrefl, Hactive, Hin.
  destruct (Z.eqb_spec (polledDevices (pollEvent pollmsg)) 0) as [?|_]; [contradiction|].
  cbn [negb andb length Nat.eqb].
  set (s1 := set_mDelayProcessRequest _ s).
  change (mCurPipeConfig s1) with (mCurPipeConfig s). rewrite Hcur.
  cbn [mbind option_bind].
  rewrite reportDeviceError_trace.
  change (mPipeConfigs cur s1) with (mPipeConfigs cur s).
  change (mErrCb s1) with (mErrCb s).
  change (trace s1) with (trace s).
  set (s2 := set_trace _ s1).
  change (mMessagesUnderwork s2) with (mMessagesUnderwork s). rewrite Hu.
  destruct (completeRequests_spec env true (m0 :: rest) (r0 :: rs) Hrs OK s2 [])
    as (status & evs & Hd & E); [simpl; rewrite Hu, app_nil_r; reflexivity|].
  rewrite E.
  eexists status, _, evs. split; [reflexivity|].
  split; [reflexivity|]. split; [reflexivity|].
  split. { simpl. rewrite <- !app_assoc. reflexivity. }
  split; [exact Hd|].
  apply (Drained_errors _ _ _ _ Hd).
Qed.

(** C2 as the specification words it fails when the Delay Queue is not in
    ascending order: with 5, 6 and 7 in flight and the notifications for 7
    and 6 buffered in that order, the notification for 5 completes request
    5 alone; 6 and 7 stay in flight and in the Delay Queue. *)
Lemma delayed_out_of_order_not_drained :
  requestIds (mMessagesUnderwork delayed76) = [5; 6; 7]
  /\ mDelayProcessRequest delayed76 = [7; 6]
  /\ exists status s',
       startProcessing envOK (pollMsg 5) delayed76 = Some (status, s')
       /\ requestIds (mMessagesUnderwork s') = [6; 7]
       /\ mDelayProcessRequest s' = [7; 6]
       /\ completionIds (trace s') = [5].
Proof.
  split; [vm_compute; reflexivity|]. split; [vm_compute; reflexivity|].
  eexists _, _. split; [vm_compute; reflexivity|].
  repeat split; vm_compute; reflexivity.
Qed.

Lemma startProcessing_batch_witness :
  exists status s' evs,
    startProcessing envOK (pollMsg 5) delayed67 = Some (status, s')
    /\ mMessagesUnderwork s' = []
    /\ mDelayProcessRequest s' = []
    /\ trace s' = trace delayed67 ++ evs
    /\ filter (fun e => isSetError e = false) evs
       = batchEvents (mListeners delayed67) (mRequestToWorkMap delayed67)
           [exampleRequest 5; exampleRequest 6; exampleRequest 7].
Proof.
  destruct (startProcessing_batch envOK (pollMsg 5) delayed67
              [requestMsg (exampleRequest 5); requestMsg (exampleRequest 6);
               requestMsg (exampleRequest 7)] []
              (exampleRequest 5) [exampleRequest 6; exampleRequest 7] 5 2 [])
    as (status & s' & evs & E & Hu & Hd & _ & Ht & Hf).
  - vm_compute; reflexivity.
  - reflexivity.
  - reflexivity.
  - lia.
  - simpl; lia.
  - reflexivity.
  - vm_compute; reflexivity.
  - intros d drest' H. discriminate H.
  - right. left. eexists. reflexivity.
  - exists status, s', evs. repeat split; assumption.
Defined.

(** C5 as the specification words it fails when the failed wait is not the
    one of the oldest in-flight request: with 5, 6 and 7 in flight, the
    error notification for 6 is put into the Delay Queue; no Worker is told
    [deviceError], nothing is flushed and nothing completes. *)
Lemma delayed_error_not_reported :
  requestIds (mMessagesUnderwork inflight567) = [5; 6; 7]
  /\ polledDevices (pollEvent (pollErrorMsg 6)) <> 0
  /\ activeDevices (pollEvent (pollErrorMsg 6)) = None
  /\ exists s',
       startProcessing envOK (pollErrorMsg 6) inflight567 = Some (OK, s')
       /\ trace s' = trace inflight567
       /\ mDelayProcessRequest s' = [6]
       /\ requestIds (mMessagesUnderwork s') = [5; 6; 7].
Proof.
  split; [vm_compute; reflexivity|]. split; [discriminate|].
  split; [reflexivity|].
  eexists. split; [vm_compute; reflexivity|].
  repeat split; vm_compute; reflexivity.
Qed.

Lemma startProcessing_deviceError_witness :
  exists status s' evs,
    startProcessing envOK (pollErrorMsg 5) inflight567 = Some (status, s')
    /\ mMessagesUnderwork s' = []
    /\ trace s' = trace inflight567 ++ [EvDeviceError exampleOutputWorker]
                  ++ [EvPollerFlush false] ++ evs
    /\ filter (fun e => isPhase e = false) evs
       = [EvSetError (exampleRequest 5); EvNotifyCaptureEvent 1%N 5;
          EvSetError (exampleRequest 6); EvNotifyCaptureEvent 1%N 6;
          EvSetError (exampleRequest 7); EvNotifyCaptureEvent 1%N 7].
Proof.
  destruct (startProcessing_deviceError envOK (pollErrorMsg 5) inflight567
              (requestMsg (exampleRequest 5))
              [requestMsg (exampleRequest 6); requestMsg (exampleRequest 7)]
              (exampleRequest 5) [exampleRequest 6; exampleRequest 7]
              PIPE_VIDEO_INDEX)
    as (status & s' & evs & E & Hu & _ & Ht & _ & Hf).
  - vm_compute; reflexivity.
  - reflexivity.
  - reflexivity.
  - discriminate.
  - reflexivity.
  - reflexivity.
  - vm_compute; reflexivity.
  - exists status, s', evs. split; [exact E|]. split; [exact Hu|].
    split.
    + assert (Hw : deviceWorkers (mPipeConfigs PIPE_VIDEO_INDEX inflight567)
                   = [exampleOutputWorker]) by (vm_compute; reflexivity).
      assert (Hc : mErrCb inflight567 = None) by (vm_compute; reflexivity).
      rewrite Ht, Hw, Hc. reflexivity.
    + rewrite Hf.
      assert (Hl : mListeners inflight567 = [1%N]) by (vm_compute; reflexivity).
      rewrite Hl. reflexivity.
Defined.

(** *** What the control loop and the notifications leave alone *)

Section FrameLoop.

(** [proj] observes a part of the controller that no message handler
    writes: none of the request queues, the trace or the pipe
    bookkeeping. *)
Context {A : Type} (proj : ImguUnit -> A) (env : Env).

Hypothesis proj_video : forall v s, proj (set_mPipeConfigs_video v s) = proj s.
Hypothesis proj_still : forall v s, proj (set_mPipeConfigs_still v s) = proj s.
Hypothesis proj_listenerWorkers :
  forall v s, proj (set_mListenerDeviceWorkers v s) = proj s.
Hypothesis proj_first : forall v s, proj (set_mFirstRequest v s) = proj s.
Hypothesis proj_delay : forall v s, proj (set_mDelayProcessRequest v s) = proj s.
Hypothesis proj_work : forall v s, proj (set_mRequestToWorkMap v s) = proj s.
Hypothesis proj_pending : forall v s, proj (set_mMessagesPending v s) = proj s.
Hypothesis proj_underwork : forall v s, proj (set_mMessagesUnderwork v s) = proj s.
Hypothesis proj_queue : forall v s, proj (set_mMessageQueue v s) = proj s.
Hypothesis proj_thread : forall v s, proj (set_mThreadRunning v s) = proj s.
Hypothesis proj_listeners : forall v s, proj (set_mListeners v s) = proj s.
Hypothesis proj_trace : forall v s, proj (set_trace v s) = proj s.

Let silent (e : Event) : bool := false.

Lemma loop_emit e s : silent e = false -> proj (emit e s) = proj s.
Proof. intros _. apply proj_trace. Qed.

Lemma loop_send m s : msg_id m = MESSAGE_ID_POLL -> proj (send m s) = proj s.
Proof. intros _. apply proj_queue. Qed.

Lemma loop_completeFront de status s r :
  completeFront env de status s = Some r -> proj r.2 = proj s.
Proof.
  destruct (mMessagesUnderwork s) as [|msg rest] eqn:Hu.
  { unfold completeFront. rewrite Hu. discriminate. }
  destruct (cbMetadataMsg_request msg) as [rq|] eqn:Hr.
  2: { unfold completeFront. rewrite Hu. simpl. rewrite Hr. discriminate. }
  destruct (completeFront_spec env de status s msg rest rq Hu Hr)
    as (st & err & _ & E).
  rewrite E. intros [= <-]. simpl.
  rewrite proj_underwork, proj_trace, proj_work. reflexivity.
Qed.

Lemma loop_completeRequests n de status s r :
  completeRequests env n de status s = Some r -> proj r.2 = proj s.
Proof.
  revert status s. induction n as [|n IH]; intros status s; simpl.
  - intros [= <-]. reflexivity.
  - destruct (completeFront env de status s) as [[st s1]|] eqn:E; simpl;
      [|discriminate].
    intros H. rewrite (IH _ _ H). apply (loop_completeFront _ _ _ _ E).
Qed.

Lemma loop_startProcessing pollmsg s r :
  startProcessing env pollmsg s = Some r -> proj r.2 = proj s.
Proof.
  unfold startProcessing.
  destruct (mMessagesUnderwork s) as [|msg rest]; [intros [= <-]; reflexivity|].
  destruct (cbMetadataMsg_request msg) as [rq|]; cbn [mbind option_bind];
    [|discriminate].
  destruct (_ <? _); [intros [= <-]; simpl; apply proj_delay|].
  destruct (_ <? _); [intros [= <-]; reflexivity|].
  destruct (_ && _).
  - change (mCurPipeConfig (set_mDelayProcessRequest _ s)) with (mCurPipeConfig s).
    destruct (mCurPipeConfig s) as [cur|]; cbn [mbind option_bind]; [|discriminate].
    intros H. apply loop_completeRequests in H. rewrite H.
    rewrite (frame_reportDeviceError proj silent) by (first [exact loop_emit | reflexivity]).
    apply proj_delay.
  - intros H. apply loop_completeRequests in H. rewrite H. apply proj_delay.
Qed.

Lemma loop_processNextRequest s r :
  processNextRequest env s = Some r -> proj r.2 = proj s.
Proof.
  unfold processNextRequest.
  destruct (mMessagesPending s) as [|msg pending]; [intros [= <-]; reflexivity|].
  destruct (cbMetadataMsg_request msg) as [rq|];
    [|intros [= <-]; simpl; apply proj_pending].
  match goal with
  | |- context [passSettings env ?t msg ?st ?s1] =>
    pose proof (frame_passSettings proj silent env loop_emit
                  ltac:(reflexivity) t msg st s1) as H1;
    destruct (passSettings env t msg st s1) as [r1|[st1 s2]]; simpl in H1
  end.
  - intros [= <-]. rewrite H1, proj_underwork, proj_pending. reflexivity.
  - assert (Hp : forall st r, prepareRequest env rq st s2 = Some r -> proj r.2 = proj s).
    { intros st r0 H. 
      rewrite (frame_prepareRequest proj silent env proj_video proj_still proj_work
                 loop_emit ltac:(reflexivity) loop_send _ _ _ _ H).
      rewrite H1, proj_underwork, proj_pending. reflexivity. }
    destruct (mFirstRequest s2); [|apply Hp].
    destruct (kickstart env s2) as [[st3 s3]|] eqn:E3; simpl; [|discriminate].
    pose proof (frame_kickstart proj silent env proj_first loop_emit
                  ltac:(reflexivity) _ _ E3) as H3. simpl in H3.
    destruct (negb (isOK st3)).
    + intros [= <-]. simpl. rewrite H3, H1, proj_underwork, proj_pending. reflexivity.
    + intros H.
      rewrite (frame_prepareRequest proj silent env proj_video proj_still proj_work
                 loop_emit ltac:(reflexivity) loop_send _ _ _ _ H).
      rewrite H3, H1, proj_underwork, proj_pending. reflexivity.
Qed.

Lemma loop_handleMessageCompleteReq msg s r :
  handleMessageCompleteReq env msg s = Some r -> proj r.2 = proj s.
Proof.
  unfold handleMessageCompleteReq.
  destruct (cbMetadataMsg_request msg) as [rq|]; [|intros [= <-]; reflexivity].
  destruct (mCurPipeConfig _) as [cur|]; simpl; [|discriminate].
  destruct (processNextRequest env _) as [[st s1]|] eqn:E; simpl; [|discriminate].
  apply loop_processNextRequest in E. simpl in E.
  rewrite (frame_clearNodes proj proj_video proj_still), proj_pending in E.
  destruct (mCurPipeConfig _) as [cur'|]; simpl; [|discriminate].
  unfold call.
  destruct (0 <? _)%nat; intros [= <-]; simpl;
    destruct (negb (isOK st)); unfold emit; rewrite ?proj_trace; exact E.
Qed.

Lemma loop_dispatch msg s r : dispatch env msg s = Some r -> proj r.2 = proj s.
Proof.
  unfold dispatch, handleMessagePoll, handleMessageExit.
  destruct (msg_id msg).
  - intros [= <-]. apply proj_thread.
  - apply loop_handleMessageCompleteReq.
  - apply loop_startProcessing.
  - apply loop_startProcessing.
  - intros [= <-].
    apply (frame_handleMessageFlush proj silent env proj_video proj_still
             proj_listenerWorkers loop_emit); reflexivity.
  - intros [= <-]. reflexivity.
Qed.

Lemma loop_messageThreadLoop s s' :
  messageThreadLoop env s = Some s' -> proj s' = proj s.
Proof.
  unfold messageThreadLoop.
  destruct (mMessageQueue s) as [|msg queue]; [intros [= <-]; reflexivity|].
  destruct (dispatch env msg _) as [[st s1]|] eqn:E; simpl; [|discriminate].
  intros [= <-]. apply loop_dispatch in E. simpl in E. rewrite E. apply proj_queue.
Qed.

Lemma loop_notifyPollEvent pollMsg s r :
  notifyPollEvent pollMsg s = Some r -> proj r.2 = proj s.
Proof.
  unfold notifyPollEvent.
  destruct pollMsg as [pm|]; [|intros [= <-]; reflexivity].
  destruct (pm_activeDevices (pm_data pm)) as [active|];
    [|intros [= <-]; reflexivity].
  destruct (pm_id pm).
  - destruct (_ =? 0); [intros [= <-]; reflexivity|].
    destruct (pm_polledDevices (pm_data pm)) as [polled|]; simpl; [|discriminate].
    destruct (_ =? 0); [intros [= <-]; reflexivity|].
    destruct (negb _).
    + destruct (pm_inactiveDevices (pm_data pm)); simpl; [|discriminate].
      intros [= <-]. reflexivity.
    + destruct (mFlushing s); intros [= <-]; [reflexivity|apply proj_queue].
  - destruct (pm_polledDevices (pm_data pm)) as [polled|]; simpl; [|discriminate].
    intros [= <-]. apply proj_queue.
  - intros [= <-]. reflexivity.
Qed.

(** Every step of a run but [configStreams] and [flush]. *)
Lemma loop_exec op s s' :
  (forall l, op <> OpConfigStreams l) -> op <> OpFlush ->
  exec env op s = Some s' -> proj s' = proj s.
Proof.
  intros Hc Hf. destruct op as [l|l|rq u|pm| |]; simpl.
  - exfalso. apply (Hc l). reflexivity.
  - intros [= <-]. apply proj_listeners.
  - intros [= <-]. unfold completeRequest. destruct rq; [apply proj_queue|reflexivity].
  - destruct (notifyPollEvent pm s) as [r|] eqn:E; simpl; [|discriminate].
    intros [= <-]. apply (loop_notifyPollEvent _ _ _ E).
  - congruence.
  - apply loop_messageThreadLoop.
Qed.

End FrameLoop.

(** *** The flushing flag *)

Lemma exec_keeps_flushing (env : Env) (op : Op) (s s' : ImguUnit) :
  isConfigStreams op = false ->
  mFlushing s = true -> exec env op s = Some s' -> mFlushing s' = true.
Proof.
  intros Hop Hf H.
  assert (Hd : op = OpFlush \/ op <> OpFlush)
    by (destruct op; (left; reflexivity) || (right; discriminate)).
  destruct Hd as [->|Hne].
  - injection H as <-. reflexivity.
  - rewrite <- Hf. apply (loop_exec mFlushing env) with (op := op);
      try (intros; reflexivity); try assumption.
    intros l ->. discriminate Hop.
Qed.

Lemma run_keeps_flushing (env : Env) (ops : list Op) (s s' : ImguUnit) :
  forallb (fun op => negb (isConfigStreams op)) ops = true ->
  mFlushing s = true -> run env ops s = Some s' -> mFlushing s' = true.
Proof.
  revert s. induction ops as [|op ops IH]; intros s Hops Hf; simpl.
  - intros [= <-]. exact Hf.
  - simpl in Hops. apply andb_true_iff in Hops as [Hop Hops].
    apply negb_true_iff in Hop.
    destruct (exec env op s) as [s1|] eqn:E; simpl; [|discriminate].
    apply IH; [exact Hops|]. apply (exec_keeps_flushing env op s s1 Hop Hf E).
Qed.

Lemma configStreams_resets_flushing (env : Env) (l : list camera3_stream_t)
    (s : ImguUnit) (r : status_t * ImguUnit) :
  configStreams env l s = Some r -> mFlushing r.2 = false.
Proof.
  unfold configStreams.
  destruct (classifyStreams _ l (resetConfiguration s)) as [s1|] eqn:E1; simpl;
    [|discriminate].
  apply (frame_classifyStreams mFlushing (fun _ => false)) in E1;
    try (intros; reflexivity).
  destruct (createProcessingTasks env _ s1) as [[st s2]|] eqn:E2; simpl; [|discriminate].
  apply (frame_createProcessingTasks mFlushing (fun _ => false)) in E2;
    try (intros; reflexivity).
  simpl in E1, E2.
  destruct (negb (isOK st)); [intros [= <-]; simpl; congruence|].
  destruct (mCurPipeConfig s2) as [cur|]; simpl; [|discriminate].
  unfold call.
  destruct (negb (isOK _)); intros [= <-]; simpl; congruence.
Qed.

Lemma notifyPollEvent_successful (pm : PollEventMessage) (s : ImguUnit) :
  successfulPollEvent pm ->
  notifyPollEvent (Some pm) s =
    if mFlushing s then Some (OK, Some pm, s)
    else
      Some (OK, Some pm,
            send {| msg_id := MESSAGE_ID_POLL; pMsg_reqId := 0;
                    cbMetadataMsg_updateMeta := false;
                    cbMetadataMsg_request := None;
                    pollEvent :=
                      {| pollMsgId := POLL_EVENT_ID_EVENT;
                         requestId := pm_reqId (pm_data pm);
                         numDevices :=
                           Z.of_nat (length (default [] (pm_activeDevices (pm_data pm))));
                         polledDevices :=
                           Z.of_nat (length (default [] (pm_polledDevices (pm_data pm))));
                         activeDevices := pm_activeDevices (pm_data pm) |} |} s).
Proof.
  intros (Hid & active & polled & Ha & Hp & Hne & Hlen).
  unfold notifyPollEvent. rewrite Ha, Hid, Hp. simpl.
  destruct active as [|a active]; [congruence|].
  destruct polled as [|p polled]; [discriminate|].
  simpl in Hlen. injection Hlen as Hlen.
  cbn [length]. rewrite <- Hlen.
  destruct (Z.eqb_spec (Z.of_nat (S (length active))) 0) as [?|_]; [lia|].
  rewrite Nat.eqb_refl. simpl.
  destruct (mFlushing s); reflexivity.
Qed.

(** C10.  Once [flush] was called, whatever the caller, the Poller and the
    control thread do next, short of [configStreams], the flushing
    flag is still set, also after the flush message was handled; a
    successful poll event is then answered with [OK], handed back to the
    Poller as it came and nothing is put into the message queue.
    [configStreams] clears the flag, whatever it returns, and with the flag
    cleared the same notification is queued for the control loop. *)
Theorem flush_drops_poll_events (env : Env) (s s' : ImguUnit) (ops : list Op) :
  forallb (fun op => negb (isConfigStreams op)) ops = true ->
  run env ops (flush s) = Some s' ->
  mFlushing s' = true
  /\ (forall pm, successfulPollEvent pm ->
        notifyPollEvent (Some pm) s' = Some (OK, Some pm, s'))
  /\ (forall l r, configStreams env l s' = Some r ->
        mFlushing r.2 = false
        /\ forall pm r', successfulPollEvent pm ->
             notifyPollEvent (Some pm) r.2 = Some r' ->
             exists m, r'.2 = send m r.2 /\ msg_id m = MESSAGE_ID_POLL
                       /\ requestId (pollEvent m) = pm_reqId (pm_data pm)).
Proof.
  intros Hops Hrun.
  assert (Hf : mFlushing s' = true).
  { apply (run_keeps_flushing env ops (flush s) s' Hops); [reflexivity|exact Hrun]. }
  split; [exact Hf|]. split.
  - intros pm Hpm. rewrite (notifyPollEvent_successful pm s' Hpm), Hf. reflexivity.
  - intros l r Hr. pose proof (configStreams_resets_flushing env l s' r Hr) as Hc.
    split; [exact Hc|].
    intros pm r' Hpm. rewrite (notifyPollEvent_successful pm r.2 Hpm), Hc.
    intros [= <-]. eexists. split; [reflexivity|]. split; reflexivity.
Qed.

Lemma flush_drops_poll_events_witness :
  exists s',
    run envOK (OpLoop :: notify (pollEventFor 5)) (flush inflight567) = Some s'
    /\ mFlushing s' = true
    /\ mMessageQueue s' = []
    /\ notifyPollEvent (Some (pollEventFor 6)) s' = Some (OK, Some (pollEventFor 6), s').
Proof.
  eexists. split; [vm_compute; reflexivity|].
  match goal with
  | |- mFlushing ?s1 = _ /\ _ =>
    destruct (flush_drops_poll_events envOK inflight567 s1
                (OpLoop :: notify (pollEventFor 5)) eq_refl)
      as (Hf & Hn & _); [vm_compute; reflexivity|]
  end.
  split; [exact Hf|]. split; [reflexivity|].
  apply Hn. split; [reflexivity|].
  exists [10%N], [10%N]. repeat split. discriminate.
Defined.

(** *** Failing listening tasks *)


(** The next request takes the path the first one misses: the failure
    stays in the status, [setError] is called on the request and the
    Poller is still asked to wait for it. *)
Lemma settings_failure_recorded_on_later_request :
  mFirstRequest listenedAfter5 = false
  /\ exists status s1,
       handleMessageCompleteReq envSettingsFail (requestMsg (exampleRequest 6))
         listenedAfter5 = Some (status, s1)
       /\ status <> OK
       /\ filter (fun e => isSetError e = true) (trace s1)
          = [EvSetError (exampleRequest 6)]
       /\ pollRequests (trace s1) = [5; 6].
Proof.
  split; [vm_compute; reflexivity|].
  eexists _, _. split; [vm_compute; reflexivity|].
  split; [discriminate|]. split; vm_compute; reflexivity.
Qed.

(** *** Completion order *)

Lemma completionIds_app t1 t2 :
  completionIds (t1 ++ t2) = completionIds t1 ++ completionIds t2.
Proof. unfold completionIds. apply omap_app. Qed.

Lemma completionIds_quiet e : isCompletion e = false -> completionIds [e] = [].
Proof. destruct e; (discriminate || reflexivity). Qed.

Lemma completionIds_fmap_quiet {B} (mk : B -> Event) (l : list B) :
  (forall b, isCompletion (mk b) = false) -> completionIds (mk <$> l) = [].
Proof.
  intros H. induction l as [|b l IH]; [reflexivity|].
  rewrite fmap_cons. change (mk b :: (mk <$> l)) with ([mk b] ++ (mk <$> l)).
  rewrite completionIds_app, IH, completionIds_quiet by apply H. reflexivity.
Qed.

Lemma completionIds_completionEvents ls id :
  completionIds (completionEvents ls id) = replicate (length ls) id.
Proof.
  unfold completionEvents. induction ls as [|l ls IH]; [reflexivity|].
  rewrite fmap_cons. simpl. f_equal. exact IH.
Qed.

Lemma completionIds_phaseEvents r ws : completionIds (phaseEvents r ws) = [].
Proof.
  unfold phaseEvents. rewrite !completionIds_app.
  rewrite !completionIds_fmap_quiet by reflexivity. reflexivity.
Qed.

Lemma requestIds_app l1 l2 : requestIds (l1 ++ l2) = requestIds l1 ++ requestIds l2.
Proof. unfold requestIds. apply omap_app. Qed.

Lemma requestIds_cons_Some m l r :
  cbMetadataMsg_request m = Some r -> requestIds (m :: l) = getId r :: requestIds l.
Proof. intros H. unfold requestIds. simpl. rewrite H. reflexivity. Qed.

Lemma requestIds_cons_None m l :
  cbMetadataMsg_request m = None -> requestIds (m :: l) = requestIds l.
Proof. intros H. unfold requestIds. simpl. rewrite H. reflexivity. Qed.

Lemma queuedIds_app q1 q2 : queuedIds (q1 ++ q2) = queuedIds q1 ++ queuedIds q2.
Proof. unfold queuedIds. rewrite filter_app. apply requestIds_app. Qed.

Lemma queuedIds_other m :
  msg_id m <> MESSAGE_COMPLETE_REQ -> queuedIds [m] = [].
Proof. intros H. unfold queuedIds. rewrite filter_cons_False by exact H. reflexivity. Qed.

Lemma queuedIds_cons_other m q :
  msg_id m <> MESSAGE_COMPLETE_REQ -> queuedIds (m :: q) = queuedIds q.
Proof.
  intros H. change (m :: q) with ([m] ++ q).
  rewrite queuedIds_app, queuedIds_other by exact H. reflexivity.
Qed.

Lemma queuedIds_cons_request m q :
  msg_id m = MESSAGE_COMPLETE_REQ -> queuedIds (m :: q) = requestIds [m] ++ queuedIds q.
Proof.
  intros H. unfold queuedIds. rewrite filter_cons_True by exact H.
  apply (requestIds_app [m]).
Qed.

Lemma queuedIds_remove_poll q :
  queuedIds (filter (fun m => msg_id m <> MESSAGE_ID_POLL) q) = queuedIds q.
Proof.
  unfold queuedIds. rewrite list_filter_filter. f_equal.
  apply list_filter_iff. intros m. split; [tauto|].
  intros H. split; [exact H|]. rewrite H. discriminate.
Qed.

(** [completionOrder] under the frame lemmas. *)
Lemma order_emit e s :
  isCompletion e = false -> completionOrder (emit e s) = completionOrder s.
Proof.
  intros H. unfold completionOrder. simpl.
  rewrite completionIds_app, completionIds_quiet, app_nil_r by exact H. reflexivity.
Qed.

Lemma order_send m s :
  msg_id m = MESSAGE_ID_POLL -> completionOrder (send m s) = completionOrder s.
Proof.
  intros H. unfold completionOrder. simpl.
  rewrite queuedIds_app, queuedIds_other, app_nil_r; [reflexivity|].
  rewrite H. discriminate.
Qed.

Lemma StronglySorted_replicate (x : Z) (n : nat) :
  StronglySorted Z.le (replicate n x).
Proof.
  induction n as [|n IH]; simpl; constructor; [exact IH|].
  apply Forall_forall. intros y Hy%elem_of_replicate. lia.
Qed.

(** A completed request takes, in the order, the place it had in flight. *)
Lemma order_complete (a b : list Z) (x : Z) (n : nat) :
  StronglySorted Z.le (a ++ x :: b) ->
  StronglySorted Z.le (a ++ replicate n x ++ b).
Proof.
  rewrite !StronglySorted_app, StronglySorted_cons, Forall_forall.
  intros (Hab & Ha & Hxb & Hb).
  split; [|split; [exact Ha|split; [|split; [apply StronglySorted_replicate|exact Hb]]]].
  - intros y z Hy Hz. apply elem_of_app in Hz as [Hz%elem_of_replicate|Hz].
    + destruct Hz as [-> _]. apply Hab; [exact Hy|left].
    + apply Hab; [exact Hy|right; exact Hz].
  - intros y z Hy%elem_of_replicate Hz. destruct Hy as [-> _]. apply Hxb. exact Hz.
Qed.

Lemma completeFront_ordered env de status s r fut :
  completeFront env de status s = Some r -> ordered s fut -> ordered r.2 fut.
Proof.
  destruct (mMessagesUnderwork s) as [|msg rest] eqn:Hu.
  { unfold completeFront. rewrite Hu. discriminate. }
  destruct (cbMetadataMsg_request msg) as [rq|] eqn:Hr.
  2: { unfold completeFront. rewrite Hu. simpl. rewrite Hr. discriminate. }
  destruct (completeFront_spec env de status s msg rest rq Hu Hr)
    as (st & err & Herr & E).
  rewrite E. intros [= <-]. unfold ordered. cbn [snd].
  set (tl := requestIds rest ++ requestIds (mMessagesPending s)
             ++ queuedIds (mMessageQueue s)).
  assert (E1 : completionOrder s = completionIds (trace s) ++ getId rq :: tl).
  { unfold completionOrder. rewrite Hu, (requestIds_cons_Some _ _ _ Hr). reflexivity. }
  assert (E2 : completionOrder
                 (set_mMessagesUnderwork rest
                    (set_trace
                       (trace s
                        ++ phaseEvents rq (default [] (mRequestToWorkMap s !! getId rq))
                        ++ err ++ completionEvents (mListeners s) (getId rq))
                       (set_mRequestToWorkMap
                          (delete (getId rq) (mRequestToWorkMap s)) s)))
               = completionIds (trace s)
                 ++ replicate (length (mListeners s)) (getId rq) ++ tl).
  { unfold completionOrder. cbn [trace mMessagesUnderwork mMessagesPending
                                 mMessageQueue set_mMessagesUnderwork set_trace
                                 set_mRequestToWorkMap].
    rewrite !completionIds_app, completionIds_phaseEvents,
      completionIds_completionEvents.
    assert (Ee : completionIds err = []) by (destruct Herr as [[-> _]| ->]; reflexivity).
    rewrite Ee. simpl. rewrite <- !app_assoc. reflexivity. }
  rewrite E1, E2, <- !app_assoc. simpl. apply order_complete.
Qed.

Lemma completeRequests_ordered env n de status s r fut :
  completeRequests env n de status s = Some r -> ordered s fut -> ordered r.2 fut.
Proof.
  revert status s. induction n as [|n IH]; intros status s; simpl.
  - intros [= <-]. auto.
  - destruct (completeFront env de status s) as [[st s1]|] eqn:E; simpl;
      [|discriminate].
    intros H Ho. apply (IH _ _ H).
    apply (completeFront_ordered _ _ _ _ _ _ E Ho).
Qed.

Lemma startProcessing_ordered env pollmsg s r fut :
  startProcessing env pollmsg s = Some r -> ordered s fut -> ordered r.2 fut.
Proof.
  unfold startProcessing.
  destruct (mMessagesUnderwork s) as [|msg rest] eqn:Hu; [intros [= <-]; auto|].
  destruct (cbMetadataMsg_request msg) as [rq|]; cbn [mbind option_bind];
    [|discriminate].
  destruct (_ <? _); [intros [= <-]; auto|].
  destruct (_ <? _); [intros [= <-]; auto|].
  destruct (_ && _).
  - change (mCurPipeConfig (set_mDelayProcessRequest _ s)) with (mCurPipeConfig s).
    destruct (mCurPipeConfig s) as [cur|]; cbn [mbind option_bind]; [|discriminate].
    intros H Ho. apply (completeRequests_ordered _ _ _ _ _ _ _ H).
    unfold ordered.
    rewrite (frame_reportDeviceError completionOrder isCompletion)
      by (first [exact order_emit | reflexivity]).
    exact Ho.
  - intros H Ho. apply (completeRequests_ordered _ _ _ _ _ _ _ H). exact Ho.
Qed.

Lemma processNextRequest_order env s r :
  processNextRequest env s = Some r -> completionOrder r.2 = completionOrder s.
Proof.
  unfold processNextRequest.
  destruct (mMessagesPending s) as [|msg pending] eqn:Hp; [intros [= <-]; reflexivity|].
  destruct (cbMetadataMsg_request msg) as [rq|] eqn:Hr.
  2: { intros [= <-]. unfold completionOrder.
       cbn [snd trace mMessagesUnderwork mMessagesPending mMessageQueue
            set_mMessagesPending].
       rewrite Hp, (requestIds_cons_None _ _ Hr). reflexivity. }
  set (s1 := set_mMessagesUnderwork _ (set_mMessagesPending pending s)).
  assert (E1 : completionOrder s1 = completionOrder s).
  { unfold completionOrder. subst s1.
    cbn [trace mMessagesUnderwork mMessagesPending mMessageQueue
         set_mMessagesUnderwork set_mMessagesPending].
    rewrite Hp, requestIds_app, (requestIds_cons_Some msg [] rq Hr),
      (requestIds_cons_Some msg pending rq Hr), <- !app_assoc. reflexivity. }
  match goal with
  | |- context [passSettings env ?t msg ?st s1] =>
    pose proof (frame_passSettings completionOrder isCompletion env order_emit
                  ltac:(reflexivity) t msg st s1) as H1;
    destruct (passSettings env t msg st s1) as [r1|[st1 s2]]; simpl in H1
  end.
  - intros [= <-]. congruence.
  - assert (Hq : forall st r0, prepareRequest env rq st s2 = Some r0 ->
                   completionOrder r0.2 = completionOrder s2).
    { intros st r0 H.
      apply (frame_prepareRequest completionOrder isCompletion env) in H;
        try (intros; reflexivity); [exact H|exact order_emit|exact order_send]. }
    destruct (mFirstRequest s2).
    + destruct (kickstart env s2) as [[st3 s3]|] eqn:E3; simpl; [|discriminate].
      apply (frame_kickstart completionOrder isCompletion env) in E3;
        try (intros; reflexivity); [|exact order_emit]. simpl in E3.
      destruct (negb (isOK st3)).
      * intros [= <-]. simpl. congruence.
      * intros H. apply frame_prepareRequest with (proj := completionOrder)
                    (loud := isCompletion) in H;
          try (intros; reflexivity); [congruence|exact order_emit|exact order_send].
    + intros H. rewrite (Hq _ _ H). congruence.
Qed.

Lemma handleMessageCompleteReq_order env msg s r :
  handleMessageCompleteReq env msg s = Some r ->
  completionOrder r.2
  = completionIds (trace s) ++ requestIds (mMessagesUnderwork s)
    ++ requestIds (mMessagesPending s ++ [msg]) ++ queuedIds (mMessageQueue s).
Proof.
  unfold handleMessageCompleteReq.
  destruct (cbMetadataMsg_request msg) as [rq|] eqn:Hr.
  2: { intros [= <-]. rewrite requestIds_app, (requestIds_cons_None _ _ Hr).
       simpl. rewrite app_nil_r. reflexivity. }
  destruct (mCurPipeConfig _) as [cur|]; simpl; [|discriminate].
  destruct (processNextRequest env _) as [[st s1]|] eqn:E; simpl; [|discriminate].
  apply processNextRequest_order in E. simpl in E.
  rewrite (frame_clearNodes completionOrder) in E by (intros; reflexivity).
  destruct (mCurPipeConfig _) as [cur'|]; simpl; [|discriminate].
  unfold call.
  destruct (0 <? _)%nat; intros [= <-]; simpl;
    destruct (negb (isOK st)); rewrite ?order_emit by reflexivity; exact E.
Qed.

Lemma messageThreadLoop_ordered env s s' fut :
  messageThreadLoop env s = Some s' -> ordered s fut -> ordered s' fut.
Proof.
  unfold messageThreadLoop.
  destruct (mMessageQueue s) as [|msg queue] eqn:Hq; [intros [= <-]; auto|].
  destruct (dispatch env msg _) as [[st s1]|] eqn:E; simpl; [|discriminate].
  intros [= <-]. revert E. unfold dispatch, handleMessagePoll, handleMessageExit.
  set (s0 := set_mMessageQueue queue s).
  assert (Eo : msg_id msg <> MESSAGE_COMPLETE_REQ ->
               completionOrder s0 = completionOrder s).
  { intros Hne. unfold completionOrder. subst s0. simpl.
    rewrite Hq, (queuedIds_cons_other _ _ Hne). reflexivity. }
  unfold ordered.
  destruct (msg_id msg) eqn:Hid.
  - intros [= _ <-]. rewrite <- Eo by discriminate. auto.
  - intros E. apply handleMessageCompleteReq_order in E. simpl in E.
    rewrite E. subst s0. simpl.
    unfold completionOrder. rewrite Hq, (queuedIds_cons_request _ _ Hid), requestIds_app.
    rewrite <- !app_assoc. auto.
  - intros E Ho. apply (startProcessing_ordered _ _ _ _ _ E).
    unfold ordered. rewrite Eo by discriminate. exact Ho.
  - intros E Ho. apply (startProcessing_ordered _ _ _ _ _ E).
    unfold ordered. rewrite Eo by discriminate. exact Ho.
  - intros [= E]. apply (f_equal snd) in E. simpl in E. subst s1.
    rewrite (frame_handleMessageFlush completionOrder isCompletion env)
      by (first [exact order_emit | intros; reflexivity]).
    rewrite Eo by discriminate. auto.
  - intros [= _ <-]. rewrite Eo by discriminate. auto.
Qed.

Lemma notifyPollEvent_order pollMsg s r :
  notifyPollEvent pollMsg s = Some r -> completionOrder r.2 = completionOrder s.
Proof.
  unfold notifyPollEvent.
  destruct pollMsg as [pm|]; [|intros [= <-]; reflexivity].
  destruct (pm_activeDevices (pm_data pm)) as [active|];
    [|intros [= <-]; reflexivity].
  destruct (pm_id pm).
  - destruct (_ =? 0); [intros [= <-]; reflexivity|].
    destruct (pm_polledDevices (pm_data pm)) as [polled|]; simpl; [|discriminate].
    destruct (_ =? 0); [intros [= <-]; reflexivity|].
    destruct (negb _).
    + destruct (pm_inactiveDevices (pm_data pm)); simpl; [|discriminate].
      intros [= <-]. reflexivity.
    + destruct (mFlushing s); intros [= <-]; [reflexivity|].
      apply order_send. reflexivity.
  - destruct (pm_polledDevices (pm_data pm)) as [polled|]; simpl; [|discriminate].
    intros [= <-]. apply order_send. reflexivity.
  - intros [= <-]. reflexivity.
Qed.

Lemma flush_order s : completionOrder (flush s) = completionOrder s.
Proof.
  unfold flush, completionOrder, send, removeMessages. simpl.
  rewrite queuedIds_app, queuedIds_remove_poll, queuedIds_other by discriminate.
  rewrite app_nil_r. reflexivity.
Qed.

Lemma exec_ordered env op s s' fut :
  exec env op s = Some s' ->
  ordered s (submittedIds [op] ++ fut) -> ordered s' fut.
Proof.
  destruct op as [l|l|rq u|pm| |]; simpl.
  - destruct (configStreams env l s) as [r|] eqn:E; simpl; [|discriminate].
    intros [= <-]. unfold ordered.
    rewrite (frame_configStreams completionOrder isCompletion env) with (s := s) (l := l);
      try (intros; reflexivity); [auto|exact order_emit|exact E].
  - intros [= <-]. auto.
  - intros [= <-]. destruct rq as [rq|]; [|auto].
    unfold ordered, completionOrder, completeRequest, send.
    cbn [snd trace mMessagesUnderwork mMessagesPending mMessageQueue
         set_mMessageQueue submittedIds omap list_omap].
    rewrite queuedIds_app, (queuedIds_cons_request _ []) by reflexivity.
    rewrite (requestIds_cons_Some _ [] rq) by reflexivity.
    rewrite <- !app_assoc. auto.
  - destruct (notifyPollEvent pm s) as [r|] eqn:E; simpl; [|discriminate].
    intros [= <-]. unfold ordered. rewrite (notifyPollEvent_order _ _ _ E). auto.
  - intros [= <-]. unfold ordered. rewrite flush_order. auto.
  - apply messageThreadLoop_ordered.
Qed.

Lemma submittedIds_cons op ops :
  submittedIds (op :: ops) = submittedIds [op] ++ submittedIds ops.
Proof. unfold submittedIds. apply (omap_app _ [op] ops). Qed.

Lemma run_ordered env ops s s' :
  run env ops s = Some s' -> ordered s (submittedIds ops) -> ordered s' [].
Proof.
  revert s. induction ops as [|op ops IH]; intros s; simpl.
  - intros [= <-]. auto.
  - destruct (exec env op s) as [s1|] eqn:E; simpl; [|discriminate].
    intros H Ho. apply (IH _ H). apply (exec_ordered _ _ _ _ _ E).
    rewrite <- submittedIds_cons. exact Ho.
Qed.

Lemma startProcessing_delays (env : Env) (pollmsg msg : DeviceMessage)
    (rest : list DeviceMessage) (r : Camera3Request) (s : ImguUnit) :
  mMessagesUnderwork s = msg :: rest ->
  cbMetadataMsg_request msg = Some r ->
  u32 (getId r) < u32 (requestId (pollEvent pollmsg)) ->
  startProcessing env pollmsg s =
    Some (OK, set_mDelayProcessRequest
                (mDelayProcessRequest s ++ [u32 (requestId (pollEvent pollmsg))]) s).
Proof.
  intros Hu Hr Hlt. unfold startProcessing. rewrite Hu. cbv iota. rewrite Hr.
  cbn [mbind option_bind].
  destruct (Z.ltb_spec (u32 (getId r)) (u32 (requestId (pollEvent pollmsg))))
    as [_|?]; [reflexivity|lia].
Qed.

(** C1.  The caller submits requests with increasing ids; the Poller's
    notifications, flushes, reconfigurations and the turns of the control
    loop come in any order.  Then the completion events are delivered in
    non-decreasing id order (an event for a smaller id never follows one for
    a larger id; one request's events to several listeners are adjacent),
    and no completion was delivered for an id while a request with a
    smaller id is still in flight, pending or queued.  In particular a
    notification whose id is greater than the id of the oldest in-flight
    request is only appended to the Delay Queue: the handler returns [OK]
    and makes no call. *)
Theorem completion_order (env : Env) :
  (forall cameraId ops s',
     StronglySorted Z.lt (submittedIds ops) ->
     run env ops (ImguUnit_new cameraId) = Some s' ->
     StronglySorted Z.le (completionIds (trace s'))
     /\ forall a b,
          b ∈ completionIds (trace s') ->
          a ∈ requestIds (mMessagesUnderwork s') ++ requestIds (mMessagesPending s')
              ++ queuedIds (mMessageQueue s') ->
          b <= a)
  /\
  (forall pollmsg msg rest r s,
     mMessagesUnderwork s = msg :: rest ->
     cbMetadataMsg_request msg = Some r ->
     u32 (getId r) < u32 (requestId (pollEvent pollmsg)) ->
     exists s',
       startProcessing env pollmsg s = Some (OK, s')
       /\ mDelayProcessRequest s' =
            mDelayProcessRequest s ++ [u32 (requestId (pollEvent pollmsg))]
       /\ mMessagesUnderwork s' = mMessagesUnderwork s
       /\ trace s' = trace s).
Proof.
  split.
  - intros cameraId ops s' Hsub Hrun.
    assert (Ho : ordered s' []).
    { apply (run_ordered env ops _ _ Hrun). unfold ordered. simpl.
      clear Hrun. induction Hsub as [|x l _ IH Hx]; constructor; [exact IH|].
      eapply Forall_impl; [exact Hx|]. intros y Hy. simpl in Hy. lia. }
    unfold ordered, completionOrder in Ho. rewrite app_nil_r in Ho.
    split.
    + apply (StronglySorted_app_1_l _ _ _ Ho).
    + intros a b Hb Ha. apply (StronglySorted_app_1_elem_of _ _ _ _ _ Ho Hb Ha).
  - intros pollmsg msg rest r s Hu Hr Hlt. eexists. split.
    + apply (startProcessing_delays env pollmsg msg rest r s Hu Hr Hlt).
    + repeat split.
Qed.

Lemma completion_order_witness :
  (exists s',
     run envOK (startAndSubmit ++ notify (pollEventFor 6) ++ notify (pollEventFor 7)
                ++ notify (pollEventFor 5)) (ImguUnit_new 0) = Some s'
     /\ completionIds (trace s') = [5; 6; 7]
     /\ StronglySorted Z.le (completionIds (trace s')))
  /\
  (exists s',
     startProcessing envOK (pollMsg 7) inflight567 = Some (OK, s')
     /\ mDelayProcessRequest s' = [7]
     /\ trace s' = trace inflight567).
Proof.
  split.
  - eexists. split; [vm_compute; reflexivity|].
    split; [vm_compute; reflexivity|].
    refine (proj1 (proj1 (completion_order envOK) 0
                     (startAndSubmit ++ notify (pollEventFor 6)
                      ++ notify (pollEventFor 7) ++ notify (pollEventFor 5))
                     _ _ _)).
    + repeat constructor; lia.
    + vm_compute. reflexivity.
  - destruct (proj2 (completion_order envOK) (pollMsg 7)
                (requestMsg (exampleRequest 5))
                [requestMsg (exampleRequest 6); requestMsg (exampleRequest 7)]
                (exampleRequest 5) inflight567)
      as (s' & E & Hd & _ & Ht).
    + vm_compute; reflexivity.
    + reflexivity.
    + vm_compute; reflexivity.
    + exists s'. split; [exact E|]. split; [|exact Ht].
      rewrite Hd. vm_compute. reflexivity.
Defined.

(* ================================================================== *)
(** ** Further properties of the controller *)

(** *** Classification of the streams *)

Lemma classifyStream_state (st : camera3_stream_t) (s : ImguUnit) :
  classifyStream true st s =
    Some (set_trace
            (trace s ++ (if isOutputOf HAL_PIXEL_FORMAT_BLOB st then [EvSetPipeType] else []))
            (set_mActiveStreams
               {| blobStreams := blobStreams (mActiveStreams s)
                                 ++ (if isOutputOf HAL_PIXEL_FORMAT_BLOB st then [st] else []);
                  rawStreams := rawStreams (mActiveStreams s);
                  yuvStreams :=
                    (if isOutputOf HAL_PIXEL_FORMAT_IMPLEMENTATION_DEFINED st
                     then [st] else [])
                    ++ yuvStreams (mActiveStreams s)
                    ++ (if isOutputOf HAL_PIXEL_FORMAT_YCbCr_420_888 st then [st] else []);
                  inputStream :=
                    if isInputStream st then Some st
                    else inputStream (mActiveStreams s) |} s)).
Proof.
  unfold classifyStream, isOutputOf, isInputStream.
  destruct (Z.eqb_spec (stream_type st) CAMERA3_STREAM_INPUT) as [E1|E1];
    destruct (Z.eqb_spec (stream_type st) CAMERA3_STREAM_BIDIRECTIONAL) as [E2|E2];
    destruct (Z.eqb_spec (format st) HAL_PIXEL_FORMAT_BLOB) as [F1|F1];
    destruct (Z.eqb_spec (format st) HAL_PIXEL_FORMAT_YCbCr_420_888) as [F2|F2];
    destruct (Z.eqb_spec (format st) HAL_PIXEL_FORMAT_IMPLEMENTATION_DEFINED) as [F3|F3];
    try (exfalso; unfold CAMERA3_STREAM_INPUT, CAMERA3_STREAM_BIDIRECTIONAL,
           HAL_PIXEL_FORMAT_BLOB, HAL_PIXEL_FORMAT_YCbCr_420_888,
           HAL_PIXEL_FORMAT_IMPLEMENTATION_DEFINED in *; lia);
    cbn [orb andb negb]; f_equal;
    destruct s as [? ? ? ? ? ? ? [? ? ? ?]];
    cbn; rewrite ?app_nil_r; reflexivity.
Qed.

Lemma last_or_else {A} (b : bool) (x : A) (l : list A) (i : option A) :
  match last (if b then x :: l else l) with
  | Some y => Some y
  | None => i
  end
  = match last l with
    | Some y => Some y
    | None => if b then Some x else i
    end.
Proof.
  destruct b; [|reflexivity]. destruct l as [|y l]; [reflexivity|].
  rewrite last_cons. destruct (last (y :: l)) eqn:L; [reflexivity|].
  apply last_None in L. discriminate L.
Qed.

Lemma classifyStreams_state (l : list camera3_stream_t) (s : ImguUnit) :
  classifyStreams true l s =
    Some (set_trace
            (trace s ++ replicate (length (List.filter (isOutputOf HAL_PIXEL_FORMAT_BLOB) l))
                                  EvSetPipeType)
            (set_mActiveStreams
               {| blobStreams := blobStreams (mActiveStreams s)
                                 ++ List.filter (isOutputOf HAL_PIXEL_FORMAT_BLOB) l;
                  rawStreams := rawStreams (mActiveStreams s);
                  yuvStreams :=
                    rev (List.filter (isOutputOf HAL_PIXEL_FORMAT_IMPLEMENTATION_DEFINED) l)
                    ++ yuvStreams (mActiveStreams s)
                    ++ List.filter (isOutputOf HAL_PIXEL_FORMAT_YCbCr_420_888) l;
                  inputStream :=
                    match last (List.filter isInputStream l) with
                    | Some st => Some st
                    | None => inputStream (mActiveStreams s)
                    end |} s)).
Proof.
  revert s. induction l as [|st l IH]; intros s.
  - simpl. rewrite !app_nil_r. destruct s as [? ? ? ? ? ? ? [? ? ? ?]]; reflexivity.
  - cbn [classifyStreams]. rewrite classifyStream_state. cbn [mbind option_bind].
    rewrite IH. cbn [List.filter]. rewrite last_or_else. f_equal.
    cbn [mActiveStreams set_mActiveStreams trace set_trace
         blobStreams rawStreams yuvStreams inputStream].
    destruct (isOutputOf HAL_PIXEL_FORMAT_BLOB st),
             (isOutputOf HAL_PIXEL_FORMAT_IMPLEMENTATION_DEFINED st),
             (isOutputOf HAL_PIXEL_FORMAT_YCbCr_420_888 st);
      cbn [length replicate rev app]; rewrite <- ?app_assoc; cbn [app];
      rewrite ?app_nil_r; reflexivity.
Qed.

Lemma classifyStream_null_graph (st : camera3_stream_t) (s : ImguUnit) :
  classifyStream false st s =
    if isOutputOf HAL_PIXEL_FORMAT_BLOB st then None else classifyStream true st s.
Proof.
  unfold classifyStream, isOutputOf.
  destruct (stream_type st =? CAMERA3_STREAM_INPUT),
           (stream_type st =? CAMERA3_STREAM_BIDIRECTIONAL),
           (format st =? HAL_PIXEL_FORMAT_BLOB); reflexivity.
Qed.

Lemma classifyStreams_null_graph (l : list camera3_stream_t) (s : ImguUnit) :
  classifyStreams false l s =
    match List.filter (isOutputOf HAL_PIXEL_FORMAT_BLOB) l with
    | [] => classifyStreams true l s
    | _ :: _ => None
    end.
Proof.
  revert s. induction l as [|st l IH]; intros s; [reflexivity|].
  cbn [classifyStreams List.filter]. rewrite classifyStream_null_graph.
  destruct (isOutputOf HAL_PIXEL_FORMAT_BLOB st); [reflexivity|].
  rewrite classifyStream_state. cbn [mbind option_bind]. apply IH.
Qed.

(** X1.  The classification loop of [configStreams].  With a graph
    configuration at hand: the blob streams are the BLOB outputs in the
    order given; the yuv streams are the IMPLEMENTATION_DEFINED outputs,
    last one first, in front of the YCbCr_420_888 outputs in the order
    given; a pure input stream is no output, a bidirectional stream is an
    output and the input; the input stream is the last input or
    bidirectional stream; an output of another format is dropped, and
    [setPipeType] is called once per blob stream.  Through a null graph
    configuration the loop is undefined as soon as there is a blob
    output, and the same otherwise. *)
Theorem configStreams_classification (l : list camera3_stream_t) (s : ImguUnit) :
  (exists s',
     classifyStreams true l (resetConfiguration s) = Some s'
     /\ blobStreams (mActiveStreams s') = List.filter (isOutputOf HAL_PIXEL_FORMAT_BLOB) l
     /\ yuvStreams (mActiveStreams s')
        = rev (List.filter (isOutputOf HAL_PIXEL_FORMAT_IMPLEMENTATION_DEFINED) l)
          ++ List.filter (isOutputOf HAL_PIXEL_FORMAT_YCbCr_420_888) l
     /\ rawStreams (mActiveStreams s') = []
     /\ inputStream (mActiveStreams s') = last (List.filter isInputStream l)
     /\ trace s'
        = trace s ++ replicate (length (List.filter (isOutputOf HAL_PIXEL_FORMAT_BLOB) l))
                               EvSetPipeType)
  /\ classifyStreams false l (resetConfiguration s) =
       match List.filter (isOutputOf HAL_PIXEL_FORMAT_BLOB) l with
       | [] => classifyStreams true l (resetConfiguration s)
       | _ :: _ => None
       end.
Proof.
  split; [|apply classifyStreams_null_graph].
  eexists. split; [apply classifyStreams_state|].
  cbn. repeat split. destruct (last (List.filter isInputStream l)); reflexivity.
Qed.

(** *** What a reconfiguration keeps *)

(** X2.  [configStreams] returns [OK] or [UNKNOWN_ERROR] only.  Whatever
    it returns, the first-request flag is set again and the flushing flag
    is cleared, while the registered listeners, the message queue, the
    pending and in-flight requests, the Delay Queue and the binding table
    are left as they were.  When it returns [OK] a pipe is current and the
    last call was the initialisation of the Poller with that pipe's
    nodes. *)
Theorem configStreams_outcome (env : Env) (l : list camera3_stream_t)
    (s s' : ImguUnit) (st : status_t) :
  configStreams env l s = Some (st, s') ->
  (st = OK \/ st = UNKNOWN_ERROR)
  /\ mFirstRequest s' = true /\ mNeedRestartPoll s' = true
  /\ mTakingPicture s' = false /\ mFlushing s' = false
  /\ mListeners s' = mListeners s /\ mMessageQueue s' = mMessageQueue s
  /\ mMessagesPending s' = mMessagesPending s
  /\ mMessagesUnderwork s' = mMessagesUnderwork s
  /\ mDelayProcessRequest s' = mDelayProcessRequest s
  /\ mRequestToWorkMap s' = mRequestToWorkMap s
  /\ (st = OK ->
      exists cur,
        mCurPipeConfig s' = Some cur
        /\ last (trace s') = Some (EvPollerInit (nodes (mPipeConfigs cur s')))).
Proof.
  set (P := fun x : ImguUnit =>
              (mFirstRequest x, mNeedRestartPoll x, mTakingPicture x, mFlushing x,
               mListeners x, mMessageQueue x, mMessagesPending x, mMessagesUnderwork x,
               mDelayProcessRequest x, mRequestToWorkMap x)).
  unfold configStreams.
  destruct (classifyStreams _ l (resetConfiguration s)) as [s1|] eqn:E1; simpl;
    [|discriminate].
  apply (frame_classifyStreams P (fun _ => false)) in E1; try (intros; reflexivity).
  destruct (createProcessingTasks env _ s1) as [[st2 s2]|] eqn:E2; simpl; [|discriminate].
  apply (frame_createProcessingTasks P (fun _ => false)) in E2;
    try (intros; reflexivity).
  simpl in E2. rewrite E1 in E2. clear E1.
  assert (Hfin : forall x, P x = P s2 ->
            mFirstRequest x = true /\ mNeedRestartPoll x = true
            /\ mTakingPicture x = false /\ mFlushing x = false
            /\ mListeners x = mListeners s /\ mMessageQueue x = mMessageQueue s
            /\ mMessagesPending x = mMessagesPending s
            /\ mMessagesUnderwork x = mMessagesUnderwork s
            /\ mDelayProcessRequest x = mDelayProcessRequest s
            /\ mRequestToWorkMap x = mRequestToWorkMap s).
  { intros x Hx. rewrite E2 in Hx. unfold P in Hx. cbn in Hx.
    injection Hx as -> -> -> -> -> -> -> -> -> ->. repeat split. }
  destruct (negb (isOK st2)).
  - intros [= <- <-]. split; [right; reflexivity|].
    repeat (split; [apply (Hfin s2 eq_refl)|]). intros E. discriminate E.
  - destruct (mCurPipeConfig s2) as [cur|] eqn:Ecur; simpl; [|discriminate].
    unfold call.
    destruct (negb (isOK _)); intros [= <- <-].
    + split; [right; reflexivity|].
      repeat (split; [apply (Hfin (emit _ s2) eq_refl)|]). intros E. discriminate E.
    + split; [left; reflexivity|].
      repeat (split; [apply (Hfin (emit _ s2) eq_refl)|]). intros _.
      exists cur. split; [exact Ecur|].
      cbn [trace emit set_trace]. rewrite last_snoc.
      destruct cur; reflexivity.
Qed.

Lemma configStreams_outcome_witness :
  mFirstRequest (after envOK (startAndSubmit ++ [OpConfigStreams [yuv1080]])) = true
  /\ requestIds (mMessagesUnderwork
                   (after envOK (startAndSubmit ++ [OpConfigStreams [yuv1080]])))
     = [5; 6; 7].
Proof.
  destruct (configStreams_outcome envOK [yuv1080] inflight567
              (after envOK (startAndSubmit ++ [OpConfigStreams [yuv1080]])) OK)
    as (_ & H1 & _ & _ & _ & _ & _ & _ & H2 & _).
  - vm_compute. reflexivity.
  - split; [exact H1|]. rewrite H2. vm_compute. reflexivity.
Defined.

(** *** Video and preview among three streams or more *)

Lemma findVideoIdx_first (av : list camera3_stream_t) :
  forall i, 0 <= i < findVideoIdx av ->
    streamSize (streamAt av i) < streamSize (streamAt av (findVideoIdx av)).
Proof.
  unfold findVideoIdx, indices.
  apply (index_loop_ind _
    (fun k v => (v = 0 \/ 0 <= v < Z.of_nat k)
                /\ (forall i, 0 <= i < Z.of_nat k ->
                      streamSize (streamAt av i) <= streamSize (streamAt av v))
                /\ forall i, 0 <= i < v ->
                     streamSize (streamAt av i) < streamSize (streamAt av v))).
  - split; [left; reflexivity|]. split; intros i Hi; lia.
  - intros k v Hk (Hv & Hmax & Hlt). unfold streamSizeGT.
    destruct (Z.ltb_spec (streamSize (streamAt av v))
                         (streamSize (streamAt av (Z.of_nat k)))) as [H|H].
    + split; [right; lia|]. split.
      * intros i Hi. destruct (Z.eq_dec i (Z.of_nat k)) as [->|Hne]; [lia|].
        specialize (Hmax i ltac:(lia)). lia.
      * intros i Hi. specialize (Hmax i ltac:(lia)). lia.
    + split; [destruct Hv as [->|Hv]; [left; reflexivity|right; lia]|].
      split; [|exact Hlt].
      intros i Hi. destruct (Z.eq_dec i (Z.of_nat k)) as [->|Hne]; [lia|].
      apply Hmax. lia.
Qed.

Lemma findPreviewIdx_largest (av : list camera3_stream_t) (v : Z) :
  (2 <= length av)%nat ->
  forall i, 0 <= i < Z.of_nat (length av) -> i <> v ->
    streamSize (streamAt av i) <> streamSize (streamAt av v) ->
    streamSize (streamAt av i) <= streamSize (streamAt av (findPreviewIdx av v)).
Proof.
  intros Hlen. unfold findPreviewIdx, indices.
  set (p := fold_left (previewStep av v) (map Z.of_nat (seq 0 (length av))) (-1)).
  assert (Hp : (p = -1 /\ forall j, 0 <= j < Z.of_nat (length av) -> j = v)
               \/ (p <> -1
                   /\ forall i, 0 <= i < Z.of_nat (length av) -> i <> v ->
                        streamSize (streamAt av i) <> streamSize (streamAt av v) ->
                        streamSize (streamAt av i) <= streamSize (streamAt av p))).
  { subst p.
    apply (index_loop_ind _
      (fun k p => (p = -1 /\ forall j, 0 <= j < Z.of_nat k -> j = v)
                  \/ (p <> -1
                      /\ forall i, 0 <= i < Z.of_nat k -> i <> v ->
                           streamSize (streamAt av i) <> streamSize (streamAt av v) ->
                           streamSize (streamAt av i) <= streamSize (streamAt av p)))).
    - left. split; [reflexivity|]. intros j Hj. lia.
    - intros k q Hk Hq. unfold previewStep.
      destruct (Z.eqb_spec (Z.of_nat k) v) as [Hkv|Hkv].
      + destruct Hq as [[-> Hall]|[Hq Hmax]].
        * left. split; [reflexivity|]. intros j Hj.
          destruct (Z.eq_dec j (Z.of_nat k)); [lia|]. apply Hall. lia.
        * right. split; [exact Hq|]. intros i Hi Hiv.
          apply Hmax; [|exact Hiv]. lia.
      + destruct (Z.eqb_spec q (-1)) as [Hq1|Hq1].
        * right. split; [lia|]. intros i Hi Hiv _.
          destruct Hq as [[_ Hall]|[Hq _]]; [|contradiction].
          destruct (Z.eq_dec i (Z.of_nat k)) as [->|Hne]; [lia|].
          exfalso. apply Hiv, Hall. lia.
        * destruct Hq as [[-> _]|[_ Hmax]]; [congruence|].
          unfold streamSizeEQ, streamSizeGT.
          destruct (Z.eqb_spec (streamSize (streamAt av (Z.of_nat k)))
                               (streamSize (streamAt av v))) as [He|He].
          -- right. split; [exact Hq1|]. intros i Hi Hiv Hne.
             destruct (Z.eq_dec i (Z.of_nat k)) as [->|Hik]; [contradiction|].
             apply Hmax; [lia|exact Hiv|exact Hne].
          -- destruct (Z.ltb_spec (streamSize (streamAt av q))
                                  (streamSize (streamAt av (Z.of_nat k)))) as [Hl|Hl].
             ++ right. split; [lia|]. intros i Hi Hiv Hne.
                destruct (Z.eq_dec i (Z.of_nat k)) as [->|Hik]; [lia|].
                specialize (Hmax i ltac:(lia) Hiv Hne). lia.
             ++ right. split; [exact Hq1|]. intros i Hi Hiv Hne.
                destruct (Z.eq_dec i (Z.of_nat k)) as [->|Hik]; [lia|].
                apply Hmax; [lia|exact Hiv|exact Hne]. }
  destruct Hp as [[Hp1 Hall]|[Hp Hmax]].
  - exfalso. pose proof (Hall 0 ltac:(lia)). pose proof (Hall 1 ltac:(lia)). lia.
  - destruct (Z.eqb_spec p (-1)); [contradiction|]. exact Hmax.
Qed.

(** X3.  With one blob stream and two yuv streams or more, the mapper
    succeeds: the video node gets the first stream of the largest area
    (the blob stream counts first, then the yuv streams in their order);
    the viewfinder node gets another stream, which is at least as large
    as every stream whose area is not the video stream's; the postview
    node gets the viewfinder's stream, and the still and raw nodes get
    none. *)
Theorem mapStream_three_streams (s : ImguUnit) (b : camera3_stream_t) :
  blobStreams (mActiveStreams s) = [b] ->
  (2 <= length (yuvStreams (mActiveStreams s)))%nat ->
  let av := b :: yuvStreams (mActiveStreams s) in
  exists v p s',
    mapStreamWithDeviceNode s = (OK, s')
    /\ 0 <= v < Z.of_nat (length av) /\ 0 <= p < Z.of_nat (length av) /\ p <> v
    /\ mStreamNodeMapping s' !! IMGU_NODE_VIDEO = Some (Some (streamAt av v))
    /\ mStreamNodeMapping s' !! IMGU_NODE_VF_PREVIEW = Some (Some (streamAt av p))
    /\ mStreamNodeMapping s' !! IMGU_NODE_PV_PREVIEW = Some (Some (streamAt av p))
    /\ mStreamNodeMapping s' !! IMGU_NODE_STILL = None
    /\ mStreamNodeMapping s' !! IMGU_NODE_RAW = None
    /\ (forall i, 0 <= i < Z.of_nat (length av) ->
          streamSize (streamAt av i) <= streamSize (streamAt av v))
    /\ (forall i, 0 <= i < v ->
          streamSize (streamAt av i) < streamSize (streamAt av v))
    /\ (forall i, 0 <= i < Z.of_nat (length av) -> i <> v ->
          streamSize (streamAt av i) <> streamSize (streamAt av v) ->
          streamSize (streamAt av i) <= streamSize (streamAt av p)).
Proof.
  intros Hb Hy av.
  assert (Hav : availableStreams (mActiveStreams s) = av).
  { unfold availableStreams. rewrite Hb. reflexivity. }
  assert (Hlen : (3 <= length av)%nat) by (subst av; simpl; lia).
  assert (Hne : av <> []) by (subst av; discriminate).
  destruct (findVideoIdx_spec av Hne) as [Hv Hmax].
  destruct (findPreviewIdx_spec av (findVideoIdx av) ltac:(lia)) as [Hp Hpv].
  exists (findVideoIdx av), (findPreviewIdx av (findVideoIdx av)).
  unfold mapStreamWithDeviceNode. rewrite Hb.
  cbn [length mActiveStreams set_mStreamNodeMapping set_mStreamListenerMapping].
  change (1 <? Z.of_nat 1) with false. cbv iota.
  rewrite Hav.
  destruct (Z.eqb_spec (Z.of_nat 1 + Z.of_nat (length (yuvStreams (mActiveStreams s)))) 1)
    as [E|_]; [lia|].
  destruct (Z.eqb_spec (Z.of_nat 1 + Z.of_nat (length (yuvStreams (mActiveStreams s)))) 2)
    as [E|_]; [lia|].
  destruct (Z.leb_spec 2 (Z.of_nat (length (yuvStreams (mActiveStreams s)))))
    as [_|E]; [|lia].
  change (Z.of_nat 1 =? 1) with true. cbn [andb].
  eexists. split; [reflexivity|].
  split; [exact Hv|]. split; [exact Hp|]. split; [exact Hpv|].
  cbn [mStreamNodeMapping set_mStreamNodeMapping set_mStreamListenerMapping].
  unfold assignNodes.
  destruct (Z.leb_spec 0 (findPreviewIdx av (findVideoIdx av))) as [_|E]; [|lia].
  destruct (Z.leb_spec 0 (findVideoIdx av)) as [_|E]; [|lia].
  match goal with
  | |- context [default None (?m !! IMGU_NODE_VF_PREVIEW)] =>
    replace (default None (m !! IMGU_NODE_VF_PREVIEW))
      with (Some (streamAt av (findPreviewIdx av (findVideoIdx av))))
      by (rewrite lookup_insert_eq; reflexivity)
  end.
  split; [apply lookup_insert_eq|].
  split. { rewrite lookup_insert_ne by discriminate.
           rewrite lookup_insert_ne by discriminate. apply lookup_insert_eq. }
  split. { rewrite lookup_insert_ne by discriminate. apply lookup_insert_eq. }
  split. { rewrite !lookup_insert_ne by discriminate. apply lookup_empty. }
  split. { rewrite !lookup_insert_ne by discriminate. apply lookup_empty. }
  split; [exact Hmax|]. split; [apply findVideoIdx_first|].
  apply findPreviewIdx_largest. lia.
Qed.

Lemma mapStream_three_streams_witness :
  exists s',
    mapStreamWithDeviceNode threeStreams = (OK, s')
    /\ mStreamNodeMapping s' !! IMGU_NODE_VIDEO = Some (Some blob1200)
    /\ mStreamNodeMapping s' !! IMGU_NODE_VF_PREVIEW = Some (Some yuv360).
Proof.
  destruct (mapStream_three_streams threeStreams blob1200 eq_refl ltac:(simpl; lia))
    as (v & p & s' & E & _ & _ & _ & _ & _ & _ & _ & _ & _ & _ & _).
  exists s'. split; [exact E|].
  vm_compute in E. injection E as <-. vm_compute. split; reflexivity.
Defined.

(** *** The pipes of [createProcessingTasks] *)

Lemma nodeMappingAt_spec (k : NodeTypes) (s : ImguUnit) :
  (nodeMappingAt k s).1 = default None (mStreamNodeMapping s !! k)
  /\ mCameraId (nodeMappingAt k s).2 = mCameraId s
  /\ mPipeConfigs_video (nodeMappingAt k s).2 = mPipeConfigs_video s
  /\ forall n, default None (mStreamNodeMapping (nodeMappingAt k s).2 !! n)
               = default None (mStreamNodeMapping s !! n).
Proof.
  unfold nodeMappingAt. destruct (mStreamNodeMapping s !! k) eqn:E; simpl.
  - repeat split.
  - repeat split. intros n. destruct (decide (n = k)) as [->|Hn].
    + rewrite lookup_insert_eq, E. reflexivity.
    + rewrite lookup_insert_ne by congruence. reflexivity.
Qed.

Lemma outputWorkerFor_ext (s s1 : ImguUnit) (depth : Z) (it : NodeTypes * V4L2VideoNode) :
  mCameraId s1 = mCameraId s ->
  (forall n, default None (mStreamNodeMapping s1 !! n)
             = default None (mStreamNodeMapping s !! n)) ->
  outputWorkerFor s1 depth it = outputWorkerFor s depth it.
Proof. intros Hc Hm. unfold outputWorkerFor. rewrite Hc, Hm. reflexivity. Qed.

Lemma viewOf_setStreamListeners n w s :
  viewOf (setStreamListeners n w s) = viewOf s.
Proof.
  apply (frame_setStreamListeners viewOf (fun _ => false)); intros; reflexivity.
Qed.

Lemma viewOf_step k w L y :
  viewOf (set_mListenerDeviceWorkers L (setStreamListeners k w y)) = viewOf y.
Proof. apply viewOf_setStreamListeners. Qed.

Lemma fmap_ext_all {A B} (f g : A -> B) (l : list A) :
  (forall x, f x = g x) -> f <$> l = g <$> l.
Proof. intros H. induction l as [|x l IH]; cbn; [reflexivity|]. rewrite H, IH. reflexivity. Qed.

Lemma createWorkers_pipes l depth vf pv s vf' pv' s' :
  createWorkers l depth vf pv s = inr (vf', pv', s') ->
  let W := outputWorkerFor s depth in
  let ws := W <$> List.filter (fun it => isCommonNode it.1) l in
  deviceWorkers (mPipeConfigs_video s') = deviceWorkers (mPipeConfigs_video s) ++ ws
  /\ pollableWorkers (mPipeConfigs_video s') = pollableWorkers (mPipeConfigs_video s) ++ ws
  /\ nodes (mPipeConfigs_video s') = nodes (mPipeConfigs_video s) ++ (getNode <$> ws)
  /\ vf' = orLast W IMGU_NODE_VF_PREVIEW l vf
  /\ pv' = orLast W IMGU_NODE_PV_PREVIEW l pv
  /\ mCameraId s' = mCameraId s
  /\ forall n, default None (mStreamNodeMapping s' !! n)
               = default None (mStreamNodeMapping s !! n).
Proof.
  revert vf pv s. induction l as [|[n node] l IH]; intros vf pv s; cbn zeta.
  - intros [= <- <- <-]. cbn. rewrite !app_nil_r. repeat split.
  - cbn [createWorkers fst snd].
    destruct (nodeMappingAt_spec n s) as (S1 & S2 & S3 & S4).
    destruct n; cbn [List.filter isCommonNode fst snd];
      try (destruct (nodeMappingAt _ s) as [stream s1]; cbn [fst snd] in S1, S2, S3, S4);
      try discriminate;
      intros Hr;
      try match type of Hr with
          | createWorkers _ _ _ _
              (set_mListenerDeviceWorkers ?L (setStreamListeners ?k ?w ?y)) = _ =>
            pose proof (viewOf_step k w L y) as HV;
            set (s2 := set_mListenerDeviceWorkers L (setStreamListeners k w y)) in *;
            clearbody s2; unfold viewOf in HV;
            cbn [mCameraId mStreamNodeMapping mPipeConfigs_video
                 set_mPipeConfigs_video] in HV;
            injection HV as HVc HVm HVv;
            rewrite <- HVm in S4; rewrite <- HVc in S2
          end;
      apply IH in Hr; clear IH; cbn zeta in Hr;
      destruct Hr as (D & P & N & V & Q & C & M);
      unfold orLast in *; cbn [List.filter fst snd];
      rewrite ?(bool_decide_eq_true_2 _ eq_refl),
              ?bool_decide_eq_false_2 in * by discriminate;
      rewrite ?last_cons.
    all: try (assert (HW : forall it, outputWorkerFor s2 depth it = outputWorkerFor s depth it)
                by (intros; apply outputWorkerFor_ext; assumption);
              rewrite (fmap_ext_all _ _ _ HW) in D, P, N;
              rewrite <- ?HVc in HVv; rewrite ?S2 in HVv; rewrite HVv in D, P, N;
              rewrite ?S3 in D, P, N; subst stream).
    all: rewrite D, P, N, V, Q, C.
    all: cbn [pushBack deviceWorkers pollableWorkers nodes fmap list_fmap].
    all: repeat match goal with
                | |- context [last ?l] => destruct (last l)
                end.
    all: rewrite ?HW, <- ?app_assoc.
    all: repeat split; try assumption; try (intros n; rewrite M; apply S4).
    all: unfold outputWorkerFor; cbn [fst snd]; rewrite <- HVc, S2; reflexivity.
Qed.

Lemma pipesOf_setStreamListeners n w s :
  pipesOf (setStreamListeners n w s) = pipesOf s.
Proof.
  apply (frame_setStreamListeners pipesOf (fun _ => false)); intros; reflexivity.
Qed.

(** The three steps after the loop. *)
Lemma pipes_tail (vf pv : option Worker) (depth : Z) (s : ImguUnit) :
  let s' := addInputWorker depth (addViewfinder vf pv (addPostview pv s)) in
  pollableWorkers (mPipeConfigs_video s') = pollableWorkers (withFront vf (mPipeConfigs_video s))
  /\ nodes (mPipeConfigs_video s') = nodes (withFront vf (mPipeConfigs_video s))
  /\ deviceWorkers (mPipeConfigs_video s')
     = inputWorkerOf s depth ++ deviceWorkers (withFront vf (mPipeConfigs_video s))
  /\ mPipeConfigs_still s'
     = match pv with
       | Some w => pushFront w (mPipeConfigs_video s)
       | None => mPipeConfigs_still s
       end
  /\ mCameraId s' = mCameraId s
  /\ mActiveStreams s' = mActiveStreams s
  /\ mConfiguredNodesPerName s' = mConfiguredNodesPerName s
  /\ mStreamNodeMapping s' = mStreamNodeMapping s.
Proof.
  cbn zeta.
  set (s1 := addPostview pv s).
  assert (H1 : pipesOf s1
               = (mPipeConfigs_video s,
                  match pv with
                  | Some w => pushFront w (mPipeConfigs_video s)
                  | None => mPipeConfigs_still s
                  end, mCameraId s, mActiveStreams s, mConfiguredNodesPerName s,
                  mStreamNodeMapping s)).
  { subst s1. unfold addPostview. destruct pv as [w|]; [|reflexivity].
    destruct (decide _); reflexivity. }
  clearbody s1.
  set (s2 := addViewfinder vf pv s1).
  assert (H2 : pipesOf s2
               = (withFront vf (mPipeConfigs_video s1), mPipeConfigs_still s1,
                  mCameraId s1, mActiveStreams s1, mConfiguredNodesPerName s1,
                  mStreamNodeMapping s1)).
  { subst s2. unfold addViewfinder. destruct vf as [w|]; [|reflexivity].
    destruct (decide _); destruct pv;
      change (pipesOf (emit ?e ?x)) with (pipesOf x);
      rewrite ?pipesOf_setStreamListeners; reflexivity. }
  clearbody s2.
  unfold pipesOf in H1, H2.
  injection H1 as V1 S1 C1 A1 N1 M1. injection H2 as V2 S2 C2 A2 N2 M2.
  unfold addInputWorker, inputWorkerOf. rewrite A2, A1.
  destruct (inputStream (mActiveStreams s)) as [input|];
    cbn [set_mListenerDeviceWorkers set_mPipeConfigs_video mPipeConfigs_video
         mPipeConfigs_still mCameraId mActiveStreams mConfiguredNodesPerName
         mStreamNodeMapping deviceWorkers pollableWorkers nodes app];
    rewrite ?V2, ?S2, ?C2, ?A2, ?N2, ?M2, ?V1, ?S1, ?C1, ?A1, ?N1, ?M1;
    repeat split.
Qed.

Lemma orLast_None (W : NodeTypes * V4L2VideoNode -> Worker) (n : NodeTypes)
    (l : list (NodeTypes * V4L2VideoNode)) :
  orLast W n l None = W <$> last (List.filter (fun it => bool_decide (it.1 = n)) l).
Proof. unfold orLast. destruct (last _); reflexivity. Qed.

(** X4.  The pipes a successful [createProcessingTasks] leaves.  Both pipes
    share the Output-Workers of the still and video nodes, in the order of
    the configured nodes.  The video pipe has the Worker of the last
    viewfinder node in front of them, the still pipe the Worker of the
    last postview node, and the still pipe stays empty without a postview
    node.  Raw nodes give no Worker, and the Input-Worker is in front of
    the video pipe's [deviceWorkers] only. *)
Theorem createProcessingTasks_pipes (env : Env) (graphConfig : bool) (s s' : ImguUnit) :
  createProcessingTasks env graphConfig s = Some (OK, s') ->
  let depth := default 1 (pipelineMaxDepth env) in
  let common := commonPipe s' depth in
  let vf := lastWorkerFor IMGU_NODE_VF_PREVIEW s' depth in
  let pv := lastWorkerFor IMGU_NODE_PV_PREVIEW s' depth in
  pollableWorkers (mPipeConfigs_video s') = pollableWorkers (withFront vf common)
  /\ nodes (mPipeConfigs_video s') = nodes (withFront vf common)
  /\ deviceWorkers (mPipeConfigs_video s')
     = inputWorkerOf s' depth ++ deviceWorkers (withFront vf common)
  /\ mPipeConfigs_still s'
     = match pv with
       | Some w => pushFront w common
       | None => PipeConfiguration_empty
       end.
Proof.
  unfold createProcessingTasks, call.
  destruct graphConfig; simpl; [|intros [= ?]; discriminate].
  repeat match goal with
         | |- context [if negb (isOK ?c) then _ else _] =>
           let E := fresh "E" in destruct (isOK c) eqn:E; simpl
         | |- context [if ?c then _ else _] => destruct c eqn:?
         end;
    try (intros [= E' _];
         first [discriminate E' | simpl in *; rewrite E' in *; discriminate]).
  all: match goal with
       | |- context [mapStreamWithDeviceNode ?s0] =>
         assert (H0 : (mPipeConfigs_video s0, mPipeConfigs_still s0)
                      = (PipeConfiguration_empty, PipeConfiguration_empty))
           by reflexivity;
         pose proof (frame_mapStreamWithDeviceNode
                       (fun s => (mPipeConfigs_video s, mPipeConfigs_still s))
                       ltac:(intros; reflexivity) ltac:(intros; reflexivity) s0) as Hm;
         destruct (mapStreamWithDeviceNode s0) as [st s1];
         cbv beta in Hm; cbn [snd] in Hm; rewrite H0 in Hm; clear H0
       end.
  all: destruct (isOK st); simpl; [|intros [= ?]; discriminate].
  all: injection Hm as Hmv Hms.
  all: match goal with
       | |- context [createWorkers ?l ?d ?a ?b ?s0] =>
         pose proof (frame_createWorkers
                       (fun s => (mPipeConfigs_still s, mActiveStreams s,
                                  mConfiguredNodesPerName s))
                       (fun _ => false)
                       ltac:(intros; reflexivity) ltac:(intros; reflexivity)
                       ltac:(intros; reflexivity) ltac:(intros; reflexivity)
                       ltac:(intros; reflexivity) l d a b s0) as Hw;
         pose proof (createWorkers_pipes l d a b s0) as Hv;
         pose proof (createWorkers_failure l d a b s0) as Hf;
         destruct (createWorkers l d a b s0) as [r0|[[vf pv] s2]]; simpl in Hw
       end;
    [intros [= ->]; specialize (Hf _ eq_refl); discriminate Hf|clear Hf].
  all: injection Hw as Hws Hwa Hwn.
  all: destruct (Hv vf pv s2 eq_refl) as (D & P & N & V & Q & C & M); clear Hv.
  all: set (depth := default 1 (pipelineMaxDepth env)) in *.
  all: destruct (pipes_tail vf pv depth s2) as (TP & TN & TD & TS & TC & TA & TNn & TM).
  all: set (s3 := addInputWorker depth (addViewfinder vf pv (addPostview pv s2))) in *;
    clearbody s3.
  all: destruct (mCurPipeConfig s3) as [cur|]; simpl; [|discriminate].
  all: match goal with
       | |- context [configureWorkers ?e ?ws ?s0] =>
         assert (Hcw : pipesOf (configureWorkers e ws s0).2 = pipesOf s0)
           by (apply (frame_configureWorkers pipesOf (fun _ => false));
               intros; reflexivity);
         destruct (configureWorkers e ws s0) as [ret s4]; cbn [snd] in Hcw
       end.
  all: destruct (isOK ret) eqn:Er; simpl;
    [intros [= <-] | intros [= E' _]; rewrite E' in Er; discriminate Er].
  all: assert (Hal : pipesOf (attachListeners s4) = pipesOf s3)
    by (rewrite <- Hcw; apply (frame_attachListeners pipesOf (fun _ => false));
        intros; reflexivity).
  all: unfold pipesOf in Hal; injection Hal as FV FS FC FA FN FM.
  all: assert (HW : forall it, outputWorkerFor (attachListeners s4) depth it
                               = outputWorkerFor s1 depth it)
    by (intros it; apply outputWorkerFor_ext;
        [rewrite FC, TC; exact C | intros n; rewrite FM, TM; apply M]).
  all: unfold commonPipe, lastWorkerFor, inputWorkerOf.
  all: rewrite FV, FS, FC, FA, FN, TNn, Hwn, (fmap_ext_all _ _ _ HW).
  all: rewrite TP, TN, TD, TS, TA, TC, Hws, Hms.
  all: unfold inputWorkerOf.
  all: rewrite V, Q, !orLast_None.
  all: rewrite Hmv in D, P, N; cbn [PipeConfiguration_empty deviceWorkers
                                    pollableWorkers nodes app] in D, P, N.
  all: destruct (mPipeConfigs_video s2) as [dw pw nd];
    cbn [deviceWorkers pollableWorkers nodes] in D, P, N; subst dw pw nd.
  all: repeat match goal with
              | |- context [last ?l] => destruct (last l)
              end.
  all: cbn [fmap option_fmap option_map]; rewrite ?HW; repeat split.
Qed.

Lemma createProcessingTasks_pipes_witness :
  exists s',
    createProcessingTasks envThreeNodes true (withStreams [] [yuv1080; yuv1000])
    = Some (OK, s')
    /\ getNode <$> pollableWorkers (mPipeConfigs_video s') = [Some 11%N; Some 10%N]
    /\ nodes (mPipeConfigs_still s') = [Some 12%N; Some 10%N].
Proof.
  destruct (createProcessingTasks envThreeNodes true (withStreams [] [yuv1080; yuv1000]))
    as [[st s']|] eqn:E; [|vm_compute in E; discriminate E].
  assert (Hst : st = OK).
  { apply (f_equal (fun r => fst <$> r)) in E. vm_compute in E.
    injection E as E. symmetry. exact E. }
  subst st. exists s'. split; [reflexivity|].
  destruct (createProcessingTasks_pipes envThreeNodes true
              (withStreams [] [yuv1080; yuv1000]) s' E) as (P & _ & _ & S).
  assert (Hs : Some s' = snd <$> createProcessingTasks envThreeNodes true
                                   (withStreams [] [yuv1080; yuv1000]))
    by (rewrite E; reflexivity).
  injection Hs as Hs.
  rewrite P, S. rewrite Hs. vm_compute. split; reflexivity.
Defined.

(** *** Admission of a request without input buffers *)

Lemma prepareWorkers_all (env : Env) (ws : list Worker) (r : Camera3Request)
    (status : status_t) (s : ImguUnit) :
  getInputBuffers r = [] ->
  exists status',
    prepareWorkers env ws r status s
    = (false, status', set_trace (trace s ++ ((fun w => EvPrepareRun w r) <$> ws)) s).
Proof.
  intros Hin. revert status s. induction ws as [|w ws IH]; intros status s.
  - exists status. simpl. rewrite app_nil_r, set_trace_same. reflexivity.
  - cbn [prepareWorkers]. rewrite Hin. cbn [length Nat.ltb Nat.leb].
    rewrite andb_false_r. cbn [call].
    destruct (IH (status_or status (status_of env (trace s) (EvPrepareRun w r)))
                 (emit (EvPrepareRun w r) s)) as (st' & E).
    exists st'. rewrite E. cbn [fmap list_fmap trace emit set_trace].
    rewrite <- app_assoc. reflexivity.
Qed.

Lemma collect_fold (env : Env) (cur : PipeConfigIndex) (r : Camera3Request)
    (ws : list Worker) :
  getInputBuffers r = [] ->
  forall (x : ImguUnit) (l : list Worker),
    mRequestToWorkMap x !! getId r = Some l ->
    let polled := filter (fun w => needPolling env (trace x) w = true) ws in
    let x' :=
      fold_left
        (fun s pollDevice =>
           if needPolling env (trace s) pollDevice then
             let s := if (length (getInputBuffers r) =? 0)%nat
                      then pushNode cur (getNode pollDevice) s else s in
             bindWorker (getId r) pollDevice s
           else s) ws x in
    trace x' = trace x
    /\ mMessagesUnderwork x' = mMessagesUnderwork x
    /\ mMessagesPending x' = mMessagesPending x
    /\ mCurPipeConfig x' = mCurPipeConfig x
    /\ mRequestToWorkMap x' = <[getId r := l ++ polled]> (mRequestToWorkMap x)
    /\ nodes (mPipeConfigs cur x') = nodes (mPipeConfigs cur x) ++ (getNode <$> polled).
Proof.
  intros Hin.
  assert (Hlen : (length (getInputBuffers r) =? 0)%nat = true)
    by (rewrite Hin; reflexivity).
  revert Hlen. generalize (length (getInputBuffers r) =? 0)%nat. intros b ->.
  clear Hin.
  induction ws as [|w ws IH]; intros x l Hl; cbn zeta.
  - cbn [fold_left]. rewrite filter_nil. cbn [fmap list_fmap].
    rewrite !app_nil_r, insert_id by exact Hl. repeat split.
  - cbn [fold_left]. rewrite filter_cons.
    destruct (needPolling env (trace x) w) eqn:E.
    + rewrite decide_True by reflexivity.
      match goal with
      | |- context [fold_left ?f ws ?y] =>
        assert (Hy : trace y = trace x /\ mMessagesUnderwork y = mMessagesUnderwork x
                     /\ mMessagesPending y = mMessagesPending x
                     /\ mCurPipeConfig y = mCurPipeConfig x
                     /\ mRequestToWorkMap y = <[getId r := l ++ [w]]> (mRequestToWorkMap x)
                     /\ nodes (mPipeConfigs cur y)
                        = nodes (mPipeConfigs cur x) ++ [getNode w])
          by (unfold bindWorker, pushNode; destruct cur; cbn; rewrite Hl;
              repeat split);
        destruct Hy as (T & U & P & C & M & N);
        destruct (IH y (l ++ [w])) as (T' & U' & P' & C' & M' & N');
          [rewrite M; apply lookup_insert_eq|]
      end.
      cbn zeta in *. rewrite T in *.
      rewrite T', U', P', C', M', N', ?T, ?U, ?P, ?C, ?M, ?N.
      rewrite insert_insert_eq, <- !app_assoc. repeat split.
    + rewrite decide_False by discriminate.
      apply (IH x l Hl).
Qed.

(** X5.  The admission of a request without input buffers, when no
    listening task is registered and the Workers are started: [prepareRun]
    is called on every Worker of the current pipe, in order; the pollable
    Workers that ask for polling are bound to the request and their nodes
    are the nodes to wait for; [setError] is called at most once, and the
    Poller is asked to wait for the request whenever there is a node,
    also after [setError]. *)
Theorem request_admission (env : Env) (s : ImguUnit) (cur : PipeConfigIndex)
    (msg : DeviceMessage) (r : Camera3Request) :
  cbMetadataMsg_request msg = Some r ->
  getInputBuffers r = [] ->
  mCurPipeConfig s = Some cur ->
  mMessagesPending s = [] ->
  mListeningTasks s = [] ->
  mFirstRequest s = false ->
  let t1 := trace s ++ ((fun w => EvPrepareRun w r) <$> deviceWorkers (mPipeConfigs cur s)) in
  let polled := filter (fun w => needPolling env t1 w = true)
                       (pollableWorkers (mPipeConfigs cur s)) in
  exists st s' err,
    handleMessageCompleteReq env msg s = Some (st, s')
    /\ mMessagesUnderwork s' = mMessagesUnderwork s ++ [msg]
    /\ mMessagesPending s' = []
    /\ mRequestToWorkMap s' = <[getId r := polled]> (mRequestToWorkMap s)
    /\ nodes (mPipeConfigs cur s') = getNode <$> polled
    /\ (err = [] \/ err = [EvSetError r])
    /\ trace s' = t1 ++ err
                  ++ (if polled is [] then []
                      else [EvPollRequest (getId r) 3000 (getNode <$> polled)]).
Proof.
  intros Hr Hin Hcur Hpend Htasks Hfirst t1 polled.
  unfold handleMessageCompleteReq. rewrite Hr.
  cbn [mCurPipeConfig set_mMessagesPending]. rewrite Hcur. cbn [mbind option_bind].
  unfold processNextRequest.
  cbn [mMessagesPending set_mMessagesPending clearNodes]. rewrite Hpend. cbn [app].
  assert (Hp0 : mMessagesPending (clearNodes cur (set_mMessagesPending [msg] s)) = [msg])
    by (destruct cur; reflexivity).
  rewrite Hp0. rewrite Hr.
  match goal with
  | |- context [passSettings env _ msg NO_ERROR ?x] => set (s0 := x)
  end.
  assert (H0 : mListeningTasks s0 = [] /\ mFirstRequest s0 = false
               /\ mCurPipeConfig s0 = Some cur).
  { subst s0. destruct cur; cbn; repeat split; assumption. }
  destruct H0 as (L0 & F0 & C0).
  rewrite L0. cbn [passSettings]. rewrite F0.
  unfold prepareRequest. rewrite C0. cbn [mbind option_bind].
  match goal with
  | |- context [prepareWorkers env ?ws r NO_ERROR ?x] =>
    assert (Hws : ws = deviceWorkers (mPipeConfigs cur s))
      by (subst s0; destruct cur; reflexivity);
    rewrite Hws;
    set (s1 := x);
    destruct (prepareWorkers_all env (deviceWorkers (mPipeConfigs cur s)) r NO_ERROR s1 Hin)
      as (st1 & E1)
  end.
  rewrite E1.
  assert (H1 : trace s1 = trace s
               /\ mMessagesUnderwork s1 = mMessagesUnderwork s ++ [msg]
               /\ mMessagesPending s1 = []
               /\ mCurPipeConfig s1 = Some cur
               /\ mRequestToWorkMap s1 = <[getId r := []]> (mRequestToWorkMap s)
               /\ nodes (mPipeConfigs cur s1) = []
               /\ pollableWorkers (mPipeConfigs cur s1) = pollableWorkers (mPipeConfigs cur s)).
  { subst s1 s0. destruct cur; cbn; repeat split; assumption. }
  destruct H1 as (T1 & U1 & P1 & C1 & M1 & N1 & W1). clearbody s1. clear s0 L0 F0 C0 Hws.
  unfold collectPollable.
  match goal with
  | |- context [fold_left ?f ?ws ?x] =>
    assert (Hws : ws = pollableWorkers (mPipeConfigs cur s))
      by (destruct cur; exact W1);
    rewrite Hws;
    destruct (collect_fold env cur r (pollableWorkers (mPipeConfigs cur s)) Hin x [])
      as (T2 & U2 & P2 & C2 & M2 & N2);
      [cbn [mRequestToWorkMap set_trace]; rewrite M1; apply lookup_insert_eq|];
    set (s2 := fold_left f (pollableWorkers (mPipeConfigs cur s)) x) in *
  end.
  cbn zeta in T2, U2, P2, C2, M2, N2.
  cbn [trace set_trace mMessagesUnderwork mMessagesPending mCurPipeConfig
       mRequestToWorkMap] in T2, U2, P2, C2, M2.
  assert (N2' : nodes (mPipeConfigs cur s2)
                = getNode <$> filter (fun w => needPolling env t1 w = true)
                                     (pollableWorkers (mPipeConfigs cur s))).
  { rewrite N2. cbn [trace set_trace].
    replace (nodes (mPipeConfigs cur (set_trace _ s1))) with (@nil (option V4L2VideoNode))
      by (destruct cur; symmetry; exact N1).
    rewrite T1. reflexivity. }
  rewrite T1 in M2, T2. fold t1 in M2, T2. fold polled in M2, N2'.
  rewrite M1, U1, P1, C1 in *. rewrite insert_insert_eq in M2. cbn [app] in M2.
  clearbody s2. clear N2 Hws.
  cbn [mbind option_bind].
  destruct (negb (isOK st1)) eqn:Est.
  - cbn [mCurPipeConfig emit set_trace]. rewrite C2. cbn [mbind option_bind].
    replace (nodes (mPipeConfigs cur (emit (EvSetError r) s2)))
      with (getNode <$> polled) by (destruct cur; symmetry; exact N2').
    destruct polled as [|p ps]; cbn [fmap list_fmap length Nat.ltb Nat.leb call];
      eexists _, _, [EvSetError r]; (split; [reflexivity|]);
      cbn [mMessagesUnderwork mMessagesPending mRequestToWorkMap emit set_trace trace];
      (split; [exact U2|]); (split; [exact P2|]); (split; [exact M2|]);
      (split; [destruct cur; exact N2'|]); (split; [right; reflexivity|]);
      rewrite ?T2, <- ?app_assoc; reflexivity.
  - rewrite C2. cbn [mbind option_bind]. rewrite N2'.
    destruct polled as [|p ps]; cbn [fmap list_fmap length Nat.ltb Nat.leb call];
      eexists _, _, []; (split; [reflexivity|]);
      cbn [mMessagesUnderwork mMessagesPending mRequestToWorkMap emit set_trace trace];
      (split; [exact U2|]); (split; [exact P2|]); (split; [exact M2|]);
      (split; [destruct cur; exact N2'|]); (split; [left; reflexivity|]);
      rewrite ?T2, ?app_nil_r; reflexivity.
Qed.

Lemma request_admission_witness :
  exists st s',
    handleMessageCompleteReq envOK (requestMsg (exampleRequest 6))
      (after envOK ([OpConfigStreams [yuv1080]] ++ submit 5)) = Some (st, s')
    /\ requestIds (mMessagesUnderwork s') = [5; 6]
    /\ mRequestToWorkMap s' !! 6 = Some [exampleOutputWorker]
    /\ nodes (mPipeConfigs PIPE_VIDEO_INDEX s') = [Some 10%N].
Proof.
  destruct (request_admission envOK
              (after envOK ([OpConfigStreams [yuv1080]] ++ submit 5))
              PIPE_VIDEO_INDEX (requestMsg (exampleRequest 6)) (exampleRequest 6))
    as (st & s' & err & E & U & _ & M & N & _); try (vm_compute; reflexivity).
  exists st, s'. split; [exact E|].
  split; [rewrite U; vm_compute; reflexivity|].
  split; [rewrite M; vm_compute; reflexivity|].
  rewrite N. vm_compute. reflexivity.
Defined.

(** *** A failing start *)

(** X6.  When the first Worker of the current pipe cannot be started for
    the first request after a configuration, the request is already in
    flight and stays there: [setError] is called on it, no Worker is
    prepared or bound, the Poller is not asked to wait for it, and the
    first-request flag stays set, so the next request starts the Workers
    again from the first one. *)
Theorem kickstart_failure_leaves_request_in_flight (env : Env) (msg : DeviceMessage)
    (r : Camera3Request) (s : ImguUnit) (cur : PipeConfigIndex)
    (w : Worker) (ws : list Worker) (err : status_t) :
  cbMetadataMsg_request msg = Some r ->
  mCurPipeConfig s = Some cur ->
  mMessagesPending s = [] ->
  mListeningTasks s = [] ->
  mFirstRequest s = true ->
  deviceWorkers (mPipeConfigs cur s) = w :: ws ->
  status_of env (trace s) (EvStartWorker w) = err ->
  err <> OK ->
  exists s',
    handleMessageCompleteReq env msg s = Some (err, s')
    /\ trace s' = trace s ++ [EvStartWorker w; EvSetError r]
    /\ mMessagesUnderwork s' = mMessagesUnderwork s ++ [msg]
    /\ mMessagesPending s' = []
    /\ mFirstRequest s' = true
    /\ mRequestToWorkMap s' = mRequestToWorkMap s
    /\ nodes (mPipeConfigs cur s') = [].
Proof.
  intros Hr Hcur Hpend Htasks Hfirst Hws Herr Hne.
  assert (Hnok : isOK err = false).
  { destruct (isOK err) eqn:E; [|reflexivity]. apply isOK_true in E. contradiction. }
  unfold handleMessageCompleteReq. rewrite Hr.
  cbn [mCurPipeConfig set_mMessagesPending]. rewrite Hcur. cbn [mbind option_bind].
  unfold processNextRequest.
  cbn [mMessagesPending set_mMessagesPending clearNodes]. rewrite Hpend. cbn [app].
  assert (Hp0 : mMessagesPending (clearNodes cur (set_mMessagesPending [msg] s)) = [msg])
    by (destruct cur; reflexivity).
  rewrite Hp0. rewrite Hr.
  match goal with
  | |- context [passSettings env ?t msg NO_ERROR ?x] =>
    set (s0 := x)
  end.
  assert (Ht : mListeningTasks s0 = []) by (subst s0; destruct cur; exact Htasks).
  rewrite Ht.
  cbn [passSettings].
  assert (H0 : mFirstRequest s0 = true /\ mCurPipeConfig s0 = Some cur
               /\ deviceWorkers (mPipeConfigs cur s0) = w :: ws
               /\ trace s0 = trace s
               /\ mMessagesUnderwork s0 = mMessagesUnderwork s ++ [msg]
               /\ mMessagesPending s0 = []
               /\ mRequestToWorkMap s0 = mRequestToWorkMap s
               /\ nodes (mPipeConfigs cur s0) = []).
  { subst s0. destruct cur; cbn; repeat split; assumption. }
  destruct H0 as (F0 & C0 & W0 & T0 & U0 & P0 & M0 & N0).
  clearbody s0.
  rewrite F0. unfold kickstart. rewrite C0. cbn [mbind option_bind]. rewrite W0.
  cbn [startWorkers call]. rewrite T0, Herr, Hnok. cbn [negb mbind option_bind].
  do 3 (rewrite ?Hnok; cbn [negb mbind option_bind]).
  cbn [mCurPipeConfig emit set_trace]. rewrite C0. cbn [mbind option_bind].
  assert (HN : forall e1 e2,
            nodes (mPipeConfigs cur (emit e1 (emit e2 s0))) = []).
  { intros e1 e2. destruct cur; exact N0. }
  rewrite HN. cbn [length Nat.ltb Nat.leb].
  eexists. split; [reflexivity|].
  cbn [trace emit set_trace mMessagesUnderwork mMessagesPending mFirstRequest
       mRequestToWorkMap].
  rewrite T0, <- app_assoc.
  split; [reflexivity|]. split; [exact U0|]. split; [exact P0|].
  split; [exact F0|]. split; [exact M0|]. apply HN.
Qed.

Lemma kickstart_failure_leaves_request_in_flight_witness :
  exists s',
    handleMessageCompleteReq envStartFails (requestMsg (exampleRequest 5))
      (configuredUnit envStartFails) = Some (UNKNOWN_ERROR, s')
    /\ pollRequests (trace s') = []
    /\ requestIds (mMessagesUnderwork s') = [5]
    /\ mFirstRequest s' = true.
Proof.
  destruct (kickstart_failure_leaves_request_in_flight envStartFails
              (requestMsg (exampleRequest 5)) (exampleRequest 5)
              (configuredUnit envStartFails) PIPE_VIDEO_INDEX exampleOutputWorker []
              UNKNOWN_ERROR)
    as (s' & E & T & U & _ & F & _); try (vm_compute; reflexivity).
  - discriminate.
  - exists s'. split; [exact E|]. split; [rewrite T; vm_compute; reflexivity|].
    split; [rewrite U; vm_compute; reflexivity|exact F].
Defined.

(** *** A request taken in after a flush *)

Lemma handleMessageFlush_cleared (env : Env) (s : ImguUnit) :
  (handleMessageFlush env s).1 = NO_ERROR ->
  exists s0,
    (handleMessageFlush env s).2 = clearWorkers s0
    /\ (mCurPipeConfig s0, mListeningTasks s0, mMessagesPending s0,
        mMessagesUnderwork s0, mRequestToWorkMap s0)
       = (mCurPipeConfig s, mListeningTasks s, mMessagesPending s,
          mMessagesUnderwork s, mRequestToWorkMap s).
Proof.
  unfold handleMessageFlush.
  set (P := fun x : ImguUnit =>
              (mCurPipeConfig x, mListeningTasks x, mMessagesPending x,
               mMessagesUnderwork x, mRequestToWorkMap x)).
  assert (Hstop : forall ws x, P (stopWorkers env ws x).2 = P x).
  { intros ws x. apply (frame_stopWorkers P (fun _ => false)); intros; reflexivity. }
  destruct (mCurPipeConfig (emit (EvPollerFlush true) s)) as [cur|].
  - specialize (Hstop (deviceWorkers (mPipeConfigs cur (emit (EvPollerFlush true) s)))
                      (emit (EvPollerFlush true) s)).
    destruct (stopWorkers env _ _) as [st s0]. simpl in Hstop.
    destruct (negb (isOK st)) eqn:E; simpl.
    + intros ->. discriminate E.
    + intros _. exists s0. split; [reflexivity|exact Hstop].
  - simpl. intros _. eexists. split; reflexivity.
Qed.

(** X7.  After a flush that stopped every Worker the pipes are empty but
    one of them is still current.  A request handled then is taken in with
    status [OK] and without a single call: no Worker is started or
    prepared, none is bound to it, the Poller is not asked to wait and
    [setError] is not called; the request is in flight, with nothing that
    would complete it. *)
Theorem request_after_flush_is_not_processed (env : Env) (s : ImguUnit)
    (cur : PipeConfigIndex) (msg : DeviceMessage) (r : Camera3Request) :
  mCurPipeConfig s = Some cur ->
  mListeningTasks s = [] ->
  mMessagesPending s = [] ->
  cbMetadataMsg_request msg = Some r ->
  (handleMessageFlush env s).1 = NO_ERROR ->
  exists s2,
    handleMessageCompleteReq env msg (handleMessageFlush env s).2 = Some (OK, s2)
    /\ trace s2 = trace (handleMessageFlush env s).2
    /\ mMessagesUnderwork s2 = mMessagesUnderwork s ++ [msg]
    /\ mMessagesPending s2 = []
    /\ mRequestToWorkMap s2 !! getId r = Some []
    /\ mFirstRequest s2 = false.
Proof.
  intros Hcur Htasks Hpend Hr Hflush.
  destruct (handleMessageFlush_cleared env s Hflush) as (s0 & -> & Hs0).
  injection Hs0 as C0 L0 P0 U0 M0. rewrite Hcur in C0. rewrite Htasks in L0.
  rewrite Hpend in P0.
  unfold handleMessageCompleteReq. rewrite Hr.
  assert (Hc1 : forall x, mCurPipeConfig (set_mMessagesPending x (clearWorkers s0))
                          = Some cur) by (intros x; exact C0).
  rewrite Hc1. cbn [mbind option_bind]. unfold processNextRequest.
  assert (Hp1 : mMessagesPending
                  (clearNodes cur
                     (set_mMessagesPending (mMessagesPending (clearWorkers s0) ++ [msg])
                        (clearWorkers s0))) = [msg]).
  { destruct cur; cbn; rewrite P0; reflexivity. }
  rewrite Hp1, Hr.
  match goal with
  | |- context [passSettings env _ msg NO_ERROR ?x] => set (s1 := x)
  end.
  assert (H1 : mListeningTasks s1 = [] /\ mCurPipeConfig s1 = Some cur
               /\ mPipeConfigs cur s1 = PipeConfiguration_empty
               /\ mMessagesUnderwork s1 = mMessagesUnderwork s ++ [msg]
               /\ mMessagesPending s1 = []
               /\ trace s1 = trace (clearWorkers s0)).
  { subst s1. destruct cur; cbn; rewrite ?U0; repeat split; assumption. }
  destruct H1 as (L1 & C1 & E1 & U1 & P1 & T1). clearbody s1.
  rewrite L1. cbn [passSettings].
  assert (Hprep : forall x,
            mCurPipeConfig x = Some cur ->
            mPipeConfigs cur x = PipeConfiguration_empty ->
            exists s2,
              prepareRequest env r NO_ERROR x = Some (NO_ERROR, s2)
              /\ trace s2 = trace x
              /\ mMessagesUnderwork s2 = mMessagesUnderwork x
              /\ mMessagesPending s2 = mMessagesPending x
              /\ mRequestToWorkMap s2 !! getId r = Some []
              /\ mFirstRequest s2 = mFirstRequest x
              /\ mCurPipeConfig s2 = Some cur
              /\ nodes (mPipeConfigs cur s2) = []).
  { intros x Cx Ex. unfold prepareRequest. rewrite Cx. cbn [mbind option_bind].
    assert (Ex' : mPipeConfigs cur
                    (set_mRequestToWorkMap (<[getId r:=[]]> (mRequestToWorkMap (clearNodes cur x)))
                       (clearNodes cur x)) = PipeConfiguration_empty).
    { destruct cur; cbn in *; rewrite Ex; reflexivity. }
    rewrite Ex'. cbn [deviceWorkers PipeConfiguration_empty prepareWorkers].
    unfold collectPollable. rewrite Ex'.
    cbn [pollableWorkers PipeConfiguration_empty fold_left].
    eexists. split; [reflexivity|].
    destruct cur; cbn in *; rewrite ?lookup_insert_eq, ?Ex; repeat split;
      try reflexivity; assumption. }
  destruct (mFirstRequest s1) eqn:F1.
  - unfold kickstart. rewrite C1. cbn [mbind option_bind]. rewrite E1.
    cbn [deviceWorkers PipeConfiguration_empty startWorkers].
    change (negb (isOK OK)) with false. cbv iota. cbn [mbind option_bind].
    change (negb (isOK OK)) with false. cbv iota.
    destruct (Hprep (set_mFirstRequest false s1))
      as (s2 & E2 & T2 & U2 & P2 & M2 & F2 & C2 & N2).
    { exact C1. } { destruct cur; exact E1. }
    change OK with NO_ERROR at 1. rewrite E2. cbn [mbind option_bind].
    change (negb (isOK NO_ERROR)) with false. cbv iota.
    rewrite C2. cbn [mbind option_bind]. rewrite N2. cbn [length Nat.ltb Nat.leb].
    exists s2. split; [reflexivity|]. rewrite T2, U2, P2, F2.
    cbn [trace mMessagesUnderwork mMessagesPending mFirstRequest set_mFirstRequest].
    repeat split; assumption.
  - destruct (Hprep s1 C1 E1) as (s2 & E2 & T2 & U2 & P2 & M2 & F2 & C2 & N2).
    rewrite E2. cbn [mbind option_bind].
    change (negb (isOK NO_ERROR)) with false. cbv iota.
    rewrite C2. cbn [mbind option_bind]. rewrite N2. cbn [length Nat.ltb Nat.leb].
    exists s2. split; [reflexivity|]. rewrite T2, U2, P2, F2.
    repeat split; assumption.
Qed.

Lemma request_after_flush_is_not_processed_witness :
  exists s2,
    handleMessageCompleteReq envOK (requestMsg (exampleRequest 8))
      (handleMessageFlush envOK (configuredUnit envOK)).2 = Some (OK, s2)
    /\ preparedWorkers (trace s2) = [] /\ pollRequests (trace s2) = []
    /\ requestIds (mMessagesUnderwork s2) = [8].
Proof.
  destruct (request_after_flush_is_not_processed envOK (configuredUnit envOK)
              PIPE_VIDEO_INDEX (requestMsg (exampleRequest 8)) (exampleRequest 8))
    as (s2 & E & T & U & _); try (vm_compute; reflexivity).
  exists s2. split; [exact E|]. rewrite T, U. vm_compute. repeat split.
Defined.

(** *** Errors within a completion batch *)










(** *** The control thread and the EXIT message *)

Lemma dispatch_keeps_running (env : Env) (msg : DeviceMessage) (s : ImguUnit)
    (r : status_t * ImguUnit) :
  msg_id msg <> MESSAGE_ID_EXIT ->
  dispatch env msg s = Some r -> mThreadRunning r.2 = mThreadRunning s.
Proof.
  intros Hne. unfold dispatch, handleMessagePoll.
  destruct (msg_id msg); try contradiction.
  - apply (loop_handleMessageCompleteReq mThreadRunning); intros; reflexivity.
  - apply (loop_startProcessing mThreadRunning); intros; reflexivity.
  - apply (loop_startProcessing mThreadRunning); intros; reflexivity.
  - intros [= <-].
    apply (frame_handleMessageFlush mThreadRunning (fun _ => false)); intros; reflexivity.
  - intros [= <-]. reflexivity.
Qed.

Lemma messageThreadLoop_exit (env : Env) (s : ImguUnit) (m : DeviceMessage)
    (q : list DeviceMessage) :
  mMessageQueue s = m :: q ->
  msg_id m = MESSAGE_ID_EXIT ->
  messageThreadLoop env s = Some (set_mThreadRunning false (set_mMessageQueue q s)).
Proof.
  intros Hq Hm. unfold messageThreadLoop. rewrite Hq. unfold dispatch. rewrite Hm.
  reflexivity.
Qed.

Lemma threadTurns_stopped (env : Env) (fuel : nat) (s : ImguUnit) :
  mThreadRunning s = false -> threadTurns env fuel s = Some s.
Proof. intros H. destruct fuel; simpl; [reflexivity|]. rewrite H. reflexivity. Qed.

Lemma threadTurns_stops_by_exit (env : Env) (fuel : nat) (s s' : ImguUnit) :
  mThreadRunning s = true ->
  threadTurns env fuel s = Some s' ->
  mThreadRunning s' = false ->
  exists k s1 m q,
    (k < fuel)%nat
    /\ run env (replicate k OpLoop) s = Some s1
    /\ mMessageQueue s1 = m :: q
    /\ msg_id m = MESSAGE_ID_EXIT
    /\ s' = set_mThreadRunning false (set_mMessageQueue q s1).
Proof.
  revert s. induction fuel as [|fuel IH]; intros s Hrun H Hstop.
  - simpl in H. injection H as <-. congruence.
  - cbn [threadTurns] in H. rewrite Hrun in H.
    destruct (mMessageQueue s) as [|m q] eqn:Hq.
    { injection H as <-. congruence. }
    destruct (messageThreadLoop env s) as [s1|] eqn:E; [|discriminate H].
    cbn [mbind option_bind] in H.
    destruct (decide (msg_id m = MESSAGE_ID_EXIT)) as [Hm|Hm].
    + rewrite (messageThreadLoop_exit env s m q Hq Hm) in E. injection E as <-.
      rewrite threadTurns_stopped in H by reflexivity. injection H as <-.
      exists O, s, m, q. split; [lia|]. split; [reflexivity|].
      split; [exact Hq|]. split; [exact Hm|reflexivity].
    + assert (Hrun1 : mThreadRunning s1 = true).
      { unfold messageThreadLoop in E. rewrite Hq in E.
        destruct (dispatch env m (set_mMessageQueue q s)) as [[st x]|] eqn:D;
          [|discriminate E].
        injection E as <-.
        apply (dispatch_keeps_running env m _ _ Hm) in D. simpl in D.
        rewrite D. exact Hrun. }
      destruct (IH s1 Hrun1 H Hstop) as (k & s2 & m' & q' & Hk & R & Q & M & ->).
      exists (S k), s2, m', q'. split; [lia|]. split.
      * cbn [replicate run exec]. rewrite E. exact R.
      * split; [exact Q|]. split; [exact M|reflexivity].
Qed.

(** X9.  The control thread stops only by handling an EXIT message, and
    it handles nothing after it: the messages queued behind EXIT stay in
    the queue.  With the EXIT message at the head of the queue the thread
    stops at once, whatever is queued behind. *)
Theorem messageThread_stops_at_exit (env : Env) (fuel : nat) (s : ImguUnit) :
  (forall m q,
     mMessageQueue s = m :: q -> msg_id m = MESSAGE_ID_EXIT ->
     messageThread env (S fuel) s
     = Some (set_mThreadRunning false (set_mMessageQueue q s)))
  /\ (forall s',
        messageThread env fuel s = Some s' ->
        mThreadRunning s' = false ->
        exists k s1 m q,
          (k < fuel)%nat
          /\ run env (replicate k OpLoop) (set_mThreadRunning true s) = Some s1
          /\ mMessageQueue s1 = m :: q
          /\ msg_id m = MESSAGE_ID_EXIT
          /\ s' = set_mThreadRunning false (set_mMessageQueue q s1)).
Proof.
  split.
  - intros m q Hq Hm. unfold messageThread. cbn [threadTurns mThreadRunning
      set_mThreadRunning mMessageQueue]. rewrite Hq.
    rewrite (messageThreadLoop_exit env (set_mThreadRunning true s) m q Hq Hm).
    cbn [mbind option_bind]. rewrite threadTurns_stopped by reflexivity. reflexivity.
  - intros s' H Hstop.
    apply (threadTurns_stops_by_exit env fuel (set_mThreadRunning true s) s');
      [reflexivity|exact H|exact Hstop].
Qed.

Lemma messageThread_stops_at_exit_witness :
  exists s',
    messageThread envOK 5
      (send (requestMsg (exampleRequest 6))
         (send exitMsg (send (requestMsg (exampleRequest 5)) (configuredUnit envOK))))
    = Some s'
    /\ mThreadRunning s' = false
    /\ mMessageQueue s' = [requestMsg (exampleRequest 6)]
    /\ preparedWorkers (trace s') = [exampleOutputWorker].
Proof.
  destruct (messageThread envOK 5
              (send (requestMsg (exampleRequest 6))
                 (send exitMsg (send (requestMsg (exampleRequest 5))
                                     (configuredUnit envOK))))) as [s'|] eqn:E;
    [|vm_compute in E; discriminate].
  assert (Hstop : mThreadRunning s' = false)
    by (vm_compute in E; injection E as <-; reflexivity).
  destruct (proj2 (messageThread_stops_at_exit envOK 5 _) s' E Hstop)
    as (k & s1 & m & q & _ & _ & _ & _ & _).
  exists s'. split; [reflexivity|]. split; [exact Hstop|].
  vm_compute in E. injection E as <-. vm_compute. split; reflexivity.
Defined.

(** *** The Link Configurator *)

Import MediaCtl.

Lemma spec_weaken {A} (m : M A) (G G' : A -> MediaCtlHelper -> MediaCtlHelper -> Prop)
    (R R' : status_t -> MediaCtlHelper -> MediaCtlHelper -> Prop) :
  spec m G R ->
  (forall a s s', G a s s' -> G' a s s') ->
  (forall st s s', R st s s' -> R' st s s') ->
  spec m G' R'.
Proof.
  intros Hm HG HR s. specialize (Hm s). destruct (m s); auto.
Qed.

Lemma spec_bind {A B} (m : M A) (k : A -> M B) G1 R1 G2 R2 :
  spec m G1 R1 ->
  (forall a, spec (k a) (G2 a) (R2 a)) ->
  spec (bind m k)
    (fun b s s2 => exists a s1, G1 a s s1 /\ G2 a b s1 s2)
    (fun st s s2 => R1 st s s2 \/ exists a s1, G1 a s s1 /\ R2 a st s1 s2).
Proof.
  intros Hm Hk s. unfold bind. specialize (Hm s).
  destruct (m s) as [st s1|a s1|]; [left; exact Hm| |exact I].
  specialize (Hk a s1). destruct (k a s1) as [st s2|b s2|]; [right| |exact I]; eauto.
Qed.

Section Keeps.

Context (Rel : MediaCtlHelper -> MediaCtlHelper -> Prop).
Hypothesis Rel_refl : forall s, Rel s s.
Hypothesis Rel_trans : forall a b c, Rel a b -> Rel b c -> Rel a c.

Lemma keeps_bind {A B} (m : M A) (k : A -> M B) :
  keeps Rel m -> (forall a, keeps Rel (k a)) -> keeps Rel (bind m k).
Proof.
  intros Hm Hk. eapply spec_weaken; [apply (spec_bind _ _ _ _ _ _ Hm Hk)| |].
  - intros _ s s' (a & s1 & H1 & H2). eauto.
  - intros _ s s' [H|(a & s1 & H1 & H2)]; eauto.
Qed.

Lemma keeps_ret {A} (a : A) : keeps Rel (ret a).
Proof. intros s. apply Rel_refl. Qed.

Lemma keeps_returns {A} (st : status_t) : keeps Rel (@returns A st).
Proof. intros s. apply Rel_refl. Qed.

Lemma keeps_gets {A} (f : MediaCtlHelper -> A) : keeps Rel (gets f).
Proof. intros s. apply Rel_refl. Qed.

Lemma keeps_deref {A} (p : option A) : keeps Rel (deref p).
Proof. intros s. unfold deref. destruct p; [apply Rel_refl|exact I]. Qed.

Lemma keeps_check (st : status_t) : keeps Rel (check st).
Proof. unfold check. destruct (negb _); [apply keeps_returns|apply keeps_ret]. Qed.

Lemma keeps_modify (f : MediaCtlHelper -> MediaCtlHelper) :
  (forall s, Rel s (f s)) -> keeps Rel (modify f).
Proof. intros H s. apply H. Qed.

Lemma keeps_callee (f : MediaCtlHelper -> option (status_t * MediaCtlHelper)) :
  (forall s st s', f s = Some (st, s') -> Rel s s') -> keeps Rel (callee f).
Proof.
  intros H s. unfold callee. destruct (f s) as [[st s']|] eqn:E; [|exact I].
  apply (H _ _ _ E).
Qed.

Lemma keeps_runM (m : M status_t) (s : MediaCtlHelper) st s' :
  keeps Rel m -> runM m s = Some (st, s') -> Rel s s'.
Proof.
  intros H. unfold runM. specialize (H s).
  destruct (m s); intros [= <- <-]; exact H.
Qed.

(** The member functions, for a relation that every call but [close] and
    every assignment to the node containers and to the pixel format
    respects. *)

Hypothesis Rel_quiet :
  forall e s, programmed e = None -> isClose e = false -> Rel s (emit e s).
Hypothesis Rel_programmed :
  forall e s, programmed e <> None -> Rel s (emit e s).
Hypothesis Rel_nodes : forall v s, Rel s (set_mConfiguredNodes v s).
Hypothesis Rel_perName : forall v s, Rel s (set_mConfiguredNodesPerName v s).
Hypothesis Rel_pixel : forall v s, Rel s (set_mConfigResults_pixelFormat v s).

Variable env : Env.

Lemma keeps_call_quiet (e : Event) :
  programmed e = None -> isClose e = false -> keeps Rel (call env e).
Proof. intros H1 H2 s. apply Rel_quiet; assumption. Qed.

Lemma keeps_call_programmed (e : Event) :
  programmed e <> None -> keeps Rel (call env e).
Proof. intros H s. apply Rel_programmed, H. Qed.

Lemma keeps_getMediaEntity (n : string) : keeps Rel (getMediaEntity env n).
Proof. intros s. apply Rel_quiet; reflexivity. Qed.

Lemma keeps_getDevice (e : MediaEntity) : keeps Rel (getDevice env e).
Proof. intros s. apply Rel_quiet; reflexivity. Qed.

Local Ltac keeps_step :=
  first
    [ apply keeps_bind; [|intros ?]
    | apply keeps_ret | apply keeps_returns | apply keeps_gets
    | apply keeps_deref | apply keeps_check
    | apply keeps_getMediaEntity | apply keeps_getDevice
    | apply keeps_call_quiet; reflexivity
    | apply keeps_call_programmed; discriminate
    | apply keeps_modify; intros ?;
      first [apply Rel_nodes | apply Rel_perName | apply Rel_pixel]
    | match goal with
      | |- keeps _ (match ?x with _ => _ end) => destruct x
      | |- keeps _ (if ?x then _ else _) => destruct x
      end ].

Lemma keeps_disableLinks links st : keeps Rel (disableLinks env links st).
Proof.
  revert st. induction links as [|l links IH]; intros st; simpl; [apply keeps_ret|].
  repeat keeps_step. apply IH.
Qed.

Lemma keeps_configureLinks links st : keeps Rel (configureLinks env links st).
Proof.
  revert st. induction links as [|l links IH]; intros st; simpl; [apply keeps_ret|].
  repeat keeps_step. apply IH.
Qed.

Lemma keeps_resetFormats l st : keeps Rel (resetFormats env l st).
Proof.
  revert st. induction l as [|f l IH]; intros st; simpl; [apply keeps_ret|].
  repeat keeps_step. apply IH.
Qed.

Lemma keeps_setHflip l st : keeps Rel (setHflip env l st).
Proof.
  revert st. induction l as [|c l IH]; intros st; simpl; [apply keeps_ret|].
  destruct (controlId c =? V4L2_CID_HFLIP); [|apply IH].
  unfold setControl. repeat keeps_step.
Qed.

Lemma keeps_setControls l st : keeps Rel (setControls env l st).
Proof.
  revert st. induction l as [|c l IH]; intros st; simpl; [apply keeps_ret|].
  destruct (negb _); [|apply IH].
  unfold setControl. repeat keeps_step. apply IH.
Qed.

Lemma keeps_setFormats l st : keeps Rel (setFormats env l st).
Proof.
  revert st. induction l as [|f l IH]; intros st; simpl; [apply keeps_ret|].
  repeat keeps_step; apply IH.
Qed.

Lemma keeps_setSelections l st : keeps Rel (setSelections env l st).
Proof.
  revert st. induction l as [|f l IH]; intros st; simpl; [apply keeps_ret|].
  destruct (negb _); [apply IH|].
  repeat keeps_step. apply IH.
Qed.

Lemma keeps_setVideoSelections l st : keeps Rel (setVideoSelections env l st).
Proof.
  revert st. induction l as [|f l IH]; intros st; simpl; [apply keeps_ret|].
  repeat keeps_step. apply IH.
Qed.

Lemma keeps_openVideoNode name k s st s' :
  openVideoNode env name k s = Some (st, s') -> Rel s s'.
Proof.
  apply keeps_runM. destruct name as [n|]; [|apply keeps_ret].
  repeat keeps_step.
Qed.

Lemma keeps_openNodes l st : keeps Rel (openNodes env l st).
Proof.
  revert st. induction l as [|f l IH]; intros st; simpl; [apply keeps_ret|].
  apply keeps_bind; [apply keeps_callee; apply keeps_openVideoNode|intros ?].
  repeat keeps_step. apply IH.
Qed.

Lemma keeps_openVideoNodes s st s' :
  openVideoNodes env s = Some (st, s') -> Rel s s'.
Proof.
  apply keeps_runM. repeat keeps_step. apply keeps_openNodes.
Qed.

Lemma keeps_programDevice config : keeps Rel (programDevice env config).
Proof.
  unfold programDevice.
  repeat first
    [ apply keeps_configureLinks | apply keeps_setHflip | apply keeps_setFormats
    | apply keeps_setSelections | apply keeps_setVideoSelections
    | apply keeps_setControls
    | apply keeps_callee; apply keeps_openVideoNodes
    | keeps_step ].
Qed.

(** [programDevice] starts with a call: the object it leaves is related to
    the one that call made. *)
Lemma keeps_programDevice_tail config :
  spec (programDevice env config)
    (fun _ s s' => Rel (emit EvGetMediaDevInfo s) s')
    (fun _ s s' => Rel (emit EvGetMediaDevInfo s) s').
Proof.
  unfold programDevice.
  eapply spec_weaken;
    [apply (spec_bind _ _ (fun _ s s1 => s1 = emit EvGetMediaDevInfo s)
                          (fun _ _ _ => False) (fun _ _ => Rel) (fun _ _ => Rel))| |].
  - intros s. reflexivity.
  - intros st0.
    repeat first
      [ apply keeps_configureLinks | apply keeps_setHflip | apply keeps_setFormats
      | apply keeps_setSelections | apply keeps_setVideoSelections
      | apply keeps_setControls
      | apply keeps_callee; apply keeps_openVideoNodes
      | keeps_step ].
  - intros _ s s' (a & s1 & -> & H). exact H.
  - intros _ s s' [[]|(a & s1 & -> & H)]. exact H.
Qed.

End Keeps.

(** **** What a computation programs *)

Lemma programs_bind {A B} (m : M A) (k : A -> M B) (P1 P2 : list Programmed) :
  programs m P1 -> (forall a, programs (k a) P2) -> programs (bind m k) (P1 ++ P2).
Proof.
  intros Hm Hk. eapply spec_weaken; [apply (spec_bind _ _ _ _ _ _ Hm Hk)| |].
  - intros _ s s2 (a & s1 & (e1 & T1 & O1) & (e2 & T2 & O2)).
    exists (e1 ++ e2). split.
    + rewrite T2, T1, app_assoc. reflexivity.
    + rewrite omap_app, O1, O2. reflexivity.
  - intros st s s2 [(Hst & e1 & T1 & O1)|(a & s1 & (e1 & T1 & O1) & (Hst & e2 & T2 & O2))].
    + split; [exact Hst|]. exists e1. split; [exact T1|].
      apply prefix_app_r, O1.
    + split; [exact Hst|]. exists (e1 ++ e2). split.
      * rewrite T2, T1, app_assoc. reflexivity.
      * rewrite omap_app, O1. apply prefix_app, O2.
Qed.

Lemma programs_silent {A} (m : M A) :
  keeps (adds (fun e => programmed e = None)) m ->
  (forall s st s', m s <> Returned st s') ->
  programs m [].
Proof.
  intros Hk Hr s. specialize (Hk s). specialize (Hr s).
  destruct (m s) as [st s'|a s'|]; [exfalso; eapply Hr; reflexivity| |exact I].
  destruct Hk as (evs & T & F). exists evs. split; [exact T|].
  clear T. induction F as [|e evs He _ IH]; [reflexivity|].
  simpl. rewrite He. exact IH.
Qed.

Lemma adds_refl (P : Event -> Prop) (s : MediaCtlHelper) : adds P s s.
Proof. exists []. split; [symmetry; apply app_nil_r|constructor]. Qed.

Lemma adds_trans (P : Event -> Prop) (a b c : MediaCtlHelper) :
  adds P a b -> adds P b c -> adds P a c.
Proof.
  intros (e1 & T1 & F1) (e2 & T2 & F2). exists (e1 ++ e2). split.
  - rewrite T2, T1, app_assoc. reflexivity.
  - apply Forall_app; split; assumption.
Qed.

Lemma adds_emit (P : Event -> Prop) (e : Event) (s : MediaCtlHelper) :
  P e -> adds P s (emit e s).
Proof. intros H. exists [e]. split; [reflexivity|]. constructor; [exact H|constructor]. Qed.

Lemma adds_same_trace (P : Event -> Prop) (s s' : MediaCtlHelper) :
  trace s' = trace s -> adds P s s'.
Proof. intros H. exists []. split; [rewrite H; symmetry; apply app_nil_r|constructor]. Qed.

Lemma programs_ret {A} (a : A) : programs (ret a) [].
Proof. intros s. exists []. split; [symmetry; apply app_nil_r|reflexivity]. Qed.

Lemma programs_gets {A} (f : MediaCtlHelper -> A) : programs (gets f) [].
Proof. intros s. exists []. split; [symmetry; apply app_nil_r|reflexivity]. Qed.

Lemma programs_deref {A} (p : option A) : programs (deref p) [].
Proof.
  intros s. unfold deref. destruct p; [|exact I].
  exists []. split; [symmetry; apply app_nil_r|reflexivity].
Qed.

Lemma programs_modify (f : MediaCtlHelper -> MediaCtlHelper) :
  (forall s, trace (f s) = trace s) -> programs (modify f) [].
Proof.
  intros H s. exists []. split; [rewrite H; symmetry; apply app_nil_r|reflexivity].
Qed.

Lemma programs_returns {A} (st : status_t) (P : list Programmed) :
  st <> NO_ERROR -> programs (@returns A st) P.
Proof.
  intros H s. split; [exact H|]. exists []. split; [symmetry; apply app_nil_r|].
  apply prefix_nil.
Qed.

Lemma programs_check (st : status_t) : programs (check st) [].
Proof.
  unfold check. destruct (Z.eqb_spec st NO_ERROR) as [E|E]; simpl.
  - apply programs_ret.
  - apply programs_returns, E.
Qed.

Lemma programs_call (env : Env) (e : Event) :
  programs (call env e) (omap programmed [e]).
Proof. intros s. exists [e]. split; reflexivity. Qed.

Lemma programs_getMediaEntity (env : Env) (n : string) :
  programs (getMediaEntity env n) [].
Proof. intros s. exists [EvGetMediaEntity n]. split; reflexivity. Qed.

Lemma programs_getDevice (env : Env) (e : MediaEntity) :
  programs (getDevice env e) [].
Proof. intros s. exists [EvGetDevice e]. split; reflexivity. Qed.

Lemma programs_openVideoNodes (env : Env) : programs (callee (openVideoNodes env)) [].
Proof.
  apply programs_silent.
  - apply keeps_callee. intros s st s' H.
    apply (keeps_openVideoNodes (adds (fun e => programmed e = None))
             (adds_refl _) (adds_trans _)) with (env := env) (st := st);
      [| | |exact H].
    + intros e s0 He _. apply adds_emit, He.
    + intros v s0. apply adds_same_trace. reflexivity.
    + intros v s0. apply adds_same_trace. reflexivity.
  - intros s st s'. unfold callee. destruct (openVideoNodes env s) as [[? ?]|]; discriminate.
Qed.

(** [P1 ++ P2] with an empty side. *)
Lemma programs_bind_l {A B} (m : M A) (k : A -> M B) (P : list Programmed) :
  programs m P -> (forall a, programs (k a) []) -> programs (bind m k) P.
Proof. intros Hm Hk. rewrite <- (app_nil_r P). apply programs_bind; assumption. Qed.

Lemma programs_bind_r {A B} (m : M A) (k : A -> M B) (P : list Programmed) :
  programs m [] -> (forall a, programs (k a) P) -> programs (bind m k) P.
Proof. intros Hm Hk. apply (programs_bind m k [] P); assumption. Qed.

Lemma programs_configureLinks env links st :
  programs (configureLinks env links st) (PLink <$> links).
Proof.
  revert st. induction links as [|l links IH]; intros st; simpl; [apply programs_ret|].
  apply (programs_bind _ _ [PLink l]); [apply programs_call|intros st'].
  apply programs_bind_r; [apply programs_check|intros _]. apply IH.
Qed.

Lemma programs_disableLinks env links st :
  programs (disableLinks env links st) (PLink <$> (disabled <$> links)).
Proof.
  revert st. induction links as [|l links IH]; intros st; simpl; [apply programs_ret|].
  apply (programs_bind _ _ [PLink (disabled l)]); [apply programs_call|intros st'].
  apply programs_bind_r; [apply programs_check|intros _]. apply IH.
Qed.

Lemma PControl_eta (c : MediaCtlControlParams) :
  programmed (EvSetControl (ctl_entityName c) (controlId c) (value c) (controlName c))
  = Some (PControl c).
Proof. destruct c. reflexivity. Qed.

Lemma programs_setControl env c : programs (setControl env c) [PControl c].
Proof.
  intros s. eexists [_]. split; [reflexivity|]. simpl.
  destruct c. reflexivity.
Qed.

Lemma programs_setHflip env l st :
  programs (setHflip env l st)
           (PControl <$> take 1 (filter (fun c => isHflip c = true) l)).
Proof.
  revert st. induction l as [|c l IH]; intros st; simpl; [apply programs_ret|].
  rewrite filter_cons.
  destruct (decide (isHflip c = true)) as [E|E]; unfold isHflip in E.
  - rewrite E. simpl.
    apply (programs_bind _ _ [PControl c] []); [apply programs_setControl|intros st'].
    apply programs_bind_r; [apply programs_check|intros _]. apply programs_ret.
  - apply not_true_is_false in E. rewrite E. apply IH.
Qed.

Lemma programs_setControls env l st :
  programs (setControls env l st)
           (PControl <$> filter (fun c => isHflip c = false) l).
Proof.
  revert st. induction l as [|c l IH]; intros st; simpl; [apply programs_ret|].
  rewrite filter_cons.
  destruct (decide (isHflip c = false)) as [E|E]; unfold isHflip in E.
  - rewrite E. simpl.
    apply (programs_bind _ _ [PControl c]); [apply programs_setControl|intros st'].
    apply programs_bind_r; [apply programs_check|intros _]. apply IH.
  - apply not_false_is_true in E. rewrite E. apply IH.
Qed.

Lemma programs_setFormats env l st :
  programs (setFormats env l st) (PFormat <$> (sentFormat <$> l)).
Proof.
  revert st. induction l as [|f l IH]; intros st; simpl; [apply programs_ret|].
  apply programs_bind_r; [apply programs_getMediaEntity|intros [st1 entity]].
  apply programs_bind_r; [apply programs_check|intros _].
  apply (programs_bind _ _ [PFormat (sentFormat f)]); [apply programs_call|intros st2].
  apply programs_bind_r; [apply programs_check|intros _].
  apply programs_bind_r; [apply programs_deref|intros e].
  apply programs_bind_r; [apply programs_gets|intros isVideo].
  apply programs_bind_r; [|intros _; apply IH].
  destruct isVideo; [apply programs_modify; reflexivity|apply programs_ret].
Qed.

Lemma programs_resetFormats env l st :
  programs (resetFormats env l st) (PFormat <$> (sentFormat <$> l)).
Proof.
  revert st. induction l as [|f l IH]; intros st; simpl; [apply programs_ret|].
  apply (programs_bind _ _ [PFormat (sentFormat f)]); [apply programs_call|intros st2].
  apply programs_bind_r; [apply programs_check|intros _]. apply IH.
Qed.

Lemma programs_setSelections env l st :
  programs (setSelections env l st)
    (PSelection <$> filter (fun it => isIspSubdev (sel_entityName it) = true) l).
Proof.
  revert st. induction l as [|it l IH]; intros st; simpl; [apply programs_ret|].
  rewrite filter_cons.
  destruct (decide (isIspSubdev (sel_entityName it) = true)) as [E|E].
  - rewrite E. simpl.
    apply (programs_bind _ _ [PSelection it]).
    + intros s. eexists [_]. split; [reflexivity|]. destruct it; reflexivity.
    + intros st'. apply programs_bind_r; [apply programs_check|intros _]. apply IH.
  - apply not_true_is_false in E. rewrite E. apply IH.
Qed.

Lemma programs_setVideoSelections env l st :
  programs (setVideoSelections env l st) (PVideoSelection <$> (select <$> l)).
Proof.
  revert st. induction l as [|it l IH]; intros st; simpl; [apply programs_ret|].
  apply programs_bind_r; [apply programs_getMediaEntity|intros [st1 entity]].
  apply programs_bind_r; [apply programs_check|intros _].
  apply programs_bind_r; [apply programs_deref|intros e].
  apply programs_bind_r; [apply programs_getDevice|intros [st2 vNode]].
  apply programs_bind_r; [apply programs_check|intros _].
  apply programs_bind_r; [apply programs_deref|intros v].
  apply (programs_bind _ _ [PVideoSelection (select it)]); [apply programs_call|intros st3].
  apply programs_bind_r; [apply programs_check|intros _]. apply IH.
Qed.

Lemma programs_programDevice env config :
  programs (programDevice env config) (configureProgram config).
Proof.
  unfold programDevice, configureProgram.
  apply programs_bind_r; [apply programs_call|intros st0].
  apply programs_bind_r; [apply programs_check|intros _].
  apply programs_bind; [apply programs_configureLinks|intros st1].
  apply programs_bind_r; [apply programs_openVideoNodes|intros st2].
  apply programs_bind_r; [apply programs_check|intros _].
  apply programs_bind; [apply programs_setHflip|intros st3].
  apply programs_bind; [apply programs_setFormats|intros st4].
  apply programs_bind; [apply programs_setSelections|intros st5].
  apply programs_bind; [apply programs_setVideoSelections|intros st6].
  apply programs_bind_l; [apply programs_setControls|intros st7].
  apply programs_ret.
Qed.

(** The head of [configure], up to the device calls. *)
Lemma configure_unfold (env : Env) (type : MediaType) (s : MediaCtlHelper)
    (config : MediaCtlConfig) :
  isMediaTypeForPipe env type = false ->
  getMediaCtlConfig env (trace s) (Some type) = Some config ->
  configure env type s =
    runM (programDevice env config)
      (set_mConfigedMediaCtlConfigs (store type config (mConfigedMediaCtlConfigs s))
         (set_mMediaCtlConfig (Some config)
            (set_mPipeConfig None (set_mConfigedPipeType MEDIA_TYPE_MAX_COUNT s)))).
Proof.
  intros Hp Hc. unfold configure. rewrite Hp.
  unfold runM, bind, modify, gets. cbn [trace set_mPipeConfig set_mConfigedPipeType].
  rewrite Hc. reflexivity.
Qed.

(** X10.  A [configure] that reaches the device programs it in one order:
    the links, then the first HFLIP control only, then the formats (each
    with [field] 0 and the width as [stride]), then the selections of the
    isp sub-device, then the selections of the video nodes, then the
    controls other than HFLIP.  Whatever it returns, the calls made are a
    prefix of that program; when it returns [NO_ERROR] they are the whole
    program. *)
Theorem configure_program (env : Env) (type : MediaType) (config : MediaCtlConfig)
    (s s' : MediaCtlHelper) (st : status_t) :
  isMediaTypeForPipe env type = false ->
  getMediaCtlConfig env (trace s) (Some type) = Some config ->
  configure env type s = Some (st, s') ->
  exists evs,
    trace s' = trace s ++ evs
    /\ omap programmed evs `prefix_of` configureProgram config
    /\ (st = NO_ERROR -> omap programmed evs = configureProgram config).
Proof.
  intros Hp Hc. rewrite (configure_unfold env type s config Hp Hc).
  unfold runM.
  pose proof (programs_programDevice env config
    (set_mConfigedMediaCtlConfigs (store type config (mConfigedMediaCtlConfigs s))
       (set_mMediaCtlConfig (Some config)
          (set_mPipeConfig None (set_mConfigedPipeType MEDIA_TYPE_MAX_COUNT s))))) as H.
  destruct (programDevice env config _) as [st1 s1|st1 s1|]; [| |discriminate];
    intros [= <- <-].
  - destruct H as (Hst & evs & T & O). exists evs. split; [exact T|].
    split; [exact O|]. intros E. contradiction.
  - destruct H as (evs & T & O). exists evs. split; [exact T|].
    split; [rewrite O; reflexivity|]. intros _. exact O.
Qed.

Lemma configure_program_witness :
  exists evs,
    trace (configuredHelper helperEnvOK) = trace exampleHelper ++ evs
    /\ omap programmed evs =
       [PLink (exampleLink 1); PLink (exampleLink 2); PControl hflipControl;
        PFormat (sentFormat (exampleFormat "rkisp1_mainpath" 1920 1080));
        PSelection (exampleSelection "rkisp1-isp-subdev");
        PVideoSelection 5%N; PControl gainControl].
Proof.
  destruct (configure_program helperEnvOK CIO2 exampleConfig exampleHelper
              (configuredHelper helperEnvOK) NO_ERROR)
    as (evs & T & _ & O).
  - reflexivity.
  - reflexivity.
  - vm_compute. reflexivity.
  - exists evs. split; [exact T|]. rewrite (O eq_refl). vm_compute. reflexivity.
Defined.

(** X11.  [configure] talks to the device exactly when the type is not a
    pipe type and the provider has a configuration for it; otherwise it
    returns [BAD_VALUE] and leaves the registered nodes alone. *)
Theorem configure_calls_device_iff (env : Env) (type : MediaType)
    (s s' : MediaCtlHelper) (st : status_t) :
  configure env type s = Some (st, s') ->
  (trace s' = trace s <->
     isMediaTypeForPipe env type = true
     \/ getMediaCtlConfig env (trace s) (Some type) = None)
  /\ (trace s' = trace s ->
        st = BAD_VALUE /\ mConfiguredNodes s' = mConfiguredNodes s
        /\ mConfiguredNodesPerName s' = mConfiguredNodesPerName s).
Proof.
  destruct (isMediaTypeForPipe env type) eqn:Hp.
  - unfold configure. rewrite Hp. intros [= <- <-].
    split; [split; [left; reflexivity|reflexivity]|]. intros _. repeat split.
  - destruct (getMediaCtlConfig env (trace s) (Some type)) as [config|] eqn:Hc.
    + rewrite (configure_unfold env type s config Hp Hc). intros H.
      assert (Hgrow : exists evs, trace s' = trace s ++ EvGetMediaDevInfo :: evs).
      { unfold runM in H.
        pose proof (keeps_programDevice_tail (adds (fun _ => True))
                      (adds_refl _) (adds_trans _)
                      ltac:(intros; apply adds_emit; exact I)
                      ltac:(intros; apply adds_emit; exact I)
                      ltac:(intros; apply adds_same_trace; reflexivity)
                      ltac:(intros; apply adds_same_trace; reflexivity)
                      ltac:(intros; apply adds_same_trace; reflexivity)
                      env config
                      (set_mConfigedMediaCtlConfigs
                         (store type config (mConfigedMediaCtlConfigs s))
                         (set_mMediaCtlConfig (Some config)
                            (set_mPipeConfig None
                               (set_mConfigedPipeType MEDIA_TYPE_MAX_COUNT s))))) as K.
        destruct (programDevice env config _) as [st1 s1|st1 s1|]; [| |discriminate];
          injection H as <- <-; destruct K as (evs & T & _); exists evs;
          rewrite T; cbn [trace emit set_trace]; rewrite <- app_assoc; reflexivity. }
      destruct Hgrow as (evs & T).
      assert (Hne : trace s' <> trace s).
      { rewrite T. intros E. apply (f_equal length) in E.
        rewrite length_app in E. simpl in E. lia. }
      split; [split; [intros E; contradiction|intros [E|E]; discriminate]|].
      intros E. contradiction.
    + unfold configure. rewrite Hp. unfold runM, bind, modify, gets.
      cbn [trace set_mPipeConfig set_mConfigedPipeType]. rewrite Hc.
      intros [= <- <-].
      split; [split; [right; reflexivity|reflexivity]|]. intros _. repeat split.
Qed.

Lemma configure_calls_device_iff_witness :
  trace (configuredHelper helperEnvOK) <> trace exampleHelper.
Proof.
  intros E.
  destruct (configure_calls_device_iff helperEnvOK CIO2 exampleHelper
              (configuredHelper helperEnvOK) NO_ERROR) as [[H _] _].
  - vm_compute. reflexivity.
  - destruct (H E) as [F|F]; vm_compute in F; discriminate.
Defined.

(** X12.  Once the type is accepted and the provider has a configuration,
    [configure] records it as the last configuration of that type before
    it makes any call, and keeps it whatever the calls answer: also a
    [configure] that fails leaves the helper with no pipe type configured
    and with the new configuration as the one the size queries report. *)
Theorem configure_records_config (env : Env) (type : MediaType)
    (config : MediaCtlConfig) (s s' : MediaCtlHelper) (st : status_t) :
  isMediaTypeForPipe env type = false ->
  getMediaCtlConfig env (trace s) (Some type) = Some config ->
  configure env type s = Some (st, s') ->
  mConfigedMediaCtlConfigs s' type = config
  /\ (forall t, t <> type -> mConfigedMediaCtlConfigs s' t = mConfigedMediaCtlConfigs s t)
  /\ mMediaCtlConfig s' = Some config
  /\ mConfigedPipeType s' = MEDIA_TYPE_MAX_COUNT
  /\ mPipeConfig s' = None
  /\ (type = CIO2 ->
      getConfigedSensorOutputSize s' =
        match mFormatParams config with
        | [p] => formatSize p
        | _ => 0
        end).
Proof.
  intros Hp Hc. rewrite (configure_unfold env type s config Hp Hc). intros H.
  set (proj := fun x : MediaCtlHelper =>
                 (mConfigedMediaCtlConfigs x, mMediaCtlConfig x,
                  mConfigedPipeType x, mPipeConfig x)).
  assert (K : proj s' =
              (store type config (mConfigedMediaCtlConfigs s), Some config,
               MEDIA_TYPE_MAX_COUNT, None)).
  { apply (keeps_runM (fun a b => proj b = proj a)) in H; [exact H|].
    apply keeps_programDevice; try (intros; reflexivity).
    intros a b c H1 H2. rewrite H2. exact H1. }
  injection K as K1 K2 K3 K4.
  assert (Hstore : mConfigedMediaCtlConfigs s' type = config).
  { rewrite K1. unfold store. rewrite decide_True by reflexivity. reflexivity. }
  split; [exact Hstore|].
  split. { intros t Ht. rewrite K1. unfold store. rewrite decide_False by exact Ht. reflexivity. }
  split; [exact K2|]. split; [exact K3|]. split; [exact K4|].
  intros ->. unfold getConfigedSensorOutputSize. rewrite Hstore.
  destruct (mFormatParams config) as [|p [|q l]]; reflexivity.
Qed.

Lemma configure_records_config_witness :
  getConfigedSensorOutputSize (configuredHelper helperEnvLinkFails) = 2073600
  /\ mConfigedMediaCtlConfigs (configuredHelper helperEnvLinkFails) CIO2 = exampleConfig.
Proof.
  destruct (configure_records_config helperEnvLinkFails CIO2 exampleConfig exampleHelper
              (configuredHelper helperEnvLinkFails) UNKNOWN_ERROR)
    as (H1 & _ & _ & _ & _ & H6).
  - reflexivity.
  - reflexivity.
  - vm_compute. reflexivity.
  - split; [rewrite (H6 eq_refl); reflexivity|exact H1].
Defined.

(** **** The loops that only make calls *)

Lemma set_trace_emit (t : list Event) (e : Event) (s : MediaCtlHelper) :
  set_trace t (emit e s) = set_trace t s.
Proof. reflexivity. Qed.

Lemma disableLinks_exact (env : Env) (links : list MediaCtlLinkParams)
    (st : status_t) (s : MediaCtlHelper) :
  match disableLinks env links st s with
  | Goes st' s' =>
    s' = set_trace (trace s ++ ((fun l => EvConfigureLink (disabled l)) <$> links)) s
    /\ (st' = NO_ERROR \/ (links = [] /\ st' = st))
  | Returned st' s' =>
    st' <> NO_ERROR
    /\ exists n, (n < length links)%nat
       /\ s' = set_trace (trace s ++ ((fun l => EvConfigureLink (disabled l))
                                        <$> take (S n) links)) s
  | Undefined => False
  end.
Proof.
  revert st s. induction links as [|l links IH]; intros st s.
  - simpl. split; [|right; split; reflexivity].
    rewrite app_nil_r. destruct s; reflexivity.
  - cbn [disableLinks]. unfold bind at 1. cbn [call].
    unfold bind at 1. unfold check.
    destruct (Z.eqb_spec (status_of env (trace s) (EvConfigureLink (set_enable false l)))
                         NO_ERROR) as [E|E]; cbn [negb returns ret].
    + specialize (IH (status_of env (trace s) (EvConfigureLink (set_enable false l)))
                     (emit (EvConfigureLink (set_enable false l)) s)).
      destruct (disableLinks env links _ _) as [st' s'|st' s'|]; [| |exact IH].
      * destruct IH as (Hst & n & Hn & ->). split; [exact Hst|].
        exists (S n). split; [simpl; lia|].
        rewrite set_trace_emit. cbn [trace emit set_trace].
        rewrite <- app_assoc. reflexivity.
      * destruct IH as (-> & Hst). split.
        -- rewrite set_trace_emit. cbn [trace emit set_trace].
           rewrite <- app_assoc. reflexivity.
        -- left. destruct Hst as [H|[_ H]]; [exact H|]. rewrite H. exact E.
    + split; [exact E|]. exists O. split; [simpl; lia|]. reflexivity.
Qed.

Lemma configureLinks_exact (env : Env) (links : list MediaCtlLinkParams)
    (st : status_t) (s : MediaCtlHelper) :
  match configureLinks env links st s with
  | Goes st' s' =>
    s' = set_trace (trace s ++ (EvConfigureLink <$> links)) s
    /\ (st' = NO_ERROR \/ (links = [] /\ st' = st))
  | Returned st' s' =>
    st' <> NO_ERROR
    /\ exists n, (n < length links)%nat
       /\ s' = set_trace (trace s ++ (EvConfigureLink <$> take (S n) links)) s
  | Undefined => False
  end.
Proof.
  revert st s. induction links as [|l links IH]; intros st s.
  - simpl. split; [|right; split; reflexivity].
    rewrite app_nil_r. destruct s; reflexivity.
  - cbn [configureLinks]. unfold bind at 1. cbn [call].
    unfold bind at 1. unfold check.
    destruct (Z.eqb_spec (status_of env (trace s) (EvConfigureLink l))
                         NO_ERROR) as [E|E]; cbn [negb returns ret].
    + specialize (IH (status_of env (trace s) (EvConfigureLink l))
                     (emit (EvConfigureLink l) s)).
      destruct (configureLinks env links _ _) as [st' s'|st' s'|]; [| |exact IH].
      * destruct IH as (Hst & n & Hn & ->). split; [exact Hst|].
        exists (S n). split; [simpl; lia|].
        rewrite set_trace_emit. cbn [trace emit set_trace].
        rewrite <- app_assoc. reflexivity.
      * destruct IH as (-> & Hst). split.
        -- rewrite set_trace_emit. cbn [trace emit set_trace].
           rewrite <- app_assoc. reflexivity.
        -- left. destruct Hst as [H|[_ H]]; [exact H|]. rewrite H. exact E.
    + split; [exact E|]. exists O. split; [simpl; lia|]. reflexivity.
Qed.

Lemma resetFormats_exact (env : Env) (l : list MediaCtlFormatParams)
    (st : status_t) (s : MediaCtlHelper) :
  match resetFormats env l st s with
  | Goes st' s' =>
    s' = set_trace (trace s ++ ((fun f => EvSetFormat (sentFormat f)) <$> l)) s
  | Returned st' s' =>
    st' <> NO_ERROR
    /\ exists n, (n < length l)%nat
       /\ s' = set_trace (trace s ++ ((fun f => EvSetFormat (sentFormat f))
                                        <$> take (S n) l)) s
  | Undefined => False
  end.
Proof.
  revert st s. induction l as [|f l IH]; intros st s.
  - simpl. rewrite app_nil_r. destruct s; reflexivity.
  - cbn [resetFormats]. unfold bind at 1. cbn [call].
    unfold bind at 1. unfold check.
    destruct (Z.eqb_spec
                (status_of env (trace s)
                   (EvSetFormat (set_stride (fmt_width (set_field 0 f)) (set_field 0 f))))
                NO_ERROR) as [E|E]; cbn [negb returns ret].
    + specialize (IH (status_of env (trace s)
                        (EvSetFormat (set_stride (fmt_width (set_field 0 f))
                                                 (set_field 0 f))))
                     (emit (EvSetFormat (set_stride (fmt_width (set_field 0 f))
                                                    (set_field 0 f))) s)).
      destruct (resetFormats env l _ _) as [st' s'|st' s'|]; [| |exact IH].
      * destruct IH as (Hst & n & Hn & ->). split; [exact Hst|].
        exists (S n). split; [simpl; lia|].
        rewrite set_trace_emit. cbn [trace emit set_trace].
        rewrite <- app_assoc. reflexivity.
      * rewrite IH. rewrite set_trace_emit. cbn [trace emit set_trace].
        rewrite <- app_assoc. reflexivity.
    + split; [exact E|]. exists O. split; [simpl; lia|]. reflexivity.
Qed.

Lemma closeNodes_exact (env : Env) (ns : list V4L2VideoNode) (st : status_t)
    (s : MediaCtlHelper) :
  exists st',
    closeNodes env (Some <$> ns) st s
    = Goes st' (set_trace (trace s ++ (EvClose <$> ns)) s).
Proof.
  revert st s. induction ns as [|n ns IH]; intros st s.
  - exists st. simpl. unfold ret. rewrite app_nil_r. destruct s; reflexivity.
  - cbn [fmap list_fmap closeNodes]. unfold bind at 1. cbn [deref].
    unfold bind at 1. cbn [call].
    destruct (IH (status_of env (trace s) (EvClose n)) (emit (EvClose n) s)) as (st' & E).
    exists st'. change (list_fmap _ _ Some ns) with (Some <$> ns). rewrite E.
    rewrite set_trace_emit. cbn [trace emit set_trace].
    rewrite <- app_assoc. reflexivity.
Qed.

Lemma closeNodes_null (env : Env) (nodes : list (option V4L2VideoNode)) (st : status_t)
    (s : MediaCtlHelper) :
  None ∈ nodes -> closeNodes env nodes st s = Undefined.
Proof.
  revert st s. induction nodes as [|n nodes IH]; intros st s Hin.
  - inversion Hin.
  - cbn [closeNodes]. unfold bind at 1. destruct n as [n|]; [|reflexivity].
    cbn [deref]. unfold bind at 1. cbn [call].
    apply IH. apply elem_of_cons in Hin as [H|H]; [discriminate H|exact H].
Qed.

Lemma resetLinks_exact (env : Env) (config : option MediaCtlConfig)
    (s : MediaCtlHelper) :
  exists st n,
    resetLinks env config s
    = Some (st, set_trace
                  (trace s ++ ((fun l => EvConfigureLink (disabled l))
                                 <$> take n (linksOf config))) s)
    /\ (n <= length (linksOf config))%nat
    /\ (st = NO_ERROR -> n = length (linksOf config))
    /\ (linksOf config <> [] -> (0 < n)%nat)
    /\ (config = None -> st = NO_ERROR).
Proof.
  unfold resetLinks, runM. destruct config as [config|]; cbn [linksOf].
  - pose proof (disableLinks_exact env (mLinkParams config) NO_ERROR s) as H.
    destruct (disableLinks env (mLinkParams config) NO_ERROR s) as [st' s'|st' s'|];
      [| |contradiction].
    + destruct H as (Hst & n & Hn & ->). exists st', (S n).
      split; [reflexivity|]. split; [lia|]. split; [intros E; contradiction|].
      split; [intros _; lia|]. intros E. discriminate E.
    + destruct H as (-> & Hst). exists st', (length (mLinkParams config)).
      split; [rewrite firstn_all; reflexivity|]. split; [lia|].
      split; [reflexivity|].
      split; [destruct (mLinkParams config); [congruence|simpl; lia]|].
      intros E. discriminate E.
  - exists NO_ERROR, O. split.
    + unfold returns. simpl. rewrite app_nil_r. destruct s; reflexivity.
    + split; [lia|]. split; [reflexivity|]. split; [congruence|]. reflexivity.
Qed.

Lemma closeVideoNodes_exact (env : Env) (s : MediaCtlHelper) (ns : list V4L2VideoNode) :
  mConfiguredNodes s = Some <$> ns ->
  closeVideoNodes env s
  = Some (NO_ERROR,
          set_mConfiguredNodesPerName ∅
            (set_mConfiguredNodes []
               (set_trace (trace s ++ (EvClose <$> ns)) s))).
Proof.
  intros Hns. unfold closeVideoNodes, runM. unfold bind at 1. cbn [gets].
  unfold bind at 1. rewrite Hns.
  destruct (closeNodes_exact env ns NO_ERROR s) as (st' & ->).
  reflexivity.
Qed.


(** X14.  [closeVideoNodes] closes every registered node, in the order of
    registration and whatever a [close] answers, empties both containers
    and returns [NO_ERROR]; a null node among them makes it undefined. *)
Theorem closeVideoNodes_closes_all (env : Env) (s : MediaCtlHelper) :
  (forall ns,
     mConfiguredNodes s = Some <$> ns ->
     closeVideoNodes env s
     = Some (NO_ERROR,
             set_mConfiguredNodesPerName ∅
               (set_mConfiguredNodes []
                  (set_trace (trace s ++ (EvClose <$> ns)) s))))
  /\ (None ∈ mConfiguredNodes s -> closeVideoNodes env s = None).
Proof.
  split.
  - intros ns Hns. apply closeVideoNodes_exact, Hns.
  - intros Hin. unfold closeVideoNodes, runM. unfold bind at 1. cbn [gets].
    unfold bind at 1. rewrite (closeNodes_null env _ NO_ERROR s Hin). reflexivity.
Qed.

Lemma closeVideoNodes_closes_all_witness :
  exists s',
    closeVideoNodes helperEnvLinkFails (configuredHelper helperEnvOK) = Some (NO_ERROR, s')
    /\ mConfiguredNodes s' = []
    /\ drop (length (trace (configuredHelper helperEnvOK))) (trace s')
       = [EvClose 104%N; EvClose 106%N; EvClose 108%N].
Proof.
  eexists. split.
  - apply (proj1 (closeVideoNodes_closes_all helperEnvLinkFails
                    (configuredHelper helperEnvOK)) [104%N; 106%N; 108%N]).
    vm_compute. reflexivity.
  - split; vm_compute; reflexivity.
Defined.



(** **** Opening the video nodes *)










(** **** Switching the pipe *)

Lemma take_prefix_of {A} (n : nat) (l : list A) : take n l `prefix_of` l.
Proof. exists (drop n l). symmetry. apply take_drop. Qed.

Lemma configureNewPipe_exact (env : Env) (t : MediaType) (rf : bool) (st : status_t)
    (s : MediaCtlHelper) :
  match configureNewPipe env t rf st s with
  | Returned st' s' =>
    (getMediaCtlConfig env (trace s) (Some t) = None /\ s' = s /\ st' = OK)
    \/ exists c en fm,
         getMediaCtlConfig env (trace s) (Some t) = Some c
         /\ s' = set_trace (trace s ++ (EvConfigureLink <$> en)
                            ++ ((fun f => EvSetFormat (sentFormat f)) <$> fm))
                   (set_mConfigedPipeType (Some t) (set_mPipeConfig (Some c) s))
         /\ en `prefix_of` mLinkParams c
         /\ fm `prefix_of` mFormatParams c
         /\ (fm <> [] -> en = mLinkParams c /\ rf = true)
         /\ (st' = OK -> en = mLinkParams c
                         /\ fm = if rf then mFormatParams c else [])
  | _ => False
  end.
Proof.
  unfold configureNewPipe. unfold bind at 1. cbn [gets].
  destruct (getMediaCtlConfig env (trace s) (Some t)) as [c|] eqn:Hc.
  - unfold bind at 1. cbn [modify]. unfold bind at 1. cbn [modify].
    unfold bind at 1.
    pose proof (configureLinks_exact env (mLinkParams c) st
                  (set_mConfigedPipeType (Some t) (set_mPipeConfig (Some c) s))) as HL.
    destruct (configureLinks env (mLinkParams c) st _) as [st1 s1|st1 s1|];
      [| |contradiction].
    + destruct HL as (Hst & n & Hn & ->). right.
      exists c, (take (S n) (mLinkParams c)), [].
      split; [reflexivity|]. split; [simpl; rewrite app_nil_r; reflexivity|].
      split; [apply take_prefix_of|]. split; [apply prefix_nil|].
      split; [congruence|]. intros E. contradiction.
    + destruct HL as (-> & _). destruct rf; cbn [negb returns].
      * unfold bind at 1.
        match goal with
        | |- context [resetFormats env ?l ?x ?y] =>
          pose proof (resetFormats_exact env l x y) as HF;
          destruct (resetFormats env l x y) as [st2 s2|st2 s2|]
        end; [| |contradiction].
        -- destruct HF as (Hst & n & Hn & ->). right.
           exists c, (mLinkParams c), (take (S n) (mFormatParams c)).
           split; [reflexivity|].
           split; [cbn [trace set_trace]; rewrite <- app_assoc; reflexivity|].
           split; [reflexivity|]. split; [apply take_prefix_of|].
           split; [intros _; split; reflexivity|]. intros E. contradiction.
        -- rewrite HF. right. exists c, (mLinkParams c), (mFormatParams c).
           split; [reflexivity|].
           split; [cbn [trace set_trace]; rewrite <- app_assoc; reflexivity|].
           split; [reflexivity|]. split; [reflexivity|].
           split; [intros _; split; reflexivity|]. intros _. split; reflexivity.
      * right. exists c, (mLinkParams c), [].
        split; [reflexivity|]. split; [simpl; rewrite app_nil_r; reflexivity|].
        split; [reflexivity|]. split; [apply prefix_nil|].
        split; [congruence|]. intros _. split; reflexivity.
  - left. split; [reflexivity|]. split; reflexivity.
Qed.

Lemma configurePipe_exact (env : Env) (t : MediaType) (rf : bool)
    (s s' : MediaCtlHelper) (st : status_t) :
  configurePipe env t rf s = Some (st, s') ->
  exists dis en fm,
    trace s' = trace s ++ ((fun l => EvConfigureLink (disabled l)) <$> dis)
               ++ (EvConfigureLink <$> en)
               ++ ((fun f => EvSetFormat (sentFormat f)) <$> fm)
    /\ dis `prefix_of` linksOf (getMediaCtlConfig env (trace s) (mConfigedPipeType s))
    /\ (en <> [] \/ fm <> [] ->
        dis = linksOf (getMediaCtlConfig env (trace s) (mConfigedPipeType s))
        /\ exists c,
             mPipeConfig s' = Some c /\ mConfigedPipeType s' = Some t
             /\ isMediaTypeForPipe env t = true
             /\ en `prefix_of` mLinkParams c /\ fm `prefix_of` mFormatParams c
             /\ (fm <> [] -> en = mLinkParams c /\ rf = true))
    /\ (isMediaTypeForPipe env t = false \/ mConfigedPipeType s = Some t -> s' = s)
    /\ (mConfigedPipeType s' = mConfigedPipeType s
        \/ mConfigedPipeType s' = Some t /\ dis
           = linksOf (getMediaCtlConfig env (trace s) (mConfigedPipeType s))).
Proof.
  unfold configurePipe, runM.
  assert (Hnil : forall x : MediaCtlHelper,
            trace x = trace x
                      ++ ((fun l => EvConfigureLink (disabled l)) <$> [])
                      ++ (EvConfigureLink <$> [])
                      ++ ((fun f => EvSetFormat (sentFormat f)) <$> [])).
  { intros x. simpl. rewrite app_nil_r. reflexivity. }
  destruct (isMediaTypeForPipe env t) eqn:Hp; cbn [negb].
  2:{ intros [= <- <-]. exists [], [], []. split; [apply Hnil|].
      split; [apply prefix_nil|]. split; [intros [H|H]; congruence|].
      split; [reflexivity|]. left. reflexivity. }
  unfold bind at 1. cbn [gets].
  destruct (decide (mConfigedPipeType s = Some t)) as [Hsame|Hdiff].
  { intros [= <- <-]. exists [], [], []. split; [apply Hnil|].
    split; [apply prefix_nil|]. split; [intros [H|H]; congruence|].
    split; [reflexivity|]. left. reflexivity. }
  unfold bind at 1. cbn [gets]. unfold bind at 1.
  set (old := getMediaCtlConfig env (trace s) (mConfigedPipeType s)).
  assert (Hdis :
    match (match old with
           | Some config => disableLinks env (mLinkParams config) OK
           | None => ret OK
           end) s with
    | Goes _ s1 =>
      s1 = set_trace (trace s ++ ((fun l => EvConfigureLink (disabled l))
                                    <$> linksOf old)) s
    | Returned st1 s1 =>
      exists n, s1 = set_trace (trace s ++ ((fun l => EvConfigureLink (disabled l))
                                              <$> take n (linksOf old))) s
    | Undefined => False
    end).
  { destruct old as [c|]; cbn [linksOf].
    - pose proof (disableLinks_exact env (mLinkParams c) OK s) as H.
      destruct (disableLinks env (mLinkParams c) OK s) as [st1 s1|st1 s1|]; [| |exact H].
      + destruct H as (_ & n & _ & ->). exists (S n). reflexivity.
      + destruct H as (-> & _). reflexivity.
    - unfold ret. simpl. rewrite app_nil_r. destruct s; reflexivity. }
  destruct ((match old with
             | Some config => disableLinks env (mLinkParams config) OK
             | None => ret OK
             end) s) as [st1 s1|st1 s1|]; [| |contradiction].
  - destruct Hdis as (n & ->). intros [= <- <-].
    exists (take n (linksOf old)), [], []. split.
    { cbn [trace set_trace]. simpl. rewrite app_nil_r. reflexivity. }
    split; [apply take_prefix_of|]. split; [intros [H|H]; congruence|].
    split; [intros [H|H]; congruence|]. left. reflexivity.
  - subst s1.
    match goal with
    | |- context [configureNewPipe env t rf ?x ?y] =>
      pose proof (configureNewPipe_exact env t rf x y) as HN;
      destruct (configureNewPipe env t rf x y) as [st2 s2|st2 s2|]
    end; [|contradiction|contradiction].
    intros [= <- <-].
    destruct HN as [(_ & -> & _)|(c & en & fm & _ & -> & Hen & Hfm & Hfm' & _)].
    + exists (linksOf old), [], []. split.
      { cbn [trace set_trace]. simpl. rewrite app_nil_r. reflexivity. }
      split; [reflexivity|]. split; [intros [H|H]; congruence|].
      split; [intros [H|H]; congruence|]. left. reflexivity.
    + exists (linksOf old), en, fm. split.
      { cbn [trace set_trace]. rewrite <- app_assoc. reflexivity. }
      split; [reflexivity|]. split.
      { intros _. split; [reflexivity|]. exists c.
        split; [reflexivity|]. split; [reflexivity|]. split; [reflexivity|].
        split; [exact Hen|]. split; [exact Hfm|exact Hfm']. }
      split; [intros [H|H]; congruence|]. right. split; reflexivity.
Qed.



(** X18.  As soon as [configurePipe] has sent one link enabled, it has
    recorded the new pipe type: whatever that call returned, also the
    failure of a later link, calling it again for the same type returns
    [OK] and makes no call, so the links that were not set stay unset. *)
Theorem configurePipe_not_retried (env : Env) (t : MediaType) (rf : bool)
    (s s' : MediaCtlHelper) (st : status_t) (l : MediaCtlLinkParams) :
  configurePipe env t rf s = Some (st, s') ->
  EvConfigureLink l ∈ drop (length (trace s)) (trace s') ->
  enable l = true ->
  forall rf', configurePipe env t rf' s' = Some (OK, s').
Proof.
  intros H Hin Hen rf'.
  destruct (configurePipe_exact env t rf s s' st H)
    as (dis & en & fm & T & _ & Hn & _ & _).
  rewrite T, drop_app_length in Hin.
  assert (Hne : en <> []).
  { intros ->. simpl in Hin. apply elem_of_app in Hin as [Hin|Hin].
    - apply list_elem_of_fmap in Hin as (l' & E & _). injection E as ->.
      discriminate Hen.
    - apply list_elem_of_fmap in Hin as (f & E & _). discriminate E. }
  destruct (Hn (or_introl Hne)) as (_ & c & _ & Ht & Hp & _).
  unfold configurePipe, runM. rewrite Hp. cbn [negb].
  unfold bind at 1. cbn [gets]. rewrite decide_True by exact Ht. reflexivity.
Qed.

Lemma configurePipe_not_retried_witness :
  exists s',
    configurePipe helperEnvLinkFails IMGU_VIDEO true exampleHelper
    = Some (UNKNOWN_ERROR, s')
    /\ drop 1 (trace s') = [EvConfigureLink (exampleLink 3); EvConfigureLink (exampleLink 4)]
    /\ configurePipe helperEnvLinkFails IMGU_VIDEO true s' = Some (OK, s').
Proof.
  destruct (configurePipe helperEnvLinkFails IMGU_VIDEO true exampleHelper)
    as [[st s']|] eqn:E; [|vm_compute in E; discriminate].
  assert (st = UNKNOWN_ERROR) as -> by (vm_compute in E; injection E as <- _; reflexivity).
  exists s'. split; [reflexivity|].
  assert (T : drop 1 (trace s')
              = [EvConfigureLink (exampleLink 3); EvConfigureLink (exampleLink 4)]).
  { vm_compute in E. injection E as <-. reflexivity. }
  split; [exact T|].
  apply (configurePipe_not_retried helperEnvLinkFails IMGU_VIDEO true exampleHelper
           s' UNKNOWN_ERROR (exampleLink 3) E); [|reflexivity].
  change (length (trace exampleHelper)) with 1%nat.
  rewrite T. apply list_elem_of_here.
Defined.

(** X19.  Switching to a pipe type the provider has no configuration for
    disables the links of the pipe type configured before and returns
    [OK], but the helper still records the old type: switching back is a
    call that returns [OK] without enabling them again. *)
Theorem configurePipe_without_configuration (env : Env) (t old : MediaType) (rf : bool)
    (s : MediaCtlHelper) (oldc : MediaCtlConfig) :
  isMediaTypeForPipe env t = true ->
  isMediaTypeForPipe env old = true ->
  mConfigedPipeType s = Some old ->
  old <> t ->
  getMediaCtlConfig env (trace s) (Some old) = Some oldc ->
  (forall tr l, status_of env tr (EvConfigureLink l) = NO_ERROR) ->
  (forall tr, getMediaCtlConfig env tr (Some t) = None) ->
  let s1 := set_trace (trace s ++ ((fun l => EvConfigureLink (disabled l))
                                     <$> mLinkParams oldc)) s in
  configurePipe env t rf s = Some (OK, s1)
  /\ forall rf', configurePipe env old rf' s1 = Some (OK, s1).
Proof.
  intros Hp Hpo Hold Hne Hc Hok Hnone s1. split.
  - assert (Hgen : forall links st0 s0 st' s',
              disableLinks env links st0 s0 <> Returned st' s').
    { clear -Hok. induction links as [|l links IH]; intros st0 s0 st' s'.
      - discriminate.
      - cbn [disableLinks]. unfold bind at 1. cbn [call].
        unfold bind at 1. unfold check. rewrite Hok. cbn [negb ret].
        apply IH. }
    unfold configurePipe, runM. rewrite Hp. cbn [negb].
    unfold bind at 1. cbn [gets].
    rewrite decide_False by (rewrite Hold; congruence).
    unfold bind at 1. cbn [gets]. rewrite Hold, Hc.
    unfold bind at 1.
    pose proof (disableLinks_exact env (mLinkParams oldc) OK s) as HD.
    destruct (disableLinks env (mLinkParams oldc) OK s) as [st1 s2|st1 s2|] eqn:ED;
      [exfalso; exact (Hgen _ _ _ _ _ ED)| |contradiction].
    destruct HD as (-> & _).
    unfold configureNewPipe. unfold bind at 1. cbn [gets].
    rewrite Hnone. reflexivity.
  - intros rf'. unfold configurePipe, runM. rewrite Hpo. cbn [negb].
    unfold bind at 1. cbn [gets]. subst s1. cbn [mConfigedPipeType set_trace].
    rewrite decide_True by exact Hold. reflexivity.
Qed.

Lemma configurePipe_without_configuration_witness :
  exists s0,
    configurePipe helperEnvOK IMGU_VIDEO true exampleHelper = Some (OK, s0)
    /\ configurePipe helperEnvOK IMGU_STILL true s0
       = Some (OK, set_trace (trace s0
                              ++ [EvConfigureLink (disabled (exampleLink 3));
                                  EvConfigureLink (disabled (exampleLink 4))]) s0)
    /\ mConfigedPipeType s0 = Some IMGU_VIDEO.
Proof.
  destruct (configurePipe helperEnvOK IMGU_VIDEO true exampleHelper)
    as [[st s0]|] eqn:E; [|vm_compute in E; discriminate].
  assert (st = OK) as -> by (vm_compute in E; injection E as <- _; reflexivity).
  assert (Ht : mConfigedPipeType s0 = Some IMGU_VIDEO)
    by (vm_compute in E; injection E as <-; reflexivity).
  exists s0. split; [reflexivity|]. split; [|exact Ht].
  apply (proj1 (configurePipe_without_configuration helperEnvOK IMGU_STILL IMGU_VIDEO
                  true s0 examplePipeConfig eq_refl eq_refl Ht
                  ltac:(discriminate) eq_refl
                  ltac:(intros; reflexivity) ltac:(intros; reflexivity))).
Defined.

(** **** The size queries and what is never done *)

(** X20.  [getConfigedHwPathSize] reports the area of the last format of the
    common configuration whose entity name is [pathName] as a C string;
    when no format has that name it leaves [size] as the caller passed
    it. *)
Theorem getConfigedHwPathSize_last_match (pathName : string) (size : Z)
    (s : MediaCtlHelper) :
  getConfigedHwPathSize pathName size s =
    match last (filter (fun p => strcmp_is_0 pathName (fmt_entityName p) = true)
                       (mFormatParams (mConfigedMediaCtlConfigs s IMGU_COMMON))) with
    | Some p => formatSize p
    | None => size
    end.
Proof.
  unfold getConfigedHwPathSize.
  induction (mFormatParams (mConfigedMediaCtlConfigs s IMGU_COMMON)) as [|p l IH]
    using rev_ind.
  - reflexivity.
  - rewrite fold_left_app, filter_app. cbn [fold_left]. rewrite filter_cons, filter_nil.
    destruct (decide (strcmp_is_0 pathName (fmt_entityName p) = true)) as [E|E].
    + rewrite E, last_snoc. reflexivity.
    + apply not_true_is_false in E. rewrite E, app_nil_r. exact IH.
Qed.

Lemma not_close_programmed (e : Event) : programmed e <> None -> isClose e = false.
Proof. destruct e; simpl; congruence. Qed.

(** X21.  Only [closeVideoNodes] closes a video node: [configure],
    [configurePipe], [openVideoNodes] and [resetLinks] never call [close],
    so the nodes that [openVideoNodes] drops from the containers when it
    starts are left open. *)
Theorem only_closeVideoNodes_closes (env : Env) (s s' : MediaCtlHelper) (st : status_t) :
  (forall type, configure env type s = Some (st, s') ->
                adds (fun e => isClose e = false) s s')
  /\ (forall t rf, configurePipe env t rf s = Some (st, s') ->
                   adds (fun e => isClose e = false) s s')
  /\ (openVideoNodes env s = Some (st, s') -> adds (fun e => isClose e = false) s s')
  /\ (forall config, resetLinks env config s = Some (st, s') ->
                     adds (fun e => isClose e = false) s s').
Proof.
  assert (Hq : forall e x, programmed e = None -> isClose e = false ->
                           adds (fun e => isClose e = false) x (emit e x))
    by (intros e x _ H; apply adds_emit, H).
  assert (Hp : forall e x, programmed e <> None ->
                           adds (fun e => isClose e = false) x (emit e x))
    by (intros e x H; apply adds_emit, not_close_programmed, H).
  assert (Hm : forall (f : MediaCtlHelper -> MediaCtlHelper),
                 (forall x, trace (f x) = trace x) ->
                 forall x, adds (fun e => isClose e = false) x (f x))
    by (intros f H x; apply adds_same_trace, H).
  split; [|split; [|split]].
  - intros type H.
    destruct (isMediaTypeForPipe env type) eqn:Hpipe.
    { unfold configure in H. rewrite Hpipe in H. injection H as <- <-. apply adds_refl. }
    destruct (getMediaCtlConfig env (trace s) (Some type)) as [config|] eqn:Hc.
    + rewrite (configure_unfold env type s config Hpipe Hc) in H.
      apply (keeps_runM (adds (fun e => isClose e = false))) in H.
      * destruct H as (evs & T & F). exists evs. split; [exact T|exact F].
      * apply keeps_programDevice;
          [apply adds_refl|apply adds_trans|exact Hq|exact Hp| | |];
          intros v x; apply Hm; reflexivity.
    + unfold configure in H. rewrite Hpipe in H. unfold runM, bind, modify, gets in H.
      cbn [trace set_mPipeConfig set_mConfigedPipeType] in H. rewrite Hc in H.
      injection H as <- <-. apply adds_same_trace. reflexivity.
  - intros t rf H. destruct (configurePipe_exact env t rf s s' st H)
      as (dis & en & fm & T & _).
    eexists. split; [exact T|].
    rewrite !Forall_app, !Forall_fmap. repeat split; apply Forall_true; reflexivity.
  - intros H.
    apply (keeps_openVideoNodes (adds (fun e => isClose e = false))
             (adds_refl _) (adds_trans _) Hq) with (env := env) (st := st);
      [| |exact H]; intros v x; apply Hm; reflexivity.
  - intros config H.
    destruct (resetLinks_exact env config s) as (st1 & n & E & _).
    rewrite E in H. injection H as <- <-.
    eexists. split; [reflexivity|].
    rewrite Forall_fmap. apply Forall_true. reflexivity.
Qed.

Lemma only_closeVideoNodes_closes_witness :
  adds (fun e => isClose e = false) exampleHelper (configuredHelper helperEnvOK)
  /\ mConfiguredNodes (configuredHelper helperEnvOK) <> [].
Proof.
  split.
  - apply (proj1 (only_closeVideoNodes_closes helperEnvOK exampleHelper
                    (configuredHelper helperEnvOK) NO_ERROR) CIO2).
    vm_compute. reflexivity.
  - vm_compute. discriminate.
Defined.
